(** * arcgis_sketch_tool: a shallow embedding of the sketch, measurement and
    export services, with the properties of their specification.

    Conventions of the embedding.
    - A JavaScript number that is a coordinate, an angle, a pixel offset or a
      font size is an exact rational ([Q]); [Math.round] is exact on them.
    - A number that comes back from the geometry engine may be non-finite, so
      measurement values are [jsnum]: a rational, an infinity or NaN.
    - A graphic is an object with identity: graphics live in a heap indexed
      by references, layers and maps hold references.
    - ArcGIS and the JavaScript runtime (geometry engine, view projector,
      [Graphic.fromJSON], [Math.atan2], [toFixed], the wall clock and the
      random generator) are interfaces, given as type classes. *)

From Stdlib Require Import ZArith QArith Qabs Qround Ascii Lia Lqa.
From stdpp Require Import gmap strings pretty list fin_maps.

Set Warnings "-register-all".

(** ** JavaScript values *)

Module Js.

Inductive jsnum : Type :=
  | Fin (q : Q)
  | PosInf
  | NegInf
  | NaN.

(** [isFinite(v)] on a number. *)
Definition isFinite (v : jsnum) : bool :=
  match v with Fin _ => true | _ => false end.

(** [a === b] on numbers: NaN is equal to nothing, itself included. *)
Definition num_eqb (a b : jsnum) : bool :=
  match a, b with
  | Fin x, Fin y => Qeq_bool x y
  | PosInf, PosInf => true
  | NegInf, NegInf => true
  | _, _ => false
  end.

Definition Qltb (a b : Q) : bool := negb (Qle_bool b a).

(** [Math.abs(v) >= bound] for a finite, positive bound. *)
Definition abs_geb (v : jsnum) (bound : Q) : bool :=
  match v with
  | Fin q => Qle_bool bound (Qabs q)
  | PosInf | NegInf => true
  | NaN => false
  end.

(** [v / d] for a finite, positive divisor. *)
Definition div_by (v : jsnum) (d : Q) : jsnum :=
  match v with
  | Fin q => Fin (q / d)
  | other => other
  end.

(** [Math.round(x)]: the nearest integer, halves rounded up. *)
Definition round (x : Q) : Z := Qfloor (x + (1 # 2)).

(** A value as [JSON.parse] or any caller can hand it over. An object is
    its list of own properties; the first binding of a key is the live one. *)
Inductive value : Type :=
  | VUndefined
  | VNull
  | VBool (b : bool)
  | VNum (n : jsnum)
  | VStr (s : string)
  | VArr (items : list value)
  | VObj (fields : list (string * value)).

(** [!v] *)
Definition falsy (v : value) : bool :=
  match v with
  | VUndefined | VNull => true
  | VBool b => negb b
  | VNum (Fin q) => Qeq_bool q 0
  | VNum NaN => true
  | VNum _ => false
  | VStr s => if decide (s = "") then true else false
  | VArr _ | VObj _ => false
  end.

(** [typeof v === 'object'] *)
Definition typeof_object (v : value) : bool :=
  match v with
  | VNull | VArr _ | VObj _ => true
  | _ => false
  end.

Fixpoint assoc (k : string) (fields : list (string * value)) : option value :=
  match fields with
  | [] => None
  | (k', v) :: rest => if decide (k = k') then Some v else assoc k rest
  end.

(** [v.k] on a value that is not null or undefined: a missing property
    reads as [undefined]. The keys read by the importer are not indices or
    built-in properties, so arrays and primitives have none of them. *)
Definition get (v : value) (k : string) : value :=
  match v with
  | VObj fields => default VUndefined (assoc k fields)
  | _ => VUndefined
  end.

(** Whether [k] is an own property of [v]. *)
Definition has_field (v : value) (k : string) : bool :=
  match v with
  | VObj fields => bool_decide (is_Some (assoc k fields))
  | _ => false
  end.

(** [v ?? d] *)
Definition nullish_or (v d : value) : value :=
  match v with
  | VUndefined | VNull => d
  | _ => v
  end.

(** [v === n] for a number literal [n]. *)
Definition strict_eq_num (v : value) (n : Q) : bool :=
  match v with
  | VNum x => num_eqb x (Fin n)
  | _ => false
  end.

End Js.

(** ** export.service.ts *)

Module ExportService.
Import Js.

(** [Graphic.fromJSON] and [Graphic.toJSON] of ArcGIS. *)
Class GraphicJson (G : Type) := {
  fromJSON : value -> G;
  toJSON : G -> value
}.

Record Imported (G : Type) := mkImported {
  draw : list G;
  labels : list G;
  text : list G
}.
Arguments mkImported {G}.
Arguments draw {G}.
Arguments labels {G}.
Arguments text {G}.

(** What [importEsriJson] ends with: a returned object, or the thrown
    [Error(`Unsupported export version: ${version}`)], kept with the
    offending version instead of its rendering. *)
Inductive outcome (G : Type) : Type :=
  | Returned (r : Imported G)
  | UnsupportedExportVersion (version : value).
Arguments Returned {G}.
Arguments UnsupportedExportVersion {G}.

Section Service.
Context {G : Type} `{GraphicJson G}.

(** [Array.isArray(x) ? x.map((j) => Graphic.fromJSON(j)) : []] *)
Definition graphicsOf (x : value) : list G :=
  match x with
  | VArr items => map fromJSON items
  | _ => []
  end.

Definition exportEsriJson (d l t : list G) : value :=
  VObj [ ("version", VNum (Fin 2));
         ("draw", VArr (map toJSON d));
         ("labels", VArr (map toJSON l));
         ("text", VArr (map toJSON t)) ].

Definition importEsriJson (payload : value) : outcome G :=
  if falsy payload || negb (typeof_object payload) then
    Returned (mkImported [] [] [])
  else
    let version := nullish_or (get payload "version") (VNum (Fin 1)) in
    if strict_eq_num version 1 then
      Returned (mkImported (graphicsOf (get payload "draw"))
                           (graphicsOf (get payload "labels"))
                           [])
    else if negb (strict_eq_num version 2) then
      UnsupportedExportVersion version
    else
      Returned (mkImported (graphicsOf (get payload "draw"))
                           (graphicsOf (get payload "labels"))
                           (graphicsOf (get payload "text"))).

End Service.
End ExportService.

(** ** ArcGIS geometries *)

Module Geometry.

(** A spatial reference is opaque to this code: its well-known id. *)
Definition SpatialReference := nat.

(** A vertex [[x, y]] of a path or ring. *)
Definition Vertex := (Q * Q)%type.

Record Point := mkPoint {
  x : Q;
  y : Q;
  point_sr : SpatialReference
}.

Record Polyline := mkPolyline {
  paths : list (list Vertex);
  polyline_sr : SpatialReference
}.

Record Polygon := mkPolygon {
  rings : list (list Vertex);
  polygon_sr : SpatialReference
}.

Inductive Geom : Type :=
  | GPoint (p : Point)
  | GPolyline (l : Polyline)
  | GPolygon (g : Polygon).

(** The computed properties of ArcGIS geometries read by the services:
    [polygon.centroid] and [geometry.extent?.center], absent when ArcGIS
    has none. *)
Class Accessors := {
  centroid : Polygon -> option Point;
  extent_center : Geom -> option Point
}.

End Geometry.

(** ** measurement.service.ts *)

Module MeasurementService.
Import Js Geometry.

Inductive LinearUnit : Type :=
  | Meters | Kilometers | Feet | Yards | Miles | NauticalMiles.

Inductive AreaUnit : Type :=
  | SquareMeters | SquareKilometers | SquareFeet | SquareYards
  | SquareMiles | Acres | Hectares.

Definition linear_unit_name (u : LinearUnit) : string :=
  match u with
  | Meters => "meters" | Kilometers => "kilometers" | Feet => "feet"
  | Yards => "yards" | Miles => "miles" | NauticalMiles => "nautical-miles"
  end.

Definition area_unit_name (u : AreaUnit) : string :=
  match u with
  | SquareMeters => "square-meters" | SquareKilometers => "square-kilometers"
  | SquareFeet => "square-feet" | SquareYards => "square-yards"
  | SquareMiles => "square-miles" | Acres => "acres" | Hectares => "hectares"
  end.

(** What a call into the geometry engine hands back. Its typings promise a
    number; the service guards against [null] and [undefined] as well. *)
Inductive engineResult : Type :=
  | Num (v : jsnum)
  | Null
  | Undefined.

(** [@arcgis/core/geometry/geometryEngine] *)
Class GeometryEngine := {
  engine_geodesicLength : Polyline -> LinearUnit -> engineResult;
  engine_geodesicArea : Polygon -> AreaUnit -> engineResult;
  engine_planarArea : Polygon -> AreaUnit -> engineResult;
  engine_distance : Point -> Point -> LinearUnit -> engineResult;
  engine_intersects : Geom -> Geom -> bool
}.

(** The pieces of [Math] and [Number] the services call.
    [atan2_deg dy dx] is [Math.atan2(dy, dx) * 180 / Math.PI];
    [cos_deg a] and [sin_deg a] are [Math.cos] and [Math.sin] of
    [a * (Math.PI / 180)]; [toFixed v d] is [v.toFixed(d)]. *)
Class JsMath := {
  atan2_deg : Q -> Q -> Q;
  cos_deg : Q -> Q;
  sin_deg : Q -> Q;
  toFixed : jsnum -> Z -> string
}.

(** The fields of the service: defaults are metric with 2 decimals. *)
Record Units := mkUnits {
  lengthUnit : LinearUnit;
  areaUnit : AreaUnit;
  decimals : Z
}.

Definition defaultUnits : Units := mkUnits Meters SquareMeters 2.

Definition setUnits (len : option LinearUnit) (area : option AreaUnit)
    (dec : option Z) (u : Units) : Units :=
  mkUnits (default (lengthUnit u) len)
          (default (areaUnit u) area)
          (default (decimals u) dec).

(** [r ?? 0] *)
Definition or_zero (r : engineResult) : jsnum :=
  match r with
  | Num v => v
  | Null | Undefined => Fin 0
  end.

(** [isFinite(r)]: [null] converts to 0, [undefined] to NaN. *)
Definition result_isFinite (r : engineResult) : bool :=
  match r with
  | Num v => isFinite v
  | Null => true
  | Undefined => false
  end.

(** [r === 0] *)
Definition result_is_zero (r : engineResult) : bool :=
  match r with
  | Num v => num_eqb v (Fin 0)
  | _ => false
  end.

Section Service.
Context `{GeometryEngine} `{Accessors} `{JsMath}.
Variable u : Units.

Definition geodesicLength (geom : Polyline) : jsnum :=
  or_zero (engine_geodesicLength geom (lengthUnit u)).

Definition geodesicPerimeter (geom : Polygon) : jsnum :=
  geodesicLength (mkPolyline (rings geom) (polygon_sr geom)).

Definition geodesicArea (geom : Polygon) : jsnum :=
  let v := engine_geodesicArea geom (areaUnit u) in
  if negb (result_isFinite v) || result_is_zero v then
    or_zero (engine_planarArea geom (areaUnit u))
  else or_zero v.

Definition radiusFromPolygon (geom : Polygon) : jsnum :=
  match centroid geom, rings geom with
  | Some center, ((x0, y0) :: _) :: _ =>
      or_zero (engine_distance center (mkPoint x0 y0 (polygon_sr geom))
                               (lengthUnit u))
  | _, _ => Fin 0
  end.

Definition formatLength (val : jsnum) : string :=
  match lengthUnit u with
  | Meters =>
      if abs_geb val 1000 then toFixed (div_by val 1000) (decimals u) +:+ " km"
      else toFixed val (decimals u) +:+ " m"
  | other => toFixed val (decimals u) +:+ " " +:+ linear_unit_name other
  end.

Definition formatArea (val : jsnum) : string :=
  match areaUnit u with
  | SquareMeters =>
      if abs_geb val 1000000
      then toFixed (div_by val 1000000) (decimals u) +:+ " km²"
      else toFixed val (decimals u) +:+ " m²"
  | other => toFixed val (decimals u) +:+ " " +:+ area_unit_name other
  end.

(** The body of the loops [for (i = 0; i < path.length - 1; i++)] over
    [path[i]] and [path[i + 1]]: the pairs of neighbouring vertices. *)
Fixpoint edges (path : list Vertex) : list (Vertex * Vertex) :=
  match path with
  | a :: ((b :: _) as rest) => (a, b) :: edges rest
  | _ => []
  end.

(** [(geom as Polyline).paths] if there is one, else [pg.rings ?? []]. *)
Definition parts (geom : Geom) : list (list Vertex) :=
  match geom with
  | GPolyline pl => paths pl
  | GPolygon pg => rings pg
  | GPoint _ => []
  end.

Definition sr_of (geom : Geom) : SpatialReference :=
  match geom with
  | GPolyline pl => polyline_sr pl
  | GPolygon pg => polygon_sr pg
  | GPoint p => point_sr p
  end.

Definition getSegments (geom : Geom) : list (Vertex * Vertex) :=
  concat (map edges (parts geom)).

Definition segmentLengths (geom : Geom) : list jsnum :=
  concat (map (fun path =>
                 map (fun '(a, b) =>
                        geodesicLength (mkPolyline [[a; b]] (sr_of geom)))
                     (edges path))
              (parts geom)).

Definition centroidLabelPoint (geom : Geom) : option Point :=
  match geom with
  | GPolygon pg => centroid pg
  | other => extent_center other
  end.

Definition getSegmentMidpoint (segment : Vertex * Vertex)
    (sr : SpatialReference) : Point :=
  let '((x1, y1), (x2, y2)) := segment in
  mkPoint ((x1 + x2) / 2) ((y1 + y2) / 2) sr.

Definition getSegmentAngle (segment : Vertex * Vertex) : Q :=
  let '((x1, y1), (x2, y2)) := segment in
  let dx := (x2 - x1)%Q in
  let dy := (y2 - y1)%Q in
  atan2_deg dy dx.

End Service.
End MeasurementService.

(** ** draw-settings.ts and sketch.service.ts *)

Module SketchService.
Import Js Geometry MeasurementService.

Inductive GeometryTool : Type :=
  | ToolPoint | ToolPolyline | ToolPolygon | ToolRectangle | ToolCircle
  | ToolText.

Record TextSettings := mkTextSettings {
  content : string;
  fontFamily : string;
  fontSize : Q;
  color : string;
  haloColor : string;
  haloSize : Q
}.

Record LabelSettings := mkLabelSettings {
  showDuringDraw : bool;
  showSegmentLengths : bool;
  showTotals : bool;
  showCircleRadius : bool;
  showTitle : bool
}.

Record DrawSettings := mkDrawSettings {
  tool : GeometryTool;
  fillColor : string;
  fillOpacity : Q;
  outlineColor : string;
  outlineWidth : Q;
  text : TextSettings;
  labels : LabelSettings
}.

(** A [TextSymbol]. The colours stay the hex strings of the settings, from
    which [hexToRgbArray] computes the channel arrays. *)
Record TextSymbol := mkTextSymbol {
  sym_text : string;
  sym_color : string;
  sym_haloColor : string;
  sym_haloSize : Q;
  sym_angle : Q;
  sym_fontFamily : string;
  sym_fontSize : Q
}.

Inductive Symbol : Type :=
  | SText (t : TextSymbol)
  | SShape.  (* fill, line and marker symbols: styling only *)

Record Attributes := mkAttributes {
  attr_tool : option GeometryTool;
  attr_title : option string
}.

(** A [Graphic], with the [__sid] field that [getGraphicId] attaches. *)
Record Graphic := mkGraphic {
  geometry : option Geom;
  symbol : option Symbol;
  attributes : option Attributes;
  sid : option string
}.

(** The text and the rotation of a label. *)
Definition label_text (g : Graphic) : option string :=
  match symbol g with
  | Some (SText t) => Some (sym_text t)
  | _ => None
  end.
Definition label_angle (g : Graphic) : option Q :=
  match symbol g with
  | Some (SText t) => Some (sym_angle t)
  | _ => None
  end.

(** The separation of a polygon's title as the specification words it:
    [round(((measurementLineCount + 1) / 2) * spacing)] with
    [spacing = round(fontSize * 1.0)], where the count is 2 for the totals
    if shown plus 1 for the radius if shown. *)
Definition spec_measurementLineCount (settings : DrawSettings) : Z :=
  ((if showTotals (labels settings) then 2 else 0)
   + (if showCircleRadius (labels settings) then 1 else 0))%Z.
Definition spec_polygonTitleSeparation (settings : DrawSettings) : Z :=
  let spacing := Js.round (fontSize (text settings) * 1) in
  Js.round (((inject_Z (spec_measurementLineCount settings) + 1) / 2)
            * inject_Z spacing).

(** A reference to a graphic: its index in the heap. *)
Abbreviation ref := nat (only parsing).

(** The layer the sketch view model edits: [(this.svm as any).layer]. *)
Inductive LayerId : Type := DrawLayer | SelectionLayer.

(** The [state] of a create or update event. *)
Inductive Phase : Type := Start | Active | Complete | Cancel.

Record SelectionMeasurement := mkMeasurement {
  m_id : string;
  m_geometryType : string;
  m_tool : option GeometryTool;
  m_rows : list (string * string)
}.

(** The fields of the service together with the objects they refer to.
    The three [_log] fields are the values emitted on [measurements$],
    [selectedGraphicIds$] and [allGraphics$], the latest first; [minted]
    counts the identifiers generated so far. *)
Record State := mkState {
  heap : list Graphic;
  drawLayer : list ref;
  labelLayer : list ref;
  textLayer : list ref;
  selectionLayer : option (list ref);
  svmLayer : LayerId;
  textClickHandler : bool;
  tempLabels : list ref;
  selectionMode : bool;
  isEditing : bool;
  selectionMap : gmap ref ref;
  labelIndex : gmap string (list ref);
  currentSettings : option DrawSettings;
  measurements_log : list (list SelectionMeasurement);
  selectedIds_log : list (list string);
  minted : nat
}.

Definition set_heap (v : list Graphic) (s : State) : State :=
  mkState v (drawLayer s) (labelLayer s) (textLayer s) (selectionLayer s)
    (svmLayer s) (textClickHandler s) (tempLabels s) (selectionMode s)
    (isEditing s) (selectionMap s) (labelIndex s) (currentSettings s)
    (measurements_log s) (selectedIds_log s) (minted s).
Definition set_drawLayer (v : list ref) (s : State) : State :=
  mkState (heap s) v (labelLayer s) (textLayer s) (selectionLayer s)
    (svmLayer s) (textClickHandler s) (tempLabels s) (selectionMode s)
    (isEditing s) (selectionMap s) (labelIndex s) (currentSettings s)
    (measurements_log s) (selectedIds_log s) (minted s).
Definition set_labelLayer (v : list ref) (s : State) : State :=
  mkState (heap s) (drawLayer s) v (textLayer s) (selectionLayer s)
    (svmLayer s) (textClickHandler s) (tempLabels s) (selectionMode s)
    (isEditing s) (selectionMap s) (labelIndex s) (currentSettings s)
    (measurements_log s) (selectedIds_log s) (minted s).
Definition set_selectionLayer (v : option (list ref)) (s : State) : State :=
  mkState (heap s) (drawLayer s) (labelLayer s) (textLayer s) v
    (svmLayer s) (textClickHandler s) (tempLabels s) (selectionMode s)
    (isEditing s) (selectionMap s) (labelIndex s) (currentSettings s)
    (measurements_log s) (selectedIds_log s) (minted s).
Definition set_svmLayer (v : LayerId) (s : State) : State :=
  mkState (heap s) (drawLayer s) (labelLayer s) (textLayer s)
    (selectionLayer s) v (textClickHandler s) (tempLabels s)
    (selectionMode s) (isEditing s) (selectionMap s) (labelIndex s)
    (currentSettings s) (measurements_log s) (selectedIds_log s) (minted s).
Definition set_textClickHandler (v : bool) (s : State) : State :=
  mkState (heap s) (drawLayer s) (labelLayer s) (textLayer s)
    (selectionLayer s) (svmLayer s) v (tempLabels s) (selectionMode s)
    (isEditing s) (selectionMap s) (labelIndex s) (currentSettings s)
    (measurements_log s) (selectedIds_log s) (minted s).
Definition set_tempLabels (v : list ref) (s : State) : State :=
  mkState (heap s) (drawLayer s) (labelLayer s) (textLayer s)
    (selectionLayer s) (svmLayer s) (textClickHandler s) v (selectionMode s)
    (isEditing s) (selectionMap s) (labelIndex s) (currentSettings s)
    (measurements_log s) (selectedIds_log s) (minted s).
Definition set_selectionMode (v : bool) (s : State) : State :=
  mkState (heap s) (drawLayer s) (labelLayer s) (textLayer s)
    (selectionLayer s) (svmLayer s) (textClickHandler s) (tempLabels s) v
    (isEditing s) (selectionMap s) (labelIndex s) (currentSettings s)
    (measurements_log s) (selectedIds_log s) (minted s).
Definition set_isEditing (v : bool) (s : State) : State :=
  mkState (heap s) (drawLayer s) (labelLayer s) (textLayer s)
    (selectionLayer s) (svmLayer s) (textClickHandler s) (tempLabels s)
    (selectionMode s) v (selectionMap s) (labelIndex s) (currentSettings s)
    (measurements_log s) (selectedIds_log s) (minted s).
Definition set_selectionMap (v : gmap ref ref) (s : State) : State :=
  mkState (heap s) (drawLayer s) (labelLayer s) (textLayer s)
    (selectionLayer s) (svmLayer s) (textClickHandler s) (tempLabels s)
    (selectionMode s) (isEditing s) v (labelIndex s) (currentSettings s)
    (measurements_log s) (selectedIds_log s) (minted s).
Definition set_labelIndex (v : gmap string (list ref)) (s : State) : State :=
  mkState (heap s) (drawLayer s) (labelLayer s) (textLayer s)
    (selectionLayer s) (svmLayer s) (textClickHandler s) (tempLabels s)
    (selectionMode s) (isEditing s) (selectionMap s) v (currentSettings s)
    (measurements_log s) (selectedIds_log s) (minted s).
Definition set_currentSettings (v : option DrawSettings) (s : State) : State :=
  mkState (heap s) (drawLayer s) (labelLayer s) (textLayer s)
    (selectionLayer s) (svmLayer s) (textClickHandler s) (tempLabels s)
    (selectionMode s) (isEditing s) (selectionMap s) (labelIndex s) v
    (measurements_log s) (selectedIds_log s) (minted s).
Definition set_measurements_log (v : list (list SelectionMeasurement))
    (s : State) : State :=
  mkState (heap s) (drawLayer s) (labelLayer s) (textLayer s)
    (selectionLayer s) (svmLayer s) (textClickHandler s) (tempLabels s)
    (selectionMode s) (isEditing s) (selectionMap s) (labelIndex s)
    (currentSettings s) v (selectedIds_log s) (minted s).
Definition set_selectedIds_log (v : list (list string)) (s : State) : State :=
  mkState (heap s) (drawLayer s) (labelLayer s) (textLayer s)
    (selectionLayer s) (svmLayer s) (textClickHandler s) (tempLabels s)
    (selectionMode s) (isEditing s) (selectionMap s) (labelIndex s)
    (currentSettings s) (measurements_log s) v (minted s).
Definition set_minted (v : nat) (s : State) : State :=
  mkState (heap s) (drawLayer s) (labelLayer s) (textLayer s)
    (selectionLayer s) (svmLayer s) (textClickHandler s) (tempLabels s)
    (selectionMode s) (isEditing s) (selectionMap s) (labelIndex s)
    (currentSettings s) (measurements_log s) (selectedIds_log s) v.

(** The service right after construction and [initialize] on empty layers. *)
Definition initial : State :=
  mkState [] [] [] [] None DrawLayer false [] false false ∅ ∅ None [] [] 0.

(** [view.toScreen] and [view.toMap]; [None] when the view has no answer
    or throws. *)
Class ViewProjector := {
  toScreen : Point -> option (Q * Q);
  toMap : Q * Q -> option Point
}.

(** The wall clock and the random generator, as read for the [k]-th
    generated identifier: [Date.now()] and
    [Math.random().toString(36).slice(2, 8)]. *)
Class Runtime := {
  date_now : nat -> N;
  random_suffix : nat -> string
}.

(** An object a reference points to. Every reference the service holds
    points to an object; the default covers indices that are none. *)
Definition blank : Graphic := mkGraphic None None None None.
Definition deref (st : State) (r : ref) : Graphic :=
  default blank (heap st !! r).

Definition with_sid (id : string) (g : Graphic) : Graphic :=
  mkGraphic (geometry g) (symbol g) (attributes g) (Some id).
Definition with_geometry (geom : option Geom) (g : Graphic) : Graphic :=
  mkGraphic geom (symbol g) (attributes g) (sid g).
Definition with_attributes (a : option Attributes) (g : Graphic) : Graphic :=
  mkGraphic (geometry g) (symbol g) a (sid g).

(** [new Graphic(...)]: the objects get the next free references. *)
Definition alloc (gs : list Graphic) (st : State) : list ref * State :=
  (seq (length (heap st)) (length gs), set_heap (heap st ++ gs) st).

(** [layer.remove(g)] and its repetition over an array. *)
Definition layer_remove (g : ref) (layer : list ref) : list ref :=
  filter (fun r => r ≠ g) layer.
Definition layer_remove_each (gs : list ref) (layer : list ref) : list ref :=
  foldl (fun l g => layer_remove g l) layer gs.

(** The [__sid] of an object when it is truthy. *)
Definition attached_id (g : Graphic) : option string :=
  match sid g with
  | Some id => if decide (id = "") then None else Some id
  | None => None
  end.

(** [g'] is the object [g] except, at most, for an identifier attached to
    it since: the geometry, the symbol and the attributes are those of [g],
    and an identifier that [g] had is still the one. *)
Definition same_shape (g g' : Graphic) : Prop :=
  geometry g' = geometry g /\ symbol g' = symbol g
  /\ attributes g' = attributes g
  /\ (attached_id g ≠ None -> sid g' = sid g).

(** What no phase but a commit may touch: the draw and text collections,
    the label index, the clone map, the working collection, the layer under
    edit, the settings, and every object there is (new objects may
    appear). *)
Definition kept (st st' : State) : Prop :=
  drawLayer st' = drawLayer st
  /\ textLayer st' = textLayer st
  /\ labelIndex st' = labelIndex st
  /\ selectionMap st' = selectionMap st
  /\ selectionLayer st' = selectionLayer st
  /\ svmLayer st' = svmLayer st
  /\ currentSettings st' = currentSettings st
  /\ forall r g, heap st !! r = Some g ->
       exists g', heap st' !! r = Some g' /\ same_shape g g'.

(** A joint-editing session as the service sets it up: the clones and the
    sources of the clone map are objects, and no source is itself a
    clone. *)
Definition session_ok (st : State) : Prop :=
  map_Forall (fun clone src =>
                clone < length (heap st) /\ src < length (heap st)
                /\ selectionMap st !! src = None)
             (selectionMap st).



(** A string without the separator of the generated identifiers. *)
Fixpoint dashless (s : string) : Prop :=
  match s with
  | EmptyString => True
  | String c rest => c ≠ "-"%char /\ dashless rest
  end.

Section Service.
Context `{GeometryEngine} `{Accessors} `{JsMath} `{ViewProjector} `{Runtime}.

(** The measurement service injected into the constructor: its units. *)
Variable measure : Units.

(** *** Identity *)

(** [`g-${Date.now()}-${Math.random().toString(36).slice(2, 8)}`] *)
Definition fresh_id (k : nat) : string :=
  "g-" +:+ pretty (date_now k) +:+ "-" +:+ random_suffix k.

Definition getGraphicId (r : ref) (st : State) : string * State :=
  match attached_id (deref st r) with
  | Some id => (id, st)
  | None =>
      let id := fresh_id (minted st) in
      (id, set_minted (S (minted st))
             (set_heap (alter (with_sid id) r (heap st)) st))
  end.

(** [rs.map((g) => this.getGraphicId(g))] *)
Fixpoint getGraphicIds (rs : list ref) (st : State) : list string * State :=
  match rs with
  | [] => ([], st)
  | r :: rest =>
      let '(id, st1) := getGraphicId r st in
      let '(ids, st2) := getGraphicIds rest st1 in
      (id :: ids, st2)
  end.

Definition removePersistedLabelsFor (r : ref) (st : State) : State :=
  match attached_id (deref st r) with
  | None => st
  | Some id =>
      let arr := default [] (labelIndex st !! id) in
      set_labelIndex (delete id (labelIndex st))
        (set_labelLayer (layer_remove_each arr (labelLayer st)) st)
  end.

Definition clearTempLabels (st : State) : State :=
  match tempLabels st with
  | [] => st
  | temps =>
      set_tempLabels []
        (set_labelLayer (layer_remove_each temps (labelLayer st)) st)
  end.

Definition setSelectedGraphicIds (ids : list string) (st : State) : State :=
  set_selectedIds_log (ids :: selectedIds_log st) st.

(** *** Label placement *)

Definition offsetPoint (p : Point) (dxPx dyPx : Q) : Point :=
  match toScreen p with
  | None => p
  | Some (sx, sy) => default p (toMap ((sx + dxPx)%Q, (sy + dyPx)%Q))
  end.

(** The [addText] closure of [makeLabelsForGeometry]: the label it pushes. *)
Definition addText (settings : DrawSettings) (p : Point) (txt : string)
    (angle : Q) : Graphic :=
  mkGraphic (Some (GPoint p))
    (Some (SText (mkTextSymbol txt (color (text settings))
                    (haloColor (text settings)) (haloSize (text settings))
                    angle (fontFamily (text settings))
                    (fontSize (text settings)))))
    None None.

(** [if (angle > 90) angle -= 180; else if (angle < -90) angle += 180;] *)
Definition normalizeAngle (angle : Q) : Q :=
  if Qltb 90 angle then (angle - 180)%Q
  else if Qltb angle (-90) then (angle + 180)%Q
  else angle.

Definition labelOffsetPx : Q := 10.

(** One turn of the loop over the segments. *)
Definition segmentLabel (settings : DrawSettings) (sr : SpatialReference)
    (segment : Vertex * Vertex) (len : jsnum) : Graphic :=
  let midpoint := getSegmentMidpoint segment sr in
  let angle := normalizeAngle (getSegmentAngle segment) in
  let dxPx := (labelOffsetPx * cos_deg (angle + 90))%Q in
  let dyPx := (labelOffsetPx * sin_deg (angle + 90))%Q in
  addText settings (offsetPoint midpoint dxPx dyPx)
    (formatLength measure len) angle.

(** The block under [if (settings.labels.showSegmentLengths)], the same in
    the polyline and the polygon branch: the loop runs over
    [Math.min(segments.length, lens.length)] indices. *)
Definition segmentLabels (settings : DrawSettings) (geom : Geom)
    : list Graphic :=
  if showSegmentLengths (labels settings) then
    zip_with (segmentLabel settings (sr_of geom))
      (getSegments geom) (segmentLengths measure geom)
  else [].

(** [settings.text.content || 'Feature'] *)
Definition titleText (settings : DrawSettings) : string :=
  if decide (content (text settings) = "") then "Feature"
  else content (text settings).

(** The line height of the center block:
    [Math.round((settings.text?.fontSize ?? 12) * 1.2)]. The type of the
    settings has [fontSize] a number, so the default is never taken. *)
Definition lineHeight (settings : DrawSettings) : Z :=
  round (fontSize (text settings) * (12 # 10)).

(** The loop that stacks the lines of the center block:
    [dy = (i - (lines.length - 1)) * lineHeight]. *)
Definition stackLines (settings : DrawSettings) (center : Point)
    (lines : list string) : list Graphic :=
  imap (fun i line =>
          let dy := ((Z.of_nat i - (Z.of_nat (length lines) - 1))
                     * lineHeight settings)%Z in
          addText settings (offsetPoint center 0 (inject_Z dy)) line 0)
       lines.

(** [centroidLabelPoint(geom) || geom.extent?.center] *)
Definition labelAnchor (geom : Geom) : option Point :=
  match centroidLabelPoint geom with
  | Some c => Some c
  | None => extent_center geom
  end.

Definition polylineCenterLines (settings : DrawSettings) (pl : Polyline)
    : list string :=
  (if showTitle (labels settings) then [titleText settings] else [])
  ++ (if showTotals (labels settings)
      then ["L = " +:+ formatLength measure (geodesicLength measure pl)]
      else []).

Definition polygonCenterLines (settings : DrawSettings) (pg : Polygon)
    : list string :=
  (if showTitle (labels settings) then [titleText settings] else [])
  ++ (if showTotals (labels settings)
      then ["A = " +:+ formatArea measure (geodesicArea measure pg);
            "P = " +:+ formatLength measure (geodesicPerimeter measure pg)]
      else [])
  ++ (if showCircleRadius (labels settings)
      then ["R = " +:+ formatLength measure (radiusFromPolygon measure pg)]
      else []).

(** The labels are returned as fresh objects; the caller puts them on the
    label layer. *)
Definition makeLabelsForGeometry (geom : Geom) (settings : DrawSettings)
    : list Graphic :=
  match geom with
  | GPolyline pl =>
      segmentLabels settings geom
      ++ (if showTitle (labels settings) || showTotals (labels settings) then
            match labelAnchor geom with
            | Some center =>
                stackLines settings center (polylineCenterLines settings pl)
            | None => []
            end
          else [])
  | GPolygon pg =>
      segmentLabels settings geom
      ++ match labelAnchor geom with
         | Some center =>
             stackLines settings center (polygonCenterLines settings pg)
         | None => []
         end
  | GPoint _ => []
  end.

(** The separation [sep] computed by [placeTitleLabel]. *)
Definition titleSeparation (geom : Geom) (settings : DrawSettings) : Z :=
  let spacing := round (fontSize (text settings) * 1) in
  match geom with
  | GPolyline _ => if showTotals (labels settings) then spacing else 0%Z
  | GPolygon _ =>
      let measurementLines :=
        ((if showTotals (labels settings) then 2 else 0)
         + (if showCircleRadius (labels settings) then 1 else 0))%Z in
      if (0 <? measurementLines)%Z
      then round (((inject_Z measurementLines + 1) / 2) * inject_Z spacing)
      else 0%Z
  | GPoint _ => 0%Z
  end.

(** The anchor [basePt] of the standalone title. *)
Definition titleBasePoint (geom : Geom) : option Point :=
  match geom with
  | GPoint p => Some p
  | other =>
      match centroidLabelPoint other with
      | Some c => Some c
      | None => extent_center other
      end
  end.

Definition titleGraphic (geom : Geom) (settings : DrawSettings)
    : option Graphic :=
  match titleBasePoint geom with
  | None => None
  | Some basePt =>
      let sep := titleSeparation geom settings in
      let finalPt :=
        if (sep =? 0)%Z then basePt
        else offsetPoint basePt 0 (inject_Z (- sep)) in
      Some (addText settings finalPt (titleText settings) 0)
  end.

Definition placeTitleLabel (geom : Geom) (settings : DrawSettings)
    (st : State) : option ref * State :=
  match titleGraphic geom settings with
  | None => (None, st)
  | Some g =>
      let '(refs, st1) := alloc [g] st in
      (head refs, set_labelLayer (labelLayer st1 ++ refs) st1)
  end.

(** *** Selection and joint editing *)

Definition prepareSelectionLayer (clear : bool) (st : State) : State :=
  let st1 :=
    match selectionLayer st with
    | None => set_selectionLayer (Some []) st
    | Some _ => st
    end in
  if clear then set_selectionMap ∅ (set_selectionLayer (Some []) st1)
  else st1.

Definition endSelectionEdit (clearLayer : bool) (st : State) : State :=
  let st1 :=
    match selectionLayer st with
    | Some _ => if clearLayer then set_selectionLayer (Some []) st else st
    | None => st
    end in
  let st2 := set_selectionMap ∅ st1 in
  let st3 := set_measurements_log ([] :: measurements_log st2) st2 in
  let st4 := set_svmLayer DrawLayer st3 in
  set_selectedIds_log ([] :: selectedIds_log st4) st4.

(** The clone is a new object with copies of the geometry, the symbol and
    the attributes; [__sid] is no attribute and is not carried over. *)
Definition cloneGraphic (src : Graphic) : Graphic :=
  mkGraphic (geometry src) (symbol src) (attributes src) None.

(** [clone = cloneGraphic(src); selectionLayer.add(clone);
    selectionMap.set(clone, src)] *)
Definition addClone (src : ref) (st : State) : ref * State :=
  let clone := length (heap st) in
  let st1 := set_heap (heap st ++ [cloneGraphic (deref st src)]) st in
  let st2 :=
    set_selectionLayer (Some (default [] (selectionLayer st1) ++ [clone]))
      st1 in
  (clone, set_selectionMap (<[clone := src]> (selectionMap st2)) st2).

(** The rows of one graphic in [buildMeasurementsForGraphics]: the
    identifier and the tool are those of the source of a clone. *)
Definition measureGraphic (settings : DrawSettings) (g : ref)
    (acc : list SelectionMeasurement * State)
    : list SelectionMeasurement * State :=
  let '(out, st) := acc in
  let src := default g (selectionMap st !! g) in
  match geometry (deref st g) with
  | Some (GPolyline pl) =>
      let '(id, st1) := getGraphicId src st in
      let tl := attributes (deref st1 src) ≫= attr_tool in
      let total := geodesicLength measure pl in
      let segs := segmentLengths measure (GPolyline pl) in
      (out ++ [mkMeasurement id "polyline" tl
                 [("Total length", formatLength measure total);
                  ("Segments", pretty (length segs))]], st1)
  | Some (GPolygon pg) =>
      let '(id, st1) := getGraphicId src st in
      let tl := attributes (deref st1 src) ≫= attr_tool in
      let area := geodesicArea measure pg in
      let per := geodesicPerimeter measure pg in
      let rows :=
        [("Area", formatArea measure area);
         ("Perimeter", formatLength measure per)]
        ++ match tl with
           | Some ToolCircle =>
               [("Radius",
                 formatLength measure (radiusFromPolygon measure pg))]
           | _ => []
           end in
      (out ++ [mkMeasurement id "polygon" tl rows], st1)
  | Some (GPoint _) | None => (out, st)
  end.

Definition buildMeasurementsForGraphics (graphics : list ref)
    (settings : DrawSettings) (st : State)
    : list SelectionMeasurement * State :=
  foldl (fun acc g => measureGraphic settings g acc) ([], st) graphics.

Definition publishMeasurementsFromGraphics (graphics : list ref)
    (st : State) : State :=
  match currentSettings st with
  | None => set_measurements_log ([] :: measurements_log st) st
  | Some settings =>
      let '(rows, st1) := buildMeasurementsForGraphics graphics settings st in
      set_measurements_log (rows :: measurements_log st1) st1
  end.

(** *** The handlers *)

(** [labels.forEach((g) => this.labelLayer.add(g))] for new labels. *)
Definition addLabels (gs : list Graphic) (st : State) : list ref * State :=
  let '(refs, st1) := alloc gs st in
  (refs, set_labelLayer (labelLayer st1 ++ refs) st1).

(** The statements shared by the complete phases of creation and of a
    direct update: the persisted labels of [g] are removed and made anew. *)
Definition persistLabels (g : ref) (geom : Geom) (settings : DrawSettings)
    (st : State) : State :=
  let '(gid, st1) := getGraphicId g st in
  let st2 := removePersistedLabelsFor g st1 in
  let '(persisted, st3) :=
    addLabels (makeLabelsForGeometry geom settings) st2 in
  let '(title, st4) :=
    if showTitle (labels settings) then placeTitleLabel geom settings st3
    else (None, st3) in
  let persisted' :=
    match title with Some t => persisted ++ [t] | None => persisted end in
  set_labelIndex (<[gid := persisted']> (labelIndex st4)) st4.

(** The graphics of a layer that intersect the selection window. *)
Definition hitsWindow (st : State) (window : Geom) (g : ref) : bool :=
  match geometry (deref st g) with
  | Some gg => engine_intersects gg window
  | None => false
  end.
Definition intersecting (st : State) (window : Geom) (layer : list ref)
    : list ref :=
  filter (fun g => hitsWindow st window g = true) layer.

(** The complete phase of a selection rectangle, up to its [finally]. *)
Definition selectByWindow (graphic : option ref) (window : Geom)
    (st : State) : State :=
  let st1 :=
    match graphic with
    | Some r => set_drawLayer (layer_remove r (drawLayer st)) st
    | None => st
    end in
  let selected :=
    intersecting st1 window (drawLayer st1)
    ++ intersecting st1 window (textLayer st1) in
  match selected with
  | [] => st1
  | _ =>
      let st2 := prepareSelectionLayer true st1 in
      let st3 := foldl (fun s src => snd (addClone src s)) st2 selected in
      let st4 := set_svmLayer SelectionLayer st3 in
      let toEdit := default [] (selectionLayer st4) in
      let st5 := publishMeasurementsFromGraphics toEdit st4 in
      let sources := omap (fun clone => selectionMap st5 !! clone) toEdit in
      let '(ids, st6) := getGraphicIds sources st5 in
      setSelectedGraphicIds ids st6
  end.

(** [svm.on('create', ...)] *)
Definition on_create (state : Phase) (graphic : option ref) (st : State)
    : State :=
  match currentSettings st with
  | None => st
  | Some settings =>
      let geom := graphic ≫= (fun r => geometry (deref st r)) in
      if selectionMode st then
        match state, geom with
        | Active, _ => st
        | Complete, Some window =>
            clearTempLabels
              (set_selectionMode false (selectByWindow graphic window st))
        | Cancel, _ =>
            setSelectedGraphicIds []
              (clearTempLabels (set_selectionMode false st))
        | _, _ => st
        end
      else
        match state, graphic, geom with
        | Active, _, Some geom =>
            let st1 := clearTempLabels (set_isEditing true st) in
            if showDuringDraw (labels settings) then
              let '(refs, st2) :=
                alloc (makeLabelsForGeometry geom settings) st1 in
              set_labelLayer (labelLayer st2 ++ refs)
                (set_tempLabels refs st2)
            else st1
        | Complete, Some g, Some geom =>
            let st1 := clearTempLabels (set_isEditing false st) in
            let attrs :=
              mkAttributes (Some (tool settings))
                (attributes (deref st1 g) ≫= attr_title) in
            let st2 :=
              set_heap (alter (with_attributes (Some attrs)) g (heap st1))
                st1 in
            persistLabels g geom settings st2
        | Cancel, _, _ => clearTempLabels (set_isEditing false st)
        | _, _, _ => st
        end
  end.

(** One turn of the live-label loop of the active phase of an update. *)
Definition liveLabels (settings : DrawSettings) (st : State) (g : ref)
    : State :=
  match geometry (deref st g) with
  | None => st
  | Some geom =>
      let '(refs, st1) := addLabels (makeLabelsForGeometry geom settings) st in
      set_tempLabels (tempLabels st1 ++ refs) st1
  end.

(** One turn of the commit loop: the geometry of the clone is copied onto
    its source; a graphic with no entry in the map is passed over. *)
Definition commitClone (st : State) (g : ref) : State :=
  match selectionMap st !! g with
  | None => st
  | Some src =>
      set_heap (alter (with_geometry (geometry (deref st g))) src (heap st))
        st
  end.

Definition editingSelection (st : State) : bool :=
  match selectionLayer st, svmLayer st with
  | Some _, SelectionLayer => true
  | _, _ => false
  end.

(** [svm.on('update', ...)] *)
Definition on_update (state : Phase) (graphics : list ref) (st : State)
    : State :=
  match currentSettings st with
  | None => st
  | Some settings =>
      match state with
      | Active =>
          let st1 := clearTempLabels (set_isEditing true st) in
          let st2 :=
            if showDuringDraw (labels settings)
            then foldl (liveLabels settings) st1 graphics
            else st1 in
          let st3 := publishMeasurementsFromGraphics graphics st2 in
          let '(selectedIds, st4) := getGraphicIds graphics st3 in
          setSelectedGraphicIds selectedIds st4
      | Complete =>
          let st1 := set_isEditing false st in
          if editingSelection st1 then
            let st2 := publishMeasurementsFromGraphics graphics st1 in
            let st3 := foldl commitClone st2 graphics in
            endSelectionEdit true st3
          else
            let st2 := clearTempLabels st1 in
            let st3 :=
              foldl (fun s g =>
                       match geometry (deref s g) with
                       | None => s
                       | Some geom => persistLabels g geom settings s
                       end) st2 graphics in
            setSelectedGraphicIds [] st3
      | Cancel =>
          setSelectedGraphicIds []
            (clearTempLabels (set_isEditing false st))
      | Start => st
      end
  end.

(** The click handler of [initialize], once [hitTest] has resolved to the
    graphic [hit] of the text layer (or to none). *)
Definition on_click (hit : option ref) (st : State) : State :=
  if textClickHandler st || selectionMode st then st
  else
    match hit with
    | None => st
    | Some src =>
        let st1 := prepareSelectionLayer true st in
        let '(clone, st2) := addClone src st1 in
        let st3 := set_svmLayer SelectionLayer st2 in
        publishMeasurementsFromGraphics [clone] st3
    end.

Definition startSelection (st : State) : State :=
  clearTempLabels (set_selectionMode true (set_textClickHandler false st)).

Definition updateSettings (settings : DrawSettings) (st : State) : State :=
  set_currentSettings (Some settings) st.

(** What the sketch view model reports to the service. *)
Inductive Event : Type :=
  | Create (state : Phase) (graphic : option ref)
  | Update (state : Phase) (graphics : list ref).

Definition handle (st : State) (e : Event) : State :=
  match e with
  | Create state graphic => on_create state graphic st
  | Update state graphics => on_update state graphics st
  end.

Definition run (events : list Event) (st : State) : State :=
  foldl handle st events.

Definition phase_of (e : Event) : Phase :=
  match e with
  | Create state _ => state
  | Update state _ => state
  end.

End Service.
End SketchService.

(** ** Stand-ins for the collaborators, for running the model *)

Module Samples.
Import Js Geometry MeasurementService SketchService.

(** Graphics that are their own JSON. *)
Definition plainJson : ExportService.GraphicJson value :=
  {| ExportService.fromJSON := fun j => j; ExportService.toJSON := fun g => g |}.

(** An engine that measures every line as [len] and every area as 1. *)
Definition constEngine (len : engineResult) : GeometryEngine :=
  {| engine_geodesicLength := fun _ _ => len;
     engine_geodesicArea := fun _ _ => Num (Fin 1);
     engine_planarArea := fun _ _ => Num (Fin 1);
     engine_distance := fun _ _ _ => Num (Fin 1);
     engine_intersects := fun _ _ => true |}.

(** The first vertex stands for the centroid and the extent center. *)
Definition firstVertex (sr : SpatialReference) (ps : list (list Vertex))
    : option Point :=
  match ps with
  | ((vx, vy) :: _) :: _ => Some (mkPoint vx vy sr)
  | _ => None
  end.

Definition vertexAccessors : Accessors :=
  {| centroid := fun pg => firstVertex (polygon_sr pg) (rings pg);
     extent_center := fun g =>
       match g with
       | GPolyline pl => firstVertex (polyline_sr pl) (paths pl)
       | GPolygon pg => firstVertex (polygon_sr pg) (rings pg)
       | GPoint _ => None
       end |}.

(** A runtime whose [atan2] reports the bearing [b] for every edge. *)
Definition fixedBearing (b : Q) : JsMath :=
  {| atan2_deg := fun _ _ => b;
     cos_deg := fun _ => 0%Q;
     sin_deg := fun _ => 1%Q;
     toFixed := fun _ _ => "0.00" |}.

(** A view whose screen is the map. *)
Definition flatView : ViewProjector :=
  {| toScreen := fun p => Some (x p, y p);
     toMap := fun '(sx, sy) => Some (mkPoint sx sy 0) |}.

(** A clock that advances by one millisecond per identifier. *)
Definition tickingRuntime : Runtime :=
  {| date_now := fun k => (1700000000000 + N.of_nat k)%N;
     random_suffix := fun _ => "k3x9qa" |}.

(** A clock that stands still within one millisecond, and a generator
    that draws the same suffix twice. *)
Definition stalledRuntime : Runtime :=
  {| date_now := fun _ => 1700000000000%N;
     random_suffix := fun _ => "k3x9qa" |}.

Definition payloadV2 : value :=
  VObj [("version", VNum (Fin 2)); ("draw", VArr [VStr "d"]);
        ("labels", VArr []); ("text", VArr [VStr "t"])].
Definition payloadV1 : value :=
  VObj [("version", VNum (Fin 1)); ("draw", VArr [VStr "d"]);
        ("text", VArr [VStr "t"])].
Definition payloadV3 : value :=
  VObj [("version", VNum (Fin 3)); ("draw", VArr [VStr "d"])].
Definition payloadUnversioned : value :=
  VObj [("draw", VArr [VStr "d"]); ("text", VArr [VStr "t"])].

Definition sampleSettings (t : GeometryTool) (segs totals radius title : bool)
    : DrawSettings :=
  mkDrawSettings t "#0078ff" (2 # 10) "#0078ff" 2
    (mkTextSettings "Label" "Noto Sans" 12 "#1a1a1a" "#ffffff" 2)
    (mkLabelSettings true segs totals radius title).

Definition triangle : Polygon :=
  mkPolygon [[(0, 0); (4, 0); (0, 3); (0, 0)]%Q] 3857.

Definition twoEdges : Polyline :=
  mkPolyline [[(0, 0); (4, 0); (4, 3)]%Q] 3857.

(** Two shapes that have never been asked for their identifier. *)
Definition twoFreshShapes : State :=
  set_heap [mkGraphic (Some (GPolygon triangle)) (Some SShape) None None;
            mkGraphic (Some (GPolyline twoEdges)) (Some SShape) None None]
    initial.

(** A triangle and a selection rectangle around it, both as the sketch view
    model has put them on the draw layer, with settings supplied. *)
Definition windowRectangle : Polygon :=
  mkPolygon [[(-1, -1); (5, -1); (5, 4); (-1, 4); (-1, -1)]%Q] 3857.

Definition sketched : State :=
  set_drawLayer [0; 1]
    (set_heap
       [mkGraphic (Some (GPolygon triangle)) (Some SShape) None None;
        mkGraphic (Some (GPolygon windowRectangle)) (Some SShape) None None]
       (updateSettings (sampleSettings ToolPolygon false true false false)
          initial)).

(** The triangle is completed as a creation, then the rectangle is
    completed as a selection window: a joint-editing session over the
    triangle is open. *)
Definition marqueeSession : State :=
  let Engine := constEngine (Num (Fin 5)) in
  let Shape := vertexAccessors in
  let Math := fixedBearing 0 in
  let View := flatView in
  let Clock := tickingRuntime in
  on_create defaultUnits Complete (Some 1)
    (startSelection (on_create defaultUnits Complete (Some 0) sketched)).

(** The session after the view model has dragged the clone to the right. *)
Definition movedTriangle : Polygon :=
  mkPolygon [[(10, 0); (14, 0); (10, 3); (10, 0)]%Q] 3857.

Definition draggedSession : State :=
  set_heap (alter (with_geometry (Some (GPolygon movedTriangle))) 4
              (heap marqueeSession))
    marqueeSession.

(** A triangle drawn with the polygon tool while the radius line is on. *)
Definition radiusSketch : State :=
  set_drawLayer [0]
    (set_heap
       [mkGraphic (Some (GPolygon triangle)) (Some SShape) None None]
       (updateSettings (sampleSettings ToolPolygon false false true false)
          initial)).

End Samples.

(** ** measurement.service.ts: the midpoints of the segments *)

Module Midpoints.
Import Js Geometry MeasurementService.

(** [segmentMidpoints]: the same two loops as [getSegments], pushing the
    midpoint of every edge as a [Point] of the geometry's reference. *)
Definition segmentMidpoints (geom : Geom) : list Point :=
  concat (map (fun path =>
                 map (fun '((x1, y1), (x2, y2)) =>
                        mkPoint ((x1 + x2) / 2) ((y1 + y2) / 2) (sr_of geom))
                     (edges path))
              (parts geom)).

End Midpoints.

(** ** sketch.service.ts: reflow, tools and programmatic selection *)

Module SketchOperations.
Import Js Geometry MeasurementService SketchService.

Section Service.
Context `{GeometryEngine} `{Accessors} `{JsMath} `{ViewProjector} `{Runtime}.
Variable measure : Units.

(** The array that [publishAllGraphics] emits on [allGraphics$]. *)
Definition allGraphics (st : State) : list ref :=
  drawLayer st ++ textLayer st.

(** One turn of the loop of [reflowAllLabels] over the draw layer: the
    title is placed apart for points only. *)
Definition reflowShape (settings : DrawSettings) (st : State) (g : ref)
    : State :=
  match geometry (deref st g) with
  | None => st
  | Some geom =>
      let '(gid, st1) := getGraphicId g st in
      let '(persisted, st2) :=
        addLabels (makeLabelsForGeometry measure geom settings) st1 in
      let '(title, st3) :=
        match geom with
        | GPoint _ =>
            if showTitle (labels settings)
            then placeTitleLabel geom settings st2
            else (None, st2)
        | _ => (None, st2)
        end in
      let persisted' :=
        match title with Some t => persisted ++ [t] | None => persisted end in
      set_labelIndex (<[gid := persisted']> (labelIndex st3)) st3
  end.

(** The labels that the index knows, in the order of its keys. *)
Definition indexedLabels (st : State) : list ref :=
  concat (map snd (map_to_list (labelIndex st))).

Definition reflowAllLabels (st : State) : State :=
  match currentSettings st with
  | None => st
  | Some settings =>
      let layer :=
        if bool_decide (size (labelIndex st) = 0)
           && bool_decide (0 < length (labelLayer st))
        then []
        else layer_remove_each (indexedLabels st) (labelLayer st) in
      let st1 := set_labelIndex ∅ (set_labelLayer layer st) in
      foldl (reflowShape settings) st1 (drawLayer st1)
  end.

(** The labels made for a geometry when its shape is completed: those of
    [makeLabelsForGeometry], then the standalone title if titles are
    shown and the geometry has an anchor. *)
Definition completedLabels (geom : Geom) (settings : DrawSettings)
    : list Graphic :=
  makeLabelsForGeometry measure geom settings
  ++ (if showTitle (labels settings)
      then option_list (titleGraphic geom settings) else []).

(** The labels made for a geometry by a reflow: the standalone title is
    added for points only. *)
Definition reflowedLabels (geom : Geom) (settings : DrawSettings)
    : list Graphic :=
  makeLabelsForGeometry measure geom settings
  ++ match geom with
     | GPoint _ =>
         if showTitle (labels settings)
         then option_list (titleGraphic geom settings) else []
     | _ => []
     end.

(** The entry [refs] of the label index holds the labels [made]: they are
    consecutive objects of the heap of [st], all younger than the first
    [n0] objects, and all on the label layer. *)
Definition entry_holds (n0 : nat) (st : State) (refs : list ref)
    (made : list Graphic) : Prop :=
  exists a,
    refs = seq a (length made)
    /\ n0 <= a
    /\ (forall i lbl, made !! i = Some lbl -> heap st !! (a + i) = Some lbl)
    /\ forall r, r ∈ refs -> r ∈ labelLayer st.

(** The label index of [st] has been rebuilt for the shapes [done] of the
    draw layer of [st0], and nothing else of [st0] has changed. *)
Definition reflowed_upto (settings : DrawSettings) (st0 st : State)
    (done : list ref) : Prop :=
  drawLayer st = drawLayer st0
  /\ textLayer st = textLayer st0
  /\ length (heap st0) <= length (heap st)
  /\ (forall r gobj,
         heap st0 !! r = Some gobj ->
         exists gobj', heap st !! r = Some gobj' /\ same_shape gobj gobj')
  /\ (forall g gobj geom,
         g ∈ done -> heap st0 !! g = Some gobj -> geometry gobj = Some geom ->
         exists id,
           attached_id (deref st g) = Some id
           /\ is_Some (labelIndex st !! id))
  /\ (forall id refs,
         labelIndex st !! id = Some refs ->
         exists g gobj geom,
           g ∈ done /\ heap st0 !! g = Some gobj
           /\ geometry gobj = Some geom
           /\ attached_id (deref st g) = Some id
           /\ entry_holds (length (heap st0)) st refs
                (reflowedLabels geom settings)).

(** The kind of row that the measurement table gets for a graphic: none
    for a point or for a graphic without geometry. *)
Definition measuredAs (st : State) (g : ref) : option string :=
  match geometry (deref st g) with
  | Some (GPolyline _) => Some "polyline"
  | Some (GPolygon _) => Some "polygon"
  | Some (GPoint _) | None => None
  end.

(** The graphic whose identifier and tool an entry of the measurement
    table carries: the source of a clone, the graphic itself otherwise. *)
Definition measuredSource (st : State) (g : ref) : ref :=
  default g (selectionMap st !! g).

(** The tool tag of an object. *)
Definition toolOf (st : State) (r : ref) : option GeometryTool :=
  attributes (deref st r) ≫= attr_tool.

(** The labels of the rows of an entry, by its kind and tool. *)
Definition rowLabels (kind : string) (tl : option GeometryTool)
    : list string :=
  if decide (kind = "polyline") then ["Total length"; "Segments"]
  else
    match tl with
    | Some ToolCircle => ["Area"; "Perimeter"; "Radius"]
    | _ => ["Area"; "Perimeter"]
    end.

(** An entry of the measurement table without its identifier and its
    values: the kind, the tool, and the labels of the rows. *)
Definition entryShape (row : SelectionMeasurement)
    : string * option GeometryTool * list string :=
  (m_geometryType row, m_tool row, map fst (m_rows row)).

(** The entry that the graphic [g] is due, if any: of the kind of its own
    geometry, with the tool of its source. *)
Definition entryFor (st : State) (g : ref)
    : option (string * option GeometryTool * list string) :=
  match measuredAs st g with
  | Some kind =>
      Some (kind, toolOf st (measuredSource st g),
            rowLabels kind (toolOf st (measuredSource st g)))
  | None => None
  end.

(** [clearAll]: the state, and the array emitted on [allGraphics$]. *)
Definition clearAll (st : State) : State * list ref :=
  let st1 :=
    mkState (heap st) [] [] [] (selectionLayer st) (svmLayer st)
      (textClickHandler st) (tempLabels st) (selectionMode st)
      (isEditing st) (selectionMap st) (labelIndex st) (currentSettings st)
      (measurements_log st) (selectedIds_log st) (minted st) in
  (st1, allGraphics st1).

(** [startDraw]: the state, and the array emitted on [allGraphics$]. The
    calls into the view model ([applyDefaultSymbols], [svm.create]) leave
    the service as it is; the text tool installs its click handler. *)
Definition startDraw (settings : DrawSettings) (st : State)
    : State * list ref :=
  let st1 := set_currentSettings (Some settings) st in
  let st2 := endSelectionEdit false st1 in
  let emitted := allGraphics st2 in
  let st3 := set_svmLayer DrawLayer (set_textClickHandler false st2) in
  match tool settings with
  | ToolText => (set_textClickHandler true st3, emitted)
  | _ => (st3, emitted)
  end.

(** The click handler that [enableTextPlacement] installs, with the
    settings it has captured; [sr] is the spatial reference of the view.
    It places one text graphic and removes itself. Returns the state and
    the array emitted on [allGraphics$]. *)
Definition placeText (captured : DrawSettings) (sr : SpatialReference)
    (mapPoint : Q * Q) (st : State) : State * list ref :=
  let p := mkPoint (fst mapPoint) (snd mapPoint) sr in
  let textSymbol :=
    mkTextSymbol (content (text captured)) (color (text captured))
      (haloColor (text captured)) (haloSize (text captured)) 0
      (fontFamily (text captured)) (fontSize (text captured)) in
  let g :=
    mkGraphic (Some (GPoint p)) (Some (SText textSymbol))
      (Some (mkAttributes (Some ToolText) (Some (content (text captured)))))
      None in
  let '(refs, st1) := alloc [g] st in
  let st2 :=
    mkState (heap st1) (drawLayer st1) (labelLayer st1)
      (textLayer st1 ++ refs) (selectionLayer st1) (svmLayer st1)
      (textClickHandler st1) (tempLabels st1) (selectionMode st1)
      (isEditing st1) (selectionMap st1) (labelIndex st1)
      (currentSettings st1) (measurements_log st1) (selectedIds_log st1)
      (minted st1) in
  (set_textClickHandler false st2, allGraphics st2).

(** [[...draw, ...text].find((g) => this.getGraphicId(g) === graphicId)]:
    every graphic looked at is asked for its identifier. *)
Fixpoint findById (graphicId : string) (gs : list ref) (st : State)
    : option ref * State :=
  match gs with
  | [] => (None, st)
  | g :: rest =>
      let '(gid, st1) := getGraphicId g st in
      if decide (gid = graphicId) then (Some g, st1)
      else findById graphicId rest st1
  end.

(** The loop of [selectGraphics] that resolves the identifiers. *)
Fixpoint resolveIds (graphicIds : list string) (st : State)
    : list ref * State :=
  match graphicIds with
  | [] => ([], st)
  | graphicId :: rest =>
      let '(found, st1) := findById graphicId (allGraphics st) st in
      let '(others, st2) := resolveIds rest st1 in
      (match found with Some g => g :: others | None => others end, st2)
  end.

(** [clearSelection]: [fired] are the events that the view model reports
    from within [svm.cancel()]. *)
Definition clearSelection (fired : list Event) (st : State) : State :=
  endSelectionEdit true (run measure fired st).

Definition selectGraphics (graphicIds : list string) (fired : list Event)
    (st : State) : State :=
  let st0 := clearSelection fired st in
  let '(graphicsToSelect, st1) := resolveIds graphicIds st0 in
  match graphicsToSelect with
  | [] => st1
  | _ =>
      let st2 := prepareSelectionLayer true st1 in
      let st3 :=
        foldl (fun s src => snd (addClone src s)) st2 graphicsToSelect in
      let clones := default [] (selectionLayer st3) in
      let st4 := set_svmLayer SelectionLayer st3 in
      let st5 := publishMeasurementsFromGraphics measure clones st4 in
      setSelectedGraphicIds graphicIds st5
  end.

End Service.
End SketchOperations.

(** ** sketch-table.component.ts *)

Module SketchTable.

(** The selection that [onRowClick] hands to [selectGraphics]: with the
    control or meta key the clicked identifier is toggled, without it the
    clicked identifier alone is selected. *)
Definition onRowClick (ctrlOrMeta : bool) (selectedGraphicIds : list string)
    (graphicId : string) : list string :=
  if ctrlOrMeta then
    if bool_decide (graphicId ∈ selectedGraphicIds)
    then filter (fun id => id ≠ graphicId) selectedGraphicIds
    else selectedGraphicIds ++ [graphicId]
  else [graphicId].

End SketchTable.

(** ** storage.service.ts *)

Module StorageService.
Import Js ExportService.

Definition SETTINGS_KEY : string := "sketch.settings.v1".
Definition GRAPHICS_KEY_V1 : string := "sketch.graphics.v1".
Definition GRAPHICS_KEY_V2 : string := "sketch.graphics.v2".

(** The items of [localStorage], which is taken to be available. *)
Abbreviation Store := (gmap string string) (only parsing).

(** What [JSON.stringify] ends with: a string, [undefined] (for a value
    that has no JSON text), or a thrown error. *)
Inductive stringified : Type :=
  | Str (raw : string)
  | NoText
  | StringifyThrows.

(** [JSON.stringify], and [JSON.parse] with [None] for a thrown
    [SyntaxError]. *)
Class Json := {
  stringify : value -> stringified;
  parse : string -> option value
}.

(** Whether [localStorage.setItem(k, v)] is accepted by the store; it
    throws when the quota is exceeded. *)
Class Quota := {
  accepts : string -> string -> gmap string string -> bool
}.

(** [typeof v === 'number'] *)
Definition typeof_number (v : value) : bool :=
  match v with
  | VNum _ => true
  | _ => false
  end.

Section Service.
Context {G : Type} `{GraphicJson G} `{Json} `{Quota}.

(** [localStorage.setItem(k, v)], with [None] when it throws. *)
Definition setItem (k v : string) (s : Store) : option Store :=
  if accepts k v s then Some (<[k := v]> s) else None.

(** [localStorage.getItem(k)] when it is truthy. *)
Definition getItem (k : string) (s : Store) : option string :=
  match s !! k with
  | Some raw => if decide (raw = "") then None else Some raw
  | None => None
  end.

(** The settings are whatever object the caller holds; [undefined] is
    written as the text of its name. *)
Definition saveSettings (settings : value) (s : Store) : Store :=
  match stringify settings with
  | Str raw => default s (setItem SETTINGS_KEY raw s)
  | NoText => default s (setItem SETTINGS_KEY "undefined" s)
  | StringifyThrows => s
  end.

(** [null] is [VNull]. *)
Definition loadSettings (s : Store) : value :=
  match getItem SETTINGS_KEY s with
  | None => VNull
  | Some raw => default VNull (parse raw)
  end.

Definition saveGraphics (d l t : list G) (s : Store) : Store :=
  let payload :=
    VObj [ ("version", VNum (Fin 2));
           ("draw", VArr (map toJSON d));
           ("labels", VArr (map toJSON l));
           ("text", VArr (map toJSON t)) ] in
  match stringify payload with
  | Str raw => default s (setItem GRAPHICS_KEY_V2 raw s)
  | NoText => default s (setItem GRAPHICS_KEY_V2 "undefined" s)
  | StringifyThrows => s
  end.

(** [(x ?? []).map((j) => Graphic.fromJSON(j))]: a parsed value that is
    neither nullish nor an array has no [map], and the call throws. *)
Definition mappedOf (x : value) : option (list G) :=
  match x with
  | VUndefined | VNull => Some []
  | VArr items => Some (map fromJSON items)
  | _ => None
  end.

(** The statements of [loadGraphics] after [JSON.parse]; a thrown error
    is caught and gives [null], here [None]. *)
Definition graphicsOfParsed (parsed : value) : option (Imported G) :=
  if falsy parsed || negb (typeof_number (get parsed "version")) then None
  else if strict_eq_num (get parsed "version") 1 then
    d ← mappedOf (get parsed "draw");
    l ← mappedOf (get parsed "labels");
    Some (mkImported d l [])
  else if strict_eq_num (get parsed "version") 2 then
    d ← mappedOf (get parsed "draw");
    l ← mappedOf (get parsed "labels");
    t ← mappedOf (get parsed "text");
    Some (mkImported d l t)
  else None.

Definition loadGraphics (s : Store) : option (Imported G) :=
  let raw :=
    match getItem GRAPHICS_KEY_V2 s with
    | Some raw => Some raw
    | None => getItem GRAPHICS_KEY_V1 s
    end in
  match raw with
  | None => None
  | Some raw =>
      match parse raw with
      | None => None
      | Some parsed => graphicsOfParsed parsed
      end
  end.

Definition clearAll (s : Store) : Store :=
  delete GRAPHICS_KEY_V2 (delete GRAPHICS_KEY_V1 (delete SETTINGS_KEY s)).

End Service.
End StorageService.

(** ** sketch.service.ts: colours *)

Module Colors.
Import Js.

(** A string is the sequence of its code units, each of them below 256. *)
Definition code (c : ascii) : Z := Z.of_N (N_of_ascii c).

(** [hex.replace('#', '')]: the first occurrence is removed. *)
Fixpoint removeFirstHash (s : string) : string :=
  match s with
  | EmptyString => EmptyString
  | String c rest =>
      if (code c =? 35)%Z then rest else String c (removeFirstHash rest)
  end.

(** [h.split('').map((c) => c + c).join('')] *)
Fixpoint doubled (s : string) : string :=
  match s with
  | EmptyString => EmptyString
  | String c rest => String c (String c (doubled rest))
  end.

(** The white space and line terminators that [parseInt] skips. *)
Definition isWhiteSpace (c : ascii) : bool :=
  ((9 <=? code c) && (code c <=? 13) || (code c =? 32) || (code c =? 160))%Z.

Fixpoint trimStart (s : string) : string :=
  match s with
  | EmptyString => EmptyString
  | String c rest => if isWhiteSpace c then trimStart rest else s
  end.

(** The value of a digit of radix 16. *)
Definition digit16 (c : ascii) : option Z :=
  let n := code c in
  if ((48 <=? n) && (n <=? 57))%Z then Some (n - 48)%Z
  else if ((97 <=? n) && (n <=? 102))%Z then Some (n - 87)%Z
  else if ((65 <=? n) && (n <=? 70))%Z then Some (n - 55)%Z
  else None.

(** The longest prefix of digits: how many there are, and their value. *)
Fixpoint digits (s : string) (count : nat) (acc : Z) : nat * Z :=
  match s with
  | EmptyString => (count, acc)
  | String c rest =>
      match digit16 c with
      | Some d => digits rest (S count) (16 * acc + d)%Z
      | None => (count, acc)
      end
  end.

(** The Number for a natural number: the number itself up to 53 bits, the
    nearest one with 53 significant bits above (ties to the even one), and
    no finite Number from [2 ^ 1024] on ([None]). *)
Definition nearestNumber (n : Z) : option Z :=
  let bits := (Z.log2 n + 1)%Z in
  if (bits <=? 53)%Z then Some n
  else
    let e := (bits - 53)%Z in
    let q := Z.shiftr n e in
    let r := (n - Z.shiftl q e)%Z in
    let half := Z.shiftl 1 (e - 1) in
    let q' :=
      if ((half <? r) || ((r =? half) && Z.odd q))%Z then (q + 1)%Z else q in
    let v := Z.shiftl q' e in
    if (2 ^ 1024 <=? v)%Z then None else Some v.

(** [parseInt(s, 16)]. The two zeros are one number here: the callers
    only convert the result to an integer. *)
Definition parseInt16 (s : string) : jsnum :=
  let s1 := trimStart s in
  let '(negative, s2) :=
    match s1 with
    | String c rest =>
        if (code c =? 45)%Z then (true, rest)
        else if (code c =? 43)%Z then (false, rest)
        else (false, s1)
    | EmptyString => (false, s1)
    end in
  let s3 :=
    match s2 with
    | String z (String x rest) =>
        if ((code z =? 48) && ((code x =? 120) || (code x =? 88)))%Z
        then rest else s2
    | _ => s2
    end in
  let '(count, mathInt) := digits s3 0 0 in
  match count with
  | O => NaN
  | S _ =>
      match nearestNumber mathInt with
      | Some v => Fin (inject_Z (if negative then - v else v))
      | None => if negative then NegInf else PosInf
      end
  end.

(** [ToInt32], which the bitwise operators apply to their operands. *)
Definition toInt32 (v : jsnum) : Z :=
  match v with
  | Fin q =>
      let int := Z.quot (Qnum q) (Zpos (Qden q)) in
      let k := (int mod 2 ^ 32)%Z in
      if (2 ^ 31 <=? k)%Z then (k - 2 ^ 32)%Z else k
  | _ => 0%Z
  end.

(** [hexToRgbArray(hex, alpha)]; the callers that leave [alpha] out pass
    1. *)
Definition hexToRgbArray (hex : string) (alpha : Q) : Z * Z * Z * Q :=
  let h := removeFirstHash hex in
  let bigint :=
    parseInt16 (if decide (String.length h = 3) then doubled h else h) in
  let r := Z.land (Z.shiftr (toInt32 bigint) 16) 255 in
  let g := Z.land (Z.shiftr (toInt32 bigint) 8) 255 in
  let b := Z.land (toInt32 bigint) 255 in
  (r, g, b, alpha).

End Colors.

(** ** More stand-ins, for the storage and for states with labels *)

Module Fixtures.
Import Js Geometry MeasurementService SketchService.

(** A view that projects nothing. *)
Definition blindView : ViewProjector :=
  {| toScreen := fun _ => None; toMap := fun _ => None |}.

(** A codec that writes every value as [raw] and reads [raw] as [v]. *)
Definition oneTextJson (v : value) (raw : string) : StorageService.Json :=
  {| StorageService.stringify := fun _ => StorageService.Str raw;
     StorageService.parse :=
       fun s => if decide (s = raw) then Some v else None |}.

(** A store that takes every item. *)
Definition roomyStore : StorageService.Quota :=
  {| StorageService.accepts := fun _ _ _ => true |}.

(** The triangle of [Samples.sketched] once its creation is complete:
    it has its identifier and its labels. *)
Definition labelledTriangle : State :=
  let Engine := Samples.constEngine (Num (Fin 5)) in
  let Shape := Samples.vertexAccessors in
  let Math := Samples.fixedBearing 0 in
  let View := Samples.flatView in
  let Clock := Samples.tickingRuntime in
  on_create defaultUnits Complete (Some 0) Samples.sketched.

(** The same, with the rectangle tool started as a selection window. *)
Definition awaitingWindow : State := startSelection labelledTriangle.

(** Settings for the text tool. *)
Definition textSettings : DrawSettings :=
  Samples.sampleSettings ToolText false false false false.

(** An [atan2] in degrees that is exact along the axes and the diagonals,
    and a stand-in elsewhere. *)
Definition compassAtan2 (dy dx : Q) : Q :=
  if Qeq_bool dy 0 then (if Qltb dx 0 then 180 else 0)
  else if Qeq_bool dx 0 then (if Qltb 0 dy then 90 else -90)
  else if Qeq_bool dy dx then (if Qltb 0 dx then 45 else -135)
  else if Qeq_bool dy (- dx) then (if Qltb 0 dx then -45 else 135)
  else 0.

Definition compassMath : JsMath :=
  {| atan2_deg := compassAtan2;
     cos_deg := fun _ => 0%Q;
     sin_deg := fun _ => 1%Q;
     toFixed := fun _ _ => "0.00" |}.

(** A line that runs to the north-west and then straight north. *)
Definition bentLine : Polyline :=
  mkPolyline [[(0, 0); (-3, 3); (-3, 6)]%Q] 3857.




End Fixtures.

(** * Properties *)

(** ** The importer *)

Section ImportProperties.
Import Js ExportService.
Context {G : Type} `{GraphicJson G}.

Lemma get_number_is_object (payload : value) (k : string) (v : jsnum) :
  get payload k = VNum v ->
  falsy payload || negb (typeof_object payload) = false.
Proof.
  destruct payload; simpl; try discriminate. reflexivity.
Qed.

(** C1. A payload whose [version] is the number 2 comes back with its
    parsed draw, labels and text; one whose [version] is the number 1 with
    its parsed draw and labels and no text; any other number as [version]
    makes the import throw the unsupported-version error, and then nothing
    is returned at all. *)
Theorem importEsriJson_by_version (payload : value) (v : jsnum) :
  get payload "version" = VNum v ->
  (num_eqb v (Fin 2) = true ->
     importEsriJson payload =
       Returned (mkImported (graphicsOf (get payload "draw"))
                            (graphicsOf (get payload "labels"))
                            (graphicsOf (get payload "text"))))
  /\ (num_eqb v (Fin 1) = true ->
        importEsriJson payload =
          Returned (mkImported (graphicsOf (get payload "draw"))
                               (graphicsOf (get payload "labels"))
                               []))
  /\ (num_eqb v (Fin 1) = false -> num_eqb v (Fin 2) = false ->
        importEsriJson payload = UnsupportedExportVersion (VNum v)
        /\ forall r, importEsriJson payload <> Returned r).
Proof.
  intros Hv. pose proof (get_number_is_object _ _ _ Hv) as Hobj.
  unfold importEsriJson. rewrite Hobj, Hv. simpl.
  repeat split.
  - intros H2. rewrite H2.
    destruct (num_eqb v (Fin 1)) eqn:H1; [|reflexivity].
    destruct v as [q| | |]; simpl in *; try discriminate.
    apply Qeq_bool_iff in H1, H2. rewrite H1 in H2. discriminate.
  - intros H1. rewrite H1. reflexivity.
  - rewrite H0, H1. reflexivity.
  - intros r. rewrite H0, H1. discriminate.
Qed.

(** C10. An object that is not null and has no [version] field is read as
    version 1: its parsed draw and labels come back with an empty text
    collection, and no error is raised. *)
Theorem importEsriJson_without_version (payload : value) :
  typeof_object payload = true ->
  payload <> VNull ->
  has_field payload "version" = false ->
  importEsriJson payload =
    Returned (mkImported (graphicsOf (get payload "draw"))
                         (graphicsOf (get payload "labels"))
                         []).
Proof.
  intros Hobj Hnull Hfield. unfold importEsriJson.
  destruct payload as [| | | | |items|fields];
    try discriminate; try congruence.
  - reflexivity.
  - unfold has_field in Hfield. rewrite bool_decide_eq_false in Hfield.
    assert (get (VObj fields) "version" = VUndefined) as ->.
    { unfold get. destruct (assoc "version" fields); [|reflexivity].
      destruct Hfield. eauto. }
    reflexivity.
Qed.

End ImportProperties.

Lemma importEsriJson_by_version_witness :
  let ExportGraphics := Samples.plainJson in
  ExportService.importEsriJson Samples.payloadV2
  = ExportService.Returned
      (ExportService.mkImported [Js.VStr "d"] [] [Js.VStr "t"])
  /\ ExportService.importEsriJson Samples.payloadV1
     = ExportService.Returned (ExportService.mkImported [Js.VStr "d"] [] [])
  /\ ExportService.importEsriJson Samples.payloadV3
     = ExportService.UnsupportedExportVersion (Js.VNum (Js.Fin 3)).
Proof.
  intros ExportGraphics. split; [|split].
  - apply (importEsriJson_by_version (H := ExportGraphics)
             Samples.payloadV2 (Js.Fin 2) eq_refl); reflexivity.
  - apply (importEsriJson_by_version (H := ExportGraphics)
             Samples.payloadV1 (Js.Fin 1) eq_refl); reflexivity.
  - apply (importEsriJson_by_version (H := ExportGraphics)
             Samples.payloadV3 (Js.Fin 3) eq_refl); reflexivity.
Defined.

Lemma importEsriJson_without_version_witness :
  let ExportGraphics := Samples.plainJson in
  ExportService.importEsriJson Samples.payloadUnversioned
  = ExportService.Returned (ExportService.mkImported [Js.VStr "d"] [] []).
Proof.
  intros ExportGraphics.
  apply (importEsriJson_without_version (H := ExportGraphics)
           Samples.payloadUnversioned);
    [reflexivity | discriminate | reflexivity].
Defined.

(** ** The measurement service *)

Section LengthProperties.
Import Js Geometry MeasurementService.
Context `{GeometryEngine}.

(** C5, as the code has it. The length of a polyline is what the engine
    answers for the configured length unit whenever it answers with a
    number, finite or not; it is 0 when the engine answers [null] or
    [undefined]. So the length is non-finite exactly when the engine's
    number is; no call raises an error. *)
Theorem geodesicLength_passes_numbers (u : Units) (geom : Polyline) :
  (forall v, engine_geodesicLength geom (lengthUnit u) = Num v ->
             geodesicLength u geom = v)
  /\ (engine_geodesicLength geom (lengthUnit u) = Null ->
        geodesicLength u geom = Fin 0)
  /\ (engine_geodesicLength geom (lengthUnit u) = Undefined ->
        geodesicLength u geom = Fin 0)
  /\ (isFinite (geodesicLength u geom) = false <->
        exists v, engine_geodesicLength geom (lengthUnit u) = Num v
                  /\ isFinite v = false).
Proof.
  unfold geodesicLength.
  destruct (engine_geodesicLength geom (lengthUnit u)) as [v| |] eqn:E;
    simpl; repeat split; try congruence; try discriminate.
  - intros Hv. exists v. auto.
  - intros (w & Hw & Hfin). congruence.
  - intros (w & Hw & _). discriminate.
  - intros (w & Hw & _). discriminate.
Qed.

End LengthProperties.

(** C5, as the specification words it, fails: when the engine answers NaN
    for a polyline, the length operation returns NaN, not 0. *)
Lemma geodesicLength_nan_is_returned :
  let Engine := Samples.constEngine (MeasurementService.Num Js.NaN) in
  Js.isFinite Js.NaN = false
  /\ MeasurementService.engine_geodesicLength Samples.twoEdges
       MeasurementService.Meters = MeasurementService.Num Js.NaN
  /\ MeasurementService.geodesicLength MeasurementService.defaultUnits
       Samples.twoEdges = Js.NaN
  /\ MeasurementService.geodesicLength MeasurementService.defaultUnits
       Samples.twoEdges <> Js.Fin 0.
Proof.
  intros Engine. repeat split. discriminate.
Qed.

Lemma geodesicLength_passes_numbers_witness :
  let Engine := Samples.constEngine MeasurementService.Null in
  MeasurementService.geodesicLength MeasurementService.defaultUnits
    Samples.twoEdges = Js.Fin 0.
Proof.
  intros Engine.
  apply (proj1 (proj2 (geodesicLength_passes_numbers (H := Engine)
                         MeasurementService.defaultUnits Samples.twoEdges))).
  reflexivity.
Defined.

(** ** Label placement *)

Section LabelProperties.
Import Js Geometry MeasurementService SketchService.
Context `{GeometryEngine} `{Accessors} `{JsMath} `{ViewProjector}.
Variable measure : Units.

Lemma Qltb_lt (a b : Q) : Qltb a b = true <-> (a < b)%Q.
Proof.
  unfold Qltb. rewrite negb_true_iff. split.
  - intros Hb. apply Qnot_le_lt. intros Hle.
    apply Qle_bool_iff in Hle. congruence.
  - intros Hlt. destruct (Qle_bool b a) eqn:E; [|reflexivity].
    apply Qle_bool_iff in E. exfalso. exact (Qlt_not_le _ _ Hlt E).
Qed.

Lemma Qltb_ge (a b : Q) : Qltb a b = false <-> (b <= a)%Q.
Proof.
  unfold Qltb. rewrite negb_false_iff. apply Qle_bool_iff.
Qed.

(** The normalisation of a bearing, case by case. *)
Lemma normalizeAngle_cases (b : Q) :
  ((90 < b)%Q -> normalizeAngle b = (b - 180)%Q)
  /\ ((b < -90)%Q -> normalizeAngle b = (b + 180)%Q)
  /\ ((-90 <= b)%Q -> (b <= 90)%Q -> normalizeAngle b = b).
Proof.
  unfold normalizeAngle. repeat split.
  - intros Hb. apply Qltb_lt in Hb. rewrite Hb. reflexivity.
  - intros Hb.
    assert (Qltb 90 b = false) as ->.
    { apply Qltb_ge. apply Qlt_le_weak. eapply Qlt_trans; [exact Hb|].
      reflexivity. }
    apply Qltb_lt in Hb. rewrite Hb. reflexivity.
  - intros Hlo Hhi.
    apply Qltb_ge in Hlo, Hhi. rewrite Hhi, Hlo. reflexivity.
Qed.

Lemma normalizeAngle_range (b : Q) :
  (-180 <= b)%Q -> (b <= 180)%Q ->
  (-90 <= normalizeAngle b)%Q /\ (normalizeAngle b <= 90)%Q.
Proof.
  intros Hlo Hhi. unfold normalizeAngle.
  destruct (Qltb 90 b) eqn:E1.
  - apply Qltb_lt in E1. unfold Qle, Qlt in *. simpl in *. split; lia.
  - apply Qltb_ge in E1. destruct (Qltb b (-90)) eqn:E2.
    + apply Qltb_lt in E2. unfold Qle, Qlt in *. simpl in *. split; lia.
    + apply Qltb_ge in E2. split; assumption.
Qed.

Lemma segmentLengths_length (geom : Geom) :
  length (segmentLengths measure geom) = length (getSegments geom).
Proof.
  unfold segmentLengths, getSegments.
  induction (parts geom) as [|path rest IH]; simpl; [reflexivity|].
  rewrite !length_app, IH, length_map. reflexivity.
Qed.

(** The labels of the edges come first, one per edge and in their order. *)
Lemma segment_label_lookup (settings : DrawSettings) (geom : Geom) (i : nat)
    (seg : Vertex * Vertex) :
  showSegmentLengths (labels settings) = true ->
  getSegments geom !! i = Some seg ->
  exists len,
    makeLabelsForGeometry measure geom settings !! i
    = Some (segmentLabel measure settings (sr_of geom) seg len).
Proof.
  intros Hshow Hseg.
  assert (i < length (getSegments geom)) as Hi
    by (apply lookup_lt_is_Some; eauto).
  destruct (segmentLengths measure geom !! i) as [len|] eqn:Hlen.
  2:{ apply lookup_ge_None in Hlen. rewrite segmentLengths_length in Hlen.
      lia. }
  exists len.
  assert (segmentLabels measure settings geom !! i
          = Some (segmentLabel measure settings (sr_of geom) seg len)) as Hl.
  { unfold segmentLabels. rewrite Hshow, lookup_zip_with, Hseg. simpl.
    rewrite Hlen. reflexivity. }
  assert (i < length (segmentLabels measure settings geom)) as Hlt
    by (apply lookup_lt_is_Some; eauto).
  destruct geom as [p|pl|pg]; simpl.
  - discriminate.
  - rewrite lookup_app_l by exact Hlt. exact Hl.
  - rewrite lookup_app_l by exact Hlt. exact Hl.
Qed.

(** C8. With segment labels on, the label of every edge of a polyline or
    polygon carries as its angle the bearing of the edge normalised into
    [-90, 90]: 180 is taken off a bearing above 90 and added to one below
    -90, so a bearing of 170 is stored as -10. The bearing of the edge
    from [(x1, y1)] to [(x2, y2)] is the [atan2] of [y2 - y1] and
    [x2 - x1] in degrees, which lies in [-180, 180]. *)
Theorem segment_label_angle_normalized (settings : DrawSettings)
    (geom : Geom) (i : nat) (x1 y1 x2 y2 : Q) :
  showSegmentLengths (labels settings) = true ->
  getSegments geom !! i = Some ((x1, y1), (x2, y2)) ->
  (-180 <= atan2_deg (y2 - y1) (x2 - x1))%Q ->
  (atan2_deg (y2 - y1) (x2 - x1) <= 180)%Q ->
  exists lbl a,
    makeLabelsForGeometry measure geom settings !! i = Some lbl
    /\ label_angle lbl = Some a
    /\ (-90 <= a)%Q /\ (a <= 90)%Q
    /\ ((90 < atan2_deg (y2 - y1) (x2 - x1))%Q ->
        a = (atan2_deg (y2 - y1) (x2 - x1) - 180)%Q)
    /\ ((atan2_deg (y2 - y1) (x2 - x1) < -90)%Q ->
        a = (atan2_deg (y2 - y1) (x2 - x1) + 180)%Q)
    /\ ((-90 <= atan2_deg (y2 - y1) (x2 - x1))%Q ->
        (atan2_deg (y2 - y1) (x2 - x1) <= 90)%Q ->
        a = atan2_deg (y2 - y1) (x2 - x1))
    /\ ((atan2_deg (y2 - y1) (x2 - x1) == 170)%Q -> (a == -10)%Q).
Proof.
  intros Hshow Hseg Hlo Hhi.
  destruct (segment_label_lookup settings geom i _ Hshow Hseg)
    as [len Hlbl].
  assert (getSegmentAngle ((x1, y1), (x2, y2))
          = atan2_deg (y2 - y1) (x2 - x1)) as Hbearing by reflexivity.
  exists (segmentLabel measure settings (sr_of geom)
            ((x1, y1), (x2, y2)) len),
         (normalizeAngle (atan2_deg (y2 - y1) (x2 - x1))).
  destruct (normalizeAngle_range _ Hlo Hhi) as [Ha Hb].
  destruct (normalizeAngle_cases (atan2_deg (y2 - y1) (x2 - x1)))
    as (C1 & C2 & C3).
  split; [exact Hlbl|].
  split; [unfold segmentLabel; rewrite Hbearing; reflexivity|].
  repeat split; try assumption.
  intros H170. rewrite C1.
  - rewrite H170. reflexivity.
  - rewrite H170. reflexivity.
Qed.

(** C6, on the code. Label generation never looks at a tool tag: with
    [showCircleRadius] on, the center block of every polygon that has an
    anchor ends with the line "R = ...", whatever tool drew the polygon
    and whatever tool the settings name. The rows of
    [buildMeasurementsForGraphics] do ask for the circle tool. *)
Theorem radius_line_whatever_the_tool (pg : Polygon)
    (settings : DrawSettings) (center : Point) :
  labelAnchor (GPolygon pg) = Some center ->
  showCircleRadius (labels settings) = true ->
  exists lbl,
    lbl ∈ makeLabelsForGeometry measure (GPolygon pg) settings
    /\ label_text lbl
       = Some ("R = " +:+ formatLength measure (radiusFromPolygon measure pg)).
Proof.
  intros Hanchor Hradius.
  set (line := "R = " +:+ formatLength measure (radiusFromPolygon measure pg)).
  assert (exists before, polygonCenterLines measure settings pg
                         = before ++ [line]) as [before Hlines].
  { unfold polygonCenterLines. rewrite Hradius.
    eexists. rewrite app_assoc. reflexivity. }
  unfold makeLabelsForGeometry. rewrite Hanchor, Hlines.
  unfold stackLines.
  set (place := fun (i : nat) (l : string) => addText settings _ l 0).
  exists (place (length before) line). split; [|reflexivity].
  apply elem_of_app. right.
  apply (list_elem_of_lookup_2 _ (length before)).
  rewrite list_lookup_imap, lookup_app_r, Nat.sub_diag by lia.
  reflexivity.
Qed.

(** C9, as the code has it. The standalone title stands [sep] pixels above
    its anchor, where [sep] is: for a polyline, [spacing] with the totals
    shown and 0 without; for a polygon, the rounded
    [((measurementLineCount + 1) / 2) * spacing] when at least one
    measurement line is shown and 0 when none is; for a point, 0. Here
    [spacing = round(fontSize * 1.0)]. *)
Theorem titleSeparation_by_geometry (geom : Geom) (settings : DrawSettings) :
  let spacing := round (fontSize (text settings) * 1) in
  let shown := labels settings in
  titleSeparation geom settings
  = match geom with
    | GPolyline _ => if showTotals shown then spacing else 0%Z
    | GPolygon _ =>
        if showTotals shown || showCircleRadius shown
        then spec_polygonTitleSeparation settings
        else 0%Z
    | GPoint _ => 0%Z
    end
  /\ forall basePt,
       titleBasePoint geom = Some basePt ->
       exists lbl,
         titleGraphic geom settings = Some lbl
         /\ label_text lbl = Some (titleText settings)
         /\ geometry lbl
            = Some (GPoint
                      (if (titleSeparation geom settings =? 0)%Z then basePt
                       else offsetPoint basePt 0
                              (inject_Z (- titleSeparation geom settings)))).
Proof.
  intros spacing shown. split.
  - unfold titleSeparation, spec_polygonTitleSeparation,
      spec_measurementLineCount. subst shown spacing.
    destruct geom; [reflexivity|reflexivity|].
    destruct (showTotals (labels settings)),
             (showCircleRadius (labels settings)); reflexivity.
  - intros basePt Hbase. unfold titleGraphic. rewrite Hbase.
    eexists. split; [reflexivity|]. split; [reflexivity|].
    simpl. destruct (titleSeparation geom settings =? 0)%Z; reflexivity.
Qed.

End LabelProperties.

Lemma segment_label_angle_normalized_witness :
  let Engine := Samples.constEngine (MeasurementService.Num (Js.Fin 5)) in
  let Shape := Samples.vertexAccessors in
  let Math := Fixtures.compassMath in
  let View := Samples.flatView in
  let made :=
    SketchService.makeLabelsForGeometry MeasurementService.defaultUnits
      (Geometry.GPolyline Fixtures.bentLine)
      (Samples.sampleSettings SketchService.ToolPolyline
         true true false true) in
  (exists lbl a,
      made !! 0%nat = Some lbl
      /\ SketchService.label_angle lbl = Some a
      /\ (a == -45)%Q)
  /\ (exists lbl a,
        made !! 1%nat = Some lbl
        /\ SketchService.label_angle lbl = Some a
        /\ (a == 90)%Q).
Proof.
  intros Engine Shape Math View made.
  split.
  - destruct (segment_label_angle_normalized (H := Engine) (H0 := Shape)
                (H1 := Math) (H2 := View) MeasurementService.defaultUnits
                (Samples.sampleSettings SketchService.ToolPolyline
                   true true false true)
                (Geometry.GPolyline Fixtures.bentLine) 0
                0 0 (-3) 3 eq_refl eq_refl)
      as (lbl & a & Hlbl & Hangle & _ & _ & Habove & _).
    + vm_compute. discriminate.
    + vm_compute. discriminate.
    + exists lbl, a. split; [exact Hlbl|]. split; [exact Hangle|].
      rewrite Habove by (vm_compute; reflexivity).
      vm_compute. reflexivity.
  - destruct (segment_label_angle_normalized (H := Engine) (H0 := Shape)
                (H1 := Math) (H2 := View) MeasurementService.defaultUnits
                (Samples.sampleSettings SketchService.ToolPolyline
                   true true false true)
                (Geometry.GPolyline Fixtures.bentLine) 1
                (-3) 3 (-3) 6 eq_refl eq_refl)
      as (lbl & a & Hlbl & Hangle & _ & _ & _ & _ & Hwithin & _).
    + vm_compute. discriminate.
    + vm_compute. discriminate.
    + exists lbl, a. split; [exact Hlbl|]. split; [exact Hangle|].
      rewrite Hwithin.
      * vm_compute. reflexivity.
      * vm_compute. discriminate.
      * vm_compute. discriminate.
Defined.

Lemma radius_line_whatever_the_tool_witness :
  let Engine := Samples.constEngine (MeasurementService.Num (Js.Fin 5)) in
  let Shape := Samples.vertexAccessors in
  let Math := Samples.fixedBearing 0 in
  let View := Samples.flatView in
  SketchService.tool
    (Samples.sampleSettings SketchService.ToolPolygon false false true false)
  = SketchService.ToolPolygon
  /\ exists lbl,
       lbl ∈ SketchService.makeLabelsForGeometry MeasurementService.defaultUnits
               (Geometry.GPolygon Samples.triangle)
               (Samples.sampleSettings SketchService.ToolPolygon
                  false false true false)
       /\ SketchService.label_text lbl = Some "R = 0.00 m".
Proof.
  intros Engine Shape Math View. split; [reflexivity|].
  exact (radius_line_whatever_the_tool (H := Engine) (H0 := Shape)
           (H1 := Math) (H2 := View) MeasurementService.defaultUnits
           Samples.triangle
           (Samples.sampleSettings SketchService.ToolPolygon
              false false true false)
           (Geometry.mkPoint 0 0 3857) eq_refl eq_refl).
Defined.

(** The same on the handler: a triangle completed with the polygon tool is
    tagged [polygon] and gets the line "R = ..." as its persisted label. *)
Example triangle_is_labelled_with_radius :
  let Engine := Samples.constEngine (MeasurementService.Num (Js.Fin 5)) in
  let Shape := Samples.vertexAccessors in
  let Math := Samples.fixedBearing 0 in
  let View := Samples.flatView in
  let Clock := Samples.tickingRuntime in
  let st :=
    SketchService.on_create MeasurementService.defaultUnits
      SketchService.Complete (Some 0) Samples.radiusSketch in
  (SketchService.attributes (SketchService.deref st 0)
     ≫= SketchService.attr_tool) = Some SketchService.ToolPolygon
  /\ SketchService.labelIndex st !! "g-1700000000000-k3x9qa" = Some [1]
  /\ SketchService.label_text (SketchService.deref st 1)
     = Some "R = 0.00 m".
Proof.
  intros Engine Shape Math View Clock st. vm_compute. repeat split.
Qed.

(** C9, as the specification words it, fails: for a polygon with neither
    totals nor radius shown the formula asks for [round(0.5 * 12) = 6]
    pixels, and the title is placed with no separation. (For a polyline
    with the totals shown the separation is [spacing = 12], where the line
    height of the center block is 14.) *)
Lemma polygon_title_without_measurements :
  let settings :=
    Samples.sampleSettings SketchService.ToolPolygon true false false true in
  let lined :=
    Samples.sampleSettings SketchService.ToolPolyline true true false true in
  SketchService.spec_measurementLineCount settings = 0%Z
  /\ SketchService.spec_polygonTitleSeparation settings = 6%Z
  /\ SketchService.titleSeparation (Geometry.GPolygon Samples.triangle)
       settings = 0%Z
  /\ SketchService.titleSeparation (Geometry.GPolygon Samples.triangle)
       settings
     <> SketchService.spec_polygonTitleSeparation settings
  /\ SketchService.titleSeparation (Geometry.GPolyline Samples.twoEdges)
       lined = 12%Z
  /\ SketchService.lineHeight lined = 14%Z.
Proof.
  intros settings lined. repeat split. discriminate.
Qed.

Lemma titleSeparation_by_geometry_witness :
  let Shape := Samples.vertexAccessors in
  let View := Samples.flatView in
  let settings :=
    Samples.sampleSettings SketchService.ToolPolygon true true true true in
  SketchService.titleSeparation (Geometry.GPolygon Samples.triangle) settings
  = SketchService.spec_polygonTitleSeparation settings
  /\ SketchService.titleSeparation (Geometry.GPolygon Samples.triangle)
       settings = 24%Z.
Proof.
  intros Shape View settings. split; [|reflexivity].
  exact (proj1 (titleSeparation_by_geometry (H0 := Shape) (H2 := View)
                  (Geometry.GPolygon Samples.triangle) settings)).
Defined.

(** ** Identity *)

Section IdentityProperties.
Import Js Geometry MeasurementService SketchService.
Context `{Runtime}.

Lemma pretty_N_go_dashless (n : N) (s : string) :
  dashless s -> dashless (pretty_N_go n s).
Proof.
  revert s. induction (N.lt_wf_0 n) as [n _ IH]. intros s Hs.
  destruct (decide (n = 0%N)) as [->|Hn].
  - rewrite pretty_N_go_0. exact Hs.
  - rewrite pretty_N_go_step by lia. apply IH.
    + apply N.div_lt; lia.
    + split; [|exact Hs]. unfold pretty_N_char.
      repeat case_match; discriminate.
Qed.

Lemma pretty_N_dashless (n : N) : dashless (pretty n).
Proof.
  unfold pretty, pretty_N. case_decide.
  - simpl. split; [discriminate|exact I].
  - apply pretty_N_go_dashless. exact I.
Qed.

Lemma split_at_dash (a b s t : string) :
  dashless a -> dashless b ->
  a +:+ "-" +:+ s = b +:+ "-" +:+ t -> a = b /\ s = t.
Proof.
  revert b. induction a as [|c a IH]; intros [|d b] Ha Hb Heq;
    simpl in *.
  - injection Heq as Heq. split; [reflexivity|exact Heq].
  - injection Heq as Hc _. destruct Hb as [Hd _]. congruence.
  - injection Heq as Hc _. destruct Ha as [Hc' _]. congruence.
  - injection Heq as Hc Heq. destruct Ha as [_ Ha], Hb as [_ Hb].
    destruct (IH b Ha Hb Heq) as [Hab Hst]. subst. split; reflexivity.
Qed.

(** Two generated identifiers are equal only when both the clock reading
    and the random suffix are. *)
Lemma fresh_id_inj (j k : nat) :
  fresh_id j = fresh_id k ->
  date_now j = date_now k /\ random_suffix j = random_suffix k.
Proof.
  unfold fresh_id. intros Heq. injection Heq as Heq.
  apply (split_at_dash (pretty (date_now j)) (pretty (date_now k))
           (random_suffix j) (random_suffix k)) in Heq;
    try apply pretty_N_dashless.
  destruct Heq as [Hd Hs]. split; [|exact Hs].
  apply (inj pretty). exact Hd.
Qed.

Lemma fresh_id_attached (k : nat) (g : Graphic) :
  attached_id (with_sid (fresh_id k) g) = Some (fresh_id k).
Proof.
  unfold attached_id, with_sid, sid.
  destruct (decide (fresh_id k = "")) as [E|E]; [|reflexivity].
  unfold fresh_id in E. discriminate.
Qed.

Lemma getGraphicId_attached (st : State) (r : ref) (id : string) :
  attached_id (deref st r) = Some id -> getGraphicId r st = (id, st).
Proof. intros Hid. unfold getGraphicId. rewrite Hid. reflexivity. Qed.

Lemma getGraphicId_fresh (st : State) (r : ref) :
  attached_id (deref st r) = None ->
  getGraphicId r st
  = (fresh_id (minted st),
     set_minted (S (minted st))
       (set_heap (alter (with_sid (fresh_id (minted st))) r (heap st)) st)).
Proof. intros Hid. unfold getGraphicId. rewrite Hid. reflexivity. Qed.

Lemma deref_lookup (st : State) (r : ref) (g : Graphic) :
  heap st !! r = Some g -> deref st r = g.
Proof. intros Hg. unfold deref. rewrite Hg. reflexivity. Qed.

(** C7, as the code has it. Asking a shape for its identifier twice gives
    the same identifier, and the second call changes nothing. For a shape
    that has none yet, the identifier is built from the clock reading and
    a random suffix and attached to the shape; it differs from every
    identifier generated at another clock reading or with another suffix.
    No list of the identifiers in use is consulted. *)
Theorem getGraphicId_twice (st : State) (r : ref) (g : Graphic) :
  heap st !! r = Some g ->
  getGraphicId r (getGraphicId r st).2 = getGraphicId r st
  /\ (forall id, attached_id g = Some id -> getGraphicId r st = (id, st))
  /\ (attached_id g = None ->
        (getGraphicId r st).1 = fresh_id (minted st)
        /\ sid (deref (getGraphicId r st).2 r) = Some (fresh_id (minted st))
        /\ forall k,
             date_now k ≠ date_now (minted st)
             \/ random_suffix k ≠ random_suffix (minted st) ->
             fresh_id k ≠ (getGraphicId r st).1).
Proof.
  intros Hg. pose proof (deref_lookup _ _ _ Hg) as Hderef.
  destruct (attached_id g) as [id|] eqn:Hid.
  - assert (getGraphicId r st = (id, st)) as Hcall
      by (apply getGraphicId_attached; rewrite Hderef; exact Hid).
    rewrite Hcall. simpl. split; [exact Hcall|]. split.
    + intros id' [= <-]. reflexivity.
    + discriminate.
  - rewrite (getGraphicId_fresh st r) by (rewrite Hderef; exact Hid).
    simpl.
    set (st1 := set_minted _ _).
    assert (deref st1 r = with_sid (fresh_id (minted st)) g) as Hderef1.
    { unfold deref, st1, set_minted, set_heap. cbn [heap].
      rewrite list_lookup_alter_eq, Hg. reflexivity. }
    split; [|split].
    + apply getGraphicId_attached. rewrite Hderef1.
      apply fresh_id_attached.
    + discriminate.
    + intros _. split; [reflexivity|]. split.
      * rewrite Hderef1. reflexivity.
      * intros k Hk Heq. apply fresh_id_inj in Heq. tauto.
Qed.

End IdentityProperties.

Lemma getGraphicId_twice_witness :
  let Clock := Samples.tickingRuntime in
  SketchService.getGraphicId 0
    (SketchService.getGraphicId 0 Samples.twoFreshShapes).2
  = ("g-1700000000000-k3x9qa",
     (SketchService.getGraphicId 0 Samples.twoFreshShapes).2).
Proof.
  intros Clock.
  destruct (getGraphicId_twice (H := Clock) Samples.twoFreshShapes 0 _
              eq_refl) as [Htwice _].
  rewrite Htwice. reflexivity.
Defined.

(** C7, as the specification words it, fails: when the clock has not
    advanced and the generator draws the same suffix, a second fresh shape
    gets the identifier the first one already has. *)
Lemma fresh_identifier_collides :
  let Clock := Samples.stalledRuntime in
  let first := SketchService.getGraphicId 0 Samples.twoFreshShapes in
  let second := SketchService.getGraphicId 1 first.2 in
  SketchService.sid (SketchService.deref first.2 1) = None
  /\ second.1 = first.1
  /\ SketchService.sid (SketchService.deref second.2 0) = Some first.1
  /\ SketchService.sid (SketchService.deref second.2 1) = Some first.1.
Proof.
  intros Clock first second. repeat split.
Qed.

(** ** The phases of an operation *)

Section PhaseProperties.
Import Js Geometry MeasurementService SketchService.
Context `{GeometryEngine} `{Accessors} `{JsMath} `{ViewProjector} `{Runtime}.
Variable measure : Units.

Lemma same_shape_refl (g : Graphic) : same_shape g g.
Proof. unfold same_shape. auto. Qed.

Lemma same_shape_trans (g1 g2 g3 : Graphic) :
  same_shape g1 g2 -> same_shape g2 g3 -> same_shape g1 g3.
Proof.
  intros (A1 & A2 & A3 & A4) (B1 & B2 & B3 & B4). unfold same_shape.
  repeat split; try congruence.
  intros Hs. specialize (A4 Hs). rewrite B4; [exact A4|].
  unfold attached_id in *. rewrite A4. exact Hs.
Qed.

Lemma kept_refl (st : State) : kept st st.
Proof.
  unfold kept. repeat split; try reflexivity.
  intros r g Hg. exists g. split; [exact Hg|apply same_shape_refl].
Qed.

Lemma kept_trans (st1 st2 st3 : State) :
  kept st1 st2 -> kept st2 st3 -> kept st1 st3.
Proof.
  intros (A1 & A2 & A3 & A4 & A5 & A6 & A7 & A8)
         (B1 & B2 & B3 & B4 & B5 & B6 & B7 & B8).
  unfold kept. repeat split; try congruence.
  intros r g Hg. destruct (A8 r g Hg) as (g2 & Hg2 & S12).
  destruct (B8 r g2 Hg2) as (g3 & Hg3 & S23).
  exists g3. split; [exact Hg3|]. eapply same_shape_trans; eauto.
Qed.

(** A state that differs in fields outside [kept] and keeps its heap. *)
Lemma kept_same_heap (st st' : State) :
  drawLayer st' = drawLayer st -> textLayer st' = textLayer st ->
  labelIndex st' = labelIndex st -> selectionMap st' = selectionMap st ->
  selectionLayer st' = selectionLayer st -> svmLayer st' = svmLayer st ->
  currentSettings st' = currentSettings st -> heap st' = heap st ->
  kept st st'.
Proof.
  intros. unfold kept. repeat split; try assumption.
  intros r g Hg. exists g. split; [congruence|apply same_shape_refl].
Qed.

Lemma with_sid_same_shape (id : string) (g : Graphic) :
  attached_id g = None -> same_shape g (with_sid id g).
Proof.
  intros Hs. unfold same_shape. simpl. repeat split. congruence.
Qed.

Lemma getGraphicId_kept (r : ref) (st : State) :
  kept st (getGraphicId r st).2.
Proof.
  unfold getGraphicId.
  destruct (attached_id (deref st r)) as [id|] eqn:Hid; simpl.
  - apply kept_refl.
  - unfold kept. simpl. repeat split; try reflexivity.
    intros r' g Hg. destruct (decide (r = r')) as [<-|Hne].
    + exists (with_sid (fresh_id (minted st)) g). split.
      * rewrite list_lookup_alter_eq, Hg. reflexivity.
      * apply with_sid_same_shape. unfold deref in Hid.
        rewrite Hg in Hid. exact Hid.
    + exists g. split; [|apply same_shape_refl].
      rewrite list_lookup_alter_ne by exact Hne. exact Hg.
Qed.

Lemma getGraphicIds_kept (rs : list ref) (st : State) :
  kept st (getGraphicIds rs st).2.
Proof.
  revert st. induction rs as [|r rs IH]; intros st; simpl.
  - apply kept_refl.
  - pose proof (getGraphicId_kept r st) as K1.
    destruct (getGraphicId r st) as [id st1]. simpl in K1.
    pose proof (IH st1) as K2.
    destruct (getGraphicIds rs st1) as [ids st2]. simpl in *.
    eapply kept_trans; eauto.
Qed.

Lemma clearTempLabels_kept (st : State) : kept st (clearTempLabels st).
Proof.
  unfold clearTempLabels. destruct (tempLabels st).
  - apply kept_refl.
  - apply kept_same_heap; reflexivity.
Qed.

Lemma clearTempLabels_heap (st : State) : heap (clearTempLabels st) = heap st.
Proof. unfold clearTempLabels. destruct (tempLabels st); reflexivity. Qed.

Lemma alloc_kept (gs : list Graphic) (st : State) :
  kept st (alloc gs st).2.
Proof.
  unfold alloc, kept. simpl. repeat split; try reflexivity.
  intros r g Hg. exists g. split; [|apply same_shape_refl].
  rewrite lookup_app_l; [exact Hg|]. apply lookup_lt_is_Some; eauto.
Qed.

Lemma addLabels_kept (gs : list Graphic) (st : State) :
  kept st (addLabels gs st).2.
Proof.
  unfold addLabels. pose proof (alloc_kept gs st) as K.
  destruct (alloc gs st) as [refs st1]. simpl in *.
  eapply kept_trans; [exact K|]. apply kept_same_heap; reflexivity.
Qed.

Lemma liveLabels_kept (settings : DrawSettings) (st : State) (g : ref) :
  kept st (liveLabels measure settings st g).
Proof.
  unfold liveLabels. destruct (geometry (deref st g)) as [geom|].
  - pose proof (addLabels_kept (makeLabelsForGeometry measure geom settings)
                  st) as K.
    destruct (addLabels _ st) as [refs st1]. simpl in *.
    eapply kept_trans; [exact K|]. apply kept_same_heap; reflexivity.
  - apply kept_refl.
Qed.

Lemma foldl_kept (f : State -> ref -> State) (gs : list ref) (st : State) :
  (forall s g, kept s (f s g)) -> kept st (foldl f st gs).
Proof.
  intros Hf. revert st. induction gs as [|g gs IH]; intros st; simpl.
  - apply kept_refl.
  - eapply kept_trans; [apply Hf|apply IH].
Qed.

Lemma measureGraphic_kept (settings : DrawSettings) (g : ref)
    (out : list SelectionMeasurement) (st : State) :
  kept st (measureGraphic measure settings g (out, st)).2.
Proof.
  unfold measureGraphic.
  destruct (geometry (deref st g)) as [[p|pl|pg]|]; try apply kept_refl.
  - pose proof (getGraphicId_kept (default g (selectionMap st !! g)) st) as K.
    destruct (getGraphicId _ st) as [id st1]. exact K.
  - pose proof (getGraphicId_kept (default g (selectionMap st !! g)) st) as K.
    destruct (getGraphicId _ st) as [id st1]. exact K.
Qed.

Lemma buildMeasurementsForGraphics_kept (gs : list ref)
    (settings : DrawSettings) (st : State) :
  kept st (buildMeasurementsForGraphics measure gs settings st).2.
Proof.
  unfold buildMeasurementsForGraphics.
  generalize (@nil SelectionMeasurement) as out. revert st.
  induction gs as [|g gs IH]; intros st out; cbn [foldl].
  - apply kept_refl.
  - pose proof (measureGraphic_kept settings g out st) as K.
    destruct (measureGraphic measure settings g (out, st)) as [out1 st1].
    simpl in K. apply (kept_trans _ st1); [exact K|exact (IH st1 out1)].
Qed.

Lemma publishMeasurementsFromGraphics_kept (gs : list ref) (st : State) :
  kept st (publishMeasurementsFromGraphics measure gs st).
Proof.
  unfold publishMeasurementsFromGraphics.
  destruct (currentSettings st) as [settings|].
  - pose proof (buildMeasurementsForGraphics_kept gs settings st) as K.
    destruct (buildMeasurementsForGraphics measure gs settings st)
      as [rows st1]. simpl in *.
    eapply kept_trans; [exact K|]. apply kept_same_heap; reflexivity.
  - apply kept_same_heap; reflexivity.
Qed.

Lemma setSelectedGraphicIds_kept (ids : list string) (st : State) :
  kept st (setSelectedGraphicIds ids st).
Proof. apply kept_same_heap; reflexivity. Qed.

(** Chains [kept] through a sequence of field updates and helper calls. *)
Ltac kept_chain :=
  repeat first
    [ apply kept_refl
    | apply setSelectedGraphicIds_kept
    | apply clearTempLabels_kept
    | apply publishMeasurementsFromGraphics_kept
    | (apply kept_same_heap; reflexivity)
    | (eapply kept_trans; [|apply setSelectedGraphicIds_kept])
    | (eapply kept_trans; [|apply clearTempLabels_kept])
    | (eapply kept_trans; [|apply publishMeasurementsFromGraphics_kept]) ].

Lemma on_create_kept (state : Phase) (graphic : option ref) (st : State) :
  state ≠ Complete -> kept st (on_create measure state graphic st).
Proof.
  intros Hphase. unfold on_create.
  destruct (currentSettings st) as [settings|]; [|apply kept_refl].
  destruct (selectionMode st).
  - destruct state, (graphic ≫= λ r, geometry (deref st r));
      try congruence; kept_chain.
  - destruct state, graphic as [g|]; simpl;
      try destruct (geometry (deref st g)) as [geom|];
      try congruence; kept_chain.
    destruct (showDuringDraw (labels settings)); [|kept_chain].
    set (st1 := clearTempLabels (set_isEditing true st)).
    set (made := makeLabelsForGeometry measure geom settings).
    apply (kept_trans _ (alloc made st1).2);
      [|apply kept_same_heap; reflexivity].
    apply (kept_trans _ st1); [unfold st1; kept_chain|apply alloc_kept].
Qed.

Lemma on_update_kept (state : Phase) (graphics : list ref) (st : State) :
  state ≠ Complete -> kept st (on_update measure state graphics st).
Proof.
  intros Hphase. unfold on_update.
  destruct (currentSettings st) as [settings|]; [|apply kept_refl].
  destruct state; try congruence; kept_chain.
  set (st1 := clearTempLabels (set_isEditing true st)).
  set (st2 := if showDuringDraw (labels settings)
              then foldl (liveLabels measure settings) st1 graphics
              else st1).
  set (st3 := publishMeasurementsFromGraphics measure graphics st2).
  pose proof (getGraphicIds_kept graphics st3) as K4.
  destruct (getGraphicIds graphics st3) as [ids st4]. simpl in K4.
  assert (kept st st1) as K1 by (unfold st1; kept_chain).
  assert (kept st1 st2) as K2.
  { unfold st2. destruct (showDuringDraw (labels settings)).
    - apply foldl_kept. intros s g. apply liveLabels_kept.
    - apply kept_refl. }
  assert (kept st2 st3) as K3 by (unfold st3; kept_chain).
  eapply kept_trans; [|apply setSelectedGraphicIds_kept].
  eauto using kept_trans.
Qed.

Lemma handle_kept (st : State) (e : Event) :
  phase_of e ≠ Complete -> kept st (handle measure st e).
Proof.
  destruct e as [state graphic|state graphics]; simpl.
  - apply on_create_kept.
  - apply on_update_kept.
Qed.

Lemma run_kept (events : list Event) (st : State) :
  Forall (fun e => phase_of e ≠ Complete) events ->
  kept st (run measure events st).
Proof.
  intros Hall. revert st.
  induction Hall as [|e events He _ IH]; intros st; simpl.
  - apply kept_refl.
  - eapply kept_trans; [apply handle_kept; exact He|apply IH].
Qed.

(** The cancel phase allocates nothing and writes to no object. *)
Lemma cancel_heap (st : State) (e : Event) :
  phase_of e = Cancel -> heap (handle measure st e) = heap st.
Proof.
  destruct e as [state graphic|state graphics]; simpl; intros ->.
  - unfold on_create.
    destruct (currentSettings st); [|reflexivity].
    destruct (selectionMode st).
    + destruct graphic as [g|]; simpl;
        try destruct (geometry (deref st g));
        rewrite clearTempLabels_heap; reflexivity.
    + destruct graphic as [g|]; simpl;
        try destruct (geometry (deref st g));
        rewrite clearTempLabels_heap; reflexivity.
  - unfold on_update.
    destruct (currentSettings st); [|reflexivity].
    simpl. rewrite clearTempLabels_heap. reflexivity.
Qed.

(** No phase of a creation or of a selection rectangle, short of its
    completion, writes to an object: the heap only grows by labels. *)
Lemma create_phase_heap (state : Phase) (graphic : option ref) (st : State) :
  state ≠ Complete ->
  exists labels, heap (on_create measure state graphic st) = heap st ++ labels.
Proof.
  intros Hphase. unfold on_create.
  destruct (currentSettings st) as [settings|];
    [|exists []; rewrite app_nil_r; reflexivity].
  destruct (selectionMode st).
  - exists []. rewrite app_nil_r.
    destruct state, (graphic ≫= λ r, geometry (deref st r));
      try congruence; simpl; rewrite ?clearTempLabels_heap; reflexivity.
  - destruct state, graphic as [g|]; simpl;
      try destruct (geometry (deref st g)) as [geom|];
      try congruence;
      try (exists []; rewrite app_nil_r, ?clearTempLabels_heap;
           reflexivity).
    destruct (showDuringDraw (labels settings)).
    + exists (makeLabelsForGeometry measure geom settings).
      unfold alloc. simpl. rewrite clearTempLabels_heap. reflexivity.
    + exists []. rewrite app_nil_r, clearTempLabels_heap. reflexivity.
Qed.

(** *** The commit of a joint-editing session *)







Lemma deref_set_heap (st : State) (r : ref) :
  deref (set_heap (heap st) st) r = deref st r.
Proof. reflexivity. Qed.





Lemma kept_geometry (st st' : State) (r : ref) :
  kept st st' -> r < length (heap st) ->
  geometry (deref st' r) = geometry (deref st r)
  /\ r < length (heap st').
Proof.
  intros K Hr. destruct (lookup_lt_is_Some_2 _ _ Hr) as [g Hg].
  destruct K as (_ & _ & _ & _ & _ & _ & _ & Kobj).
  destruct (Kobj r g Hg) as (g' & Hg' & Hsame & _).
  unfold deref. rewrite Hg, Hg'. simpl. split; [exact Hsame|].
  apply lookup_lt_is_Some. eauto.
Qed.

Lemma kept_session_ok (st st' : State) :
  kept st st' -> session_ok st -> session_ok st'.
Proof.
  intros K Hok.
  pose proof K as (_ & _ & _ & Hmap & _). unfold session_ok.
  rewrite Hmap. intros c s Hcs. destruct (Hok c s Hcs) as (Hc & Hs & Hnot).
  repeat split; try exact Hnot.
  - apply (kept_geometry st st' c K Hc).
  - apply (kept_geometry st st' s K Hs).
Qed.



(** *** The sessions the service opens *)

(** A session stays in order through every phase short of a completion. *)
Lemma session_ok_phase (st : State) (e : Event) :
  phase_of e ≠ Complete -> session_ok st ->
  session_ok (handle measure st e).
Proof.
  intros Hphase. apply kept_session_ok. apply handle_kept. exact Hphase.
Qed.

(** The clones made one after the other for the sources [srcs], all of
    them objects older than the session: the map relates new objects to
    old ones. *)
Lemma addClone_loop (n : nat) (srcs : list ref) (st : State) :
  n <= length (heap st) ->
  Forall (fun src => src < n) srcs ->
  map_Forall (fun c s => n <= c < length (heap st) /\ s < n)
             (selectionMap st) ->
  length (heap st)
  <= length (heap (foldl (fun s src => (addClone src s).2) st srcs))
  /\ map_Forall
       (fun c s =>
          n <= c < length (heap (foldl (fun s src => (addClone src s).2)
                                   st srcs))
          /\ s < n)
       (selectionMap (foldl (fun s src => (addClone src s).2) st srcs)).
Proof.
  intros Hn Hsrcs. revert st Hn.
  induction Hsrcs as [|src srcs Hsrc _ IH]; intros st Hn Hmap; cbn [foldl].
  - split; [lia|exact Hmap].
  - set (st1 := (addClone src st).2).
    assert (length (heap st1) = S (length (heap st))) as Hlen.
    { unfold st1, addClone. simpl. rewrite length_app. simpl. lia. }
    destruct (IH st1) as [Hle Hall].
    + lia.
    + rewrite Hlen. unfold st1, addClone. simpl. apply map_Forall_insert_2.
      * split; [lia|exact Hsrc].
      * intros c s Hcs. destruct (Hmap c s Hcs) as [Hc Hs].
        split; [lia|exact Hs].
    + split; [lia|exact Hall].
Qed.

Lemma session_ok_of_clones (n : nat) (st : State) :
  n <= length (heap st) ->
  map_Forall (fun c s => n <= c < length (heap st) /\ s < n)
             (selectionMap st) ->
  session_ok st.
Proof.
  intros Hn Hmap c s Hcs. destruct (Hmap c s Hcs) as [Hc Hs].
  split; [lia|]. split; [lia|].
  destruct (selectionMap st !! s) as [s'|] eqn:Hs'; [|reflexivity].
  destruct (Hmap s s' Hs') as [Hge _]. lia.
Qed.

(** A click on a text graphic opens a session that is in order. *)
Lemma on_click_session_ok (st : State) (src : ref) :
  textClickHandler st = false -> selectionMode st = false ->
  src < length (heap st) ->
  session_ok (on_click measure (Some src) st)
  /\ editingSelection (on_click measure (Some src) st) = true.
Proof.
  intros Hhandler Hmode Hsrc. unfold on_click. rewrite Hhandler, Hmode.
  simpl.
  set (st1 := prepareSelectionLayer true st).
  assert (heap st1 = heap st) as Hheap.
  { unfold st1, prepareSelectionLayer.
    destruct (selectionLayer st); reflexivity. }
  assert (selectionMap st1 = ∅) as Hmap.
  { unfold st1, prepareSelectionLayer.
    destruct (selectionLayer st); reflexivity. }
  destruct (addClone_loop (length (heap st)) [src] st1) as [_ Hall].
  - rewrite Hheap. lia.
  - constructor; [exact Hsrc|constructor].
  - rewrite Hmap. apply map_Forall_empty.
  - cbn [foldl] in Hall.
    set (st3 := set_svmLayer SelectionLayer (addClone src st1).2).
    assert (session_ok st3) as Hok.
    { apply (session_ok_of_clones (length (heap st))).
      - change (heap st3) with (heap st1 ++ [cloneGraphic (deref st1 src)]).
        rewrite length_app, Hheap. lia.
      - exact Hall. }
    pose proof (publishMeasurementsFromGraphics_kept
                  [(addClone src st1).1] st3) as K.
    change (session_ok (publishMeasurementsFromGraphics measure
                          [(addClone src st1).1] st3)
            /\ editingSelection (publishMeasurementsFromGraphics measure
                                   [(addClone src st1).1] st3) = true).
    split.
    + exact (kept_session_ok _ _ K Hok).
    + destruct K as (_ & _ & _ & _ & Hlayer & Hsvm & _).
      unfold editingSelection. rewrite Hlayer, Hsvm. reflexivity.
Qed.

(** A completed selection rectangle opens a session that is in order,
    or leaves the session there was. *)
Lemma selectByWindow_session_ok (graphic : option ref) (window : Geom)
    (st : State) :
  Forall (fun r => r < length (heap st)) (drawLayer st ++ textLayer st) ->
  session_ok st ->
  session_ok (selectByWindow measure graphic window st).
Proof.
  intros Hvalid Hok. unfold selectByWindow.
  set (st1 := match graphic with
              | Some r => set_drawLayer (layer_remove r (drawLayer st)) st
              | None => st
              end).
  assert (heap st1 = heap st) as Hheap by (destruct graphic; reflexivity).
  assert (selectionMap st1 = selectionMap st) as Hmap
    by (destruct graphic; reflexivity).
  assert (textLayer st1 = textLayer st) as Htext
    by (destruct graphic; reflexivity).
  assert (forall r, r ∈ drawLayer st1 -> r ∈ drawLayer st) as Hdraw.
  { destruct graphic as [w|]; simpl; [|auto].
    intros r Hr. unfold layer_remove in Hr.
    apply list_elem_of_filter in Hr. tauto. }
  set (selected := intersecting st1 window (drawLayer st1)
                   ++ intersecting st1 window (textLayer st1)).
  assert (Forall (fun src => src < length (heap st)) selected) as Hsel.
  { rewrite Forall_forall in Hvalid |- *. intros r Hr. apply Hvalid.
    unfold selected, intersecting in Hr.
    rewrite elem_of_app, !list_elem_of_filter in Hr.
    rewrite elem_of_app. rewrite Htext in Hr.
    destruct Hr as [[_ Hr]|[_ Hr]]; [left; auto|right; exact Hr]. }
  destruct selected as [|src0 rest] eqn:Hselected.
  - unfold session_ok. rewrite Hheap, Hmap. exact Hok.
  - rewrite <- Hselected in *. clear Hselected src0 rest.
    set (st2 := prepareSelectionLayer true st1).
    assert (heap st2 = heap st) as Hheap2.
    { unfold st2, prepareSelectionLayer. rewrite <- Hheap.
      destruct (selectionLayer st1); reflexivity. }
    assert (selectionMap st2 = ∅) as Hmap2.
    { unfold st2, prepareSelectionLayer.
      destruct (selectionLayer st1); reflexivity. }
    destruct (addClone_loop (length (heap st)) selected st2) as [Hle Hall].
    + rewrite Hheap2. lia.
    + exact Hsel.
    + rewrite Hmap2. apply map_Forall_empty.
    + set (st3 := foldl (fun s src => (addClone src s).2) st2 selected)
        in *.
      set (st4 := set_svmLayer SelectionLayer st3).
      assert (session_ok st4) as Hok4.
      { apply (session_ok_of_clones (length (heap st))).
        - change (heap st4) with (heap st3). rewrite <- Hheap2. exact Hle.
        - exact Hall. }
      set (st5 := publishMeasurementsFromGraphics measure
                    (default [] (selectionLayer st4)) st4).
      assert (session_ok st5) as Hok5.
      { apply (kept_session_ok st4); [|exact Hok4].
        apply publishMeasurementsFromGraphics_kept. }
      set (sources := omap (fun clone => selectionMap st5 !! clone)
                        (default [] (selectionLayer st4))).
      pose proof (getGraphicIds_kept sources st5) as K6.
      destruct (getGraphicIds sources st5) as [ids st6]. simpl in K6.
      apply (kept_session_ok st6).
      * apply setSelectedGraphicIds_kept.
      * exact (kept_session_ok _ _ K6 Hok5).
Qed.


(** C3, as the code has it. Through the phases of an operation that is
    not completed, and through its cancel phase, the label index, the draw
    collection and the text collection stay as they were, and every object
    keeps its geometry, its symbol and its attributes. A shape does not
    stay exactly as it was: the active phase of an update asks the edited
    graphics and the sources of the measured ones for their identifiers,
    and a shape that has none is given one there, which a cancel does not
    take back. The cancel phase itself writes to no object at all, and the
    phases of a creation or of a selection rectangle write to none either:
    they only add labels. Only a complete phase writes a geometry. *)
Theorem cancel_keeps_index_and_sources (st : State) (phases : list Event)
    (cancel : Event) :
  Forall (fun e => phase_of e ≠ Complete) phases ->
  phase_of cancel = Cancel ->
  let dragged := run measure phases st in
  let cancelled := handle measure dragged cancel in
  kept st dragged
  /\ kept st cancelled
  /\ heap cancelled = heap dragged
  /\ ((forall e, e ∈ phases -> exists state graphic, e = Create state graphic)
      -> exists labels, heap cancelled = heap st ++ labels).
Proof.
  intros Hphases Hcancel dragged cancelled.
  pose proof (run_kept phases st Hphases) as Kdrag.
  assert (kept dragged cancelled) as Kcancel.
  { apply handle_kept. rewrite Hcancel. discriminate. }
  pose proof (cancel_heap dragged cancel Hcancel) as Hheap.
  split; [exact Kdrag|].
  split; [apply (kept_trans _ dragged); assumption|].
  split; [exact Hheap|].
  intros Hcreates. unfold cancelled. rewrite Hheap. unfold dragged.
  clear Kdrag Kcancel Hheap cancelled dragged Hcancel.
  revert st. induction Hphases as [|e phases He _ IH]; intros st.
  - exists []. rewrite app_nil_r. reflexivity.
  - destruct (Hcreates e) as (state & graphic & ->); [left|].
    simpl in He.
    change (run measure (Create state graphic :: phases) st)
      with (run measure phases (on_create measure state graphic st)).
    destruct (create_phase_heap state graphic st He) as [l1 Hl1].
    destruct (IH (fun e' Hin => Hcreates e' (list_elem_of_further _ _ _ Hin))
                (on_create measure state graphic st)) as [l2 Hl2].
    exists (l1 ++ l2). rewrite Hl2, Hl1, app_assoc. reflexivity.
Qed.

(** *** The identifiers published while a clone is edited *)

(** Asking another object for its identifier leaves the clone as it is. *)
Lemma getGraphicId_other (r c : ref) (st : State) :
  r ≠ c ->
  heap (getGraphicId r st).2 !! c = heap st !! c
  /\ selectionMap (getGraphicId r st).2 = selectionMap st
  /\ currentSettings (getGraphicId r st).2 = currentSettings st
  /\ minted st <= minted (getGraphicId r st).2.
Proof.
  intros Hne. unfold getGraphicId.
  destruct (attached_id (deref st r)); simpl.
  - repeat split; lia.
  - rewrite list_lookup_alter_ne by exact Hne. repeat split; lia.
Qed.

(** In the active phase of an update over the clone [c] of [src], a clone
    that has no identifier is given one of its own, and that one is
    published as the selected identifier. *)
Lemma update_active_mints_for_clone (st : State) (settings : DrawSettings)
    (c src : ref) (g : Graphic) :
  currentSettings st = Some settings ->
  selectionMap st !! c = Some src ->
  src ≠ c ->
  heap st !! c = Some g ->
  attached_id g = None ->
  exists k,
    minted st <= k
    /\ head (selectedIds_log (on_update measure Active [c] st))
       = Some [fresh_id k]
    /\ sid (deref (on_update measure Active [c] st) c) = Some (fresh_id k).
Proof.
  intros Hsettings Hclone Hne Hg Hid. unfold on_update. rewrite Hsettings.
  set (st1 := clearTempLabels (set_isEditing true st)).
  set (st2 := if showDuringDraw (labels settings)
              then foldl (liveLabels measure settings) st1 [c] else st1).
  set (st3 := publishMeasurementsFromGraphics measure [c] st2).
  assert (heap st1 !! c = Some g /\ selectionMap st1 = selectionMap st
          /\ currentSettings st1 = Some settings
          /\ minted st1 = minted st) as (Hg1 & Hm1 & Hs1 & Hn1).
  { unfold st1. rewrite clearTempLabels_heap. unfold clearTempLabels.
    destruct (tempLabels (set_isEditing true st)); simpl; auto. }
  assert (heap st2 !! c = Some g /\ selectionMap st2 = selectionMap st
          /\ currentSettings st2 = Some settings
          /\ minted st2 = minted st) as (Hg2 & Hm2 & Hs2 & Hn2).
  { unfold st2. destruct (showDuringDraw (labels settings)); [|auto].
    cbn [foldl]. unfold liveLabels.
    destruct (geometry (deref st1 c)); [|auto].
    unfold addLabels, alloc. simpl.
    rewrite lookup_app_l by (apply lookup_lt_is_Some; eauto). auto. }
  clearbody st2. clear st1 Hg1 Hm1 Hs1 Hn1.
  assert (heap st3 !! c = Some g /\ minted st <= minted st3)
    as (Hg3 & Hn3).
  { unfold st3, publishMeasurementsFromGraphics. rewrite Hs2.
    unfold buildMeasurementsForGraphics. cbn [foldl].
    unfold measureGraphic.
    rewrite Hm2, Hclone, (deref_lookup st2 c g Hg2).
    change (default c (Some src)) with src.
    pose proof (getGraphicId_other src c st2 Hne) as (Hh & _ & _ & Hn).
    destruct (geometry g) as [[p|pl|pg]|];
      try (simpl; split; [exact Hg2|lia]);
      destruct (getGraphicId src st2) as [id s1];
      cbn [snd] in Hh, Hn; simpl;
      (split; [rewrite <- Hg2; exact Hh|lia]). }
  clearbody st3.
  pose proof (getGraphicId_fresh st3 c) as Hfresh.
  unfold deref in Hfresh. rewrite Hg3 in Hfresh. specialize (Hfresh Hid).
  exists (minted st3). split; [exact Hn3|].
  cbn [getGraphicIds]. rewrite Hfresh. simpl. split; [reflexivity|].
  unfold deref. simpl. rewrite list_lookup_alter_eq, Hg3. reflexivity.
Qed.

End PhaseProperties.


Lemma cancel_keeps_index_and_sources_witness :
  let Engine := Samples.constEngine (MeasurementService.Num (Js.Fin 5)) in
  let Shape := Samples.vertexAccessors in
  let Math := Samples.fixedBearing 0 in
  let View := Samples.flatView in
  let Clock := Samples.tickingRuntime in
  let st' :=
    SketchService.handle MeasurementService.defaultUnits
      (SketchService.run MeasurementService.defaultUnits
         [SketchService.Update SketchService.Active [4]]
         Samples.draggedSession)
      (SketchService.Update SketchService.Cancel [4]) in
  SketchService.labelIndex st'
  = SketchService.labelIndex Samples.draggedSession
  /\ SketchService.drawLayer st'
     = SketchService.drawLayer Samples.draggedSession
  /\ SketchService.textLayer st'
     = SketchService.textLayer Samples.draggedSession.
Proof.
  intros Engine Shape Math View Clock st'.
  pose proof (cancel_keeps_index_and_sources (H := Engine) (H0 := Shape)
              (H1 := Math) (H2 := View) (H3 := Clock)
              MeasurementService.defaultUnits Samples.draggedSession
              [SketchService.Update SketchService.Active [4]]
              (SketchService.Update SketchService.Cancel [4])) as T.
  assert (Forall (fun e => SketchService.phase_of e ≠ SketchService.Complete)
            [SketchService.Update SketchService.Active [4]]) as Hphases
    by (repeat constructor; discriminate).
  specialize (T Hphases eq_refl).
  destruct T as (_ & (Hdraw & Htext & Hindex & _) & _).
  split; [exact Hindex|]. split; [exact Hdraw|exact Htext].
Defined.


(** C3, as claimed, fails on a shape edited in place: the active phase of
    the update attaches an identifier to the shape, which had none, and
    after the cancel the shape still carries it. *)
Lemma active_update_attaches_identifier :
  let Engine := Samples.constEngine (MeasurementService.Num (Js.Fin 5)) in
  let Shape := Samples.vertexAccessors in
  let Math := Samples.fixedBearing 0 in
  let View := Samples.flatView in
  let Clock := Samples.tickingRuntime in
  let dragged :=
    SketchService.run MeasurementService.defaultUnits
      [SketchService.Update SketchService.Active [0]] Samples.sketched in
  let cancelled :=
    SketchService.handle MeasurementService.defaultUnits dragged
      (SketchService.Update SketchService.Cancel [0]) in
  SketchService.drawLayer Samples.sketched = [0; 1]
  /\ SketchService.sid (SketchService.deref Samples.sketched 0) = None
  /\ SketchService.sid (SketchService.deref dragged 0)
     = Some "g-1700000000000-k3x9qa"
  /\ SketchService.sid (SketchService.deref cancelled 0)
     = Some "g-1700000000000-k3x9qa"
  /\ SketchService.deref cancelled 0
     <> SketchService.deref Samples.sketched 0.
Proof.
  intros Engine Shape Math View Clock dragged cancelled.
  assert (SketchService.sid (SketchService.deref cancelled 0)
          = Some "g-1700000000000-k3x9qa") as Hsid
    by (vm_compute; reflexivity).
  split; [vm_compute; reflexivity|]. split; [vm_compute; reflexivity|].
  split; [vm_compute; reflexivity|]. split; [exact Hsid|].
  intros Heq. rewrite Heq in Hsid. vm_compute in Hsid. discriminate Hsid.
Qed.

(** C4, on the code. In the session opened by the selection rectangle
    the triangle (object 0) has the identifier ending in 000 and its clone
    (object 4) has none; the session announces the identifier of the
    source. During the active phase of the update the measurement rows
    still carry the identifier of the source, but the selected identifiers
    are taken from the edited graphics themselves: the accessor mints the
    identifier ending in 001, attaches it to the clone and publishes it. *)
Theorem clone_gets_identifier_of_its_own :
  let Engine := Samples.constEngine (MeasurementService.Num (Js.Fin 5)) in
  let Shape := Samples.vertexAccessors in
  let Math := Samples.fixedBearing 0 in
  let View := Samples.flatView in
  let Clock := Samples.tickingRuntime in
  let st := Samples.marqueeSession in
  let st' :=
    SketchService.on_update MeasurementService.defaultUnits
      SketchService.Active [4] st in
  SketchService.selectionLayer st = Some [4]
  /\ SketchService.selectionMap st !! 4 = Some 0
  /\ SketchService.sid (SketchService.deref st 0)
     = Some "g-1700000000000-k3x9qa"
  /\ SketchService.sid (SketchService.deref st 4) = None
  /\ head (SketchService.selectedIds_log st)
     = Some ["g-1700000000000-k3x9qa"]
  /\ (map SketchService.m_id <$> head (SketchService.measurements_log st'))
     = Some ["g-1700000000000-k3x9qa"]
  /\ head (SketchService.selectedIds_log st')
     = Some ["g-1700000000001-k3x9qa"]
  /\ SketchService.sid (SketchService.deref st' 4)
     = Some "g-1700000000001-k3x9qa"
  /\ SketchService.minted st' = S (SketchService.minted st).
Proof.
  intros Engine Shape Math View Clock st st'.
  vm_compute. repeat split.
Qed.

(** * Further properties of the services *)

(** ** The exporter and the importer together *)

Section ExportProperties.
Import Js ExportService.
Context {G : Type} `{GraphicJson G}.

(** What is exported can be imported: the payload has version 2 and comes
    back as three collections of the same sizes, each graphic having gone
    through [toJSON] and [fromJSON]; they are the exported graphics when
    [fromJSON] undoes [toJSON]. *)
Theorem import_of_export (d l t : list G) :
  get (exportEsriJson d l t) "version" = VNum (Fin 2)
  /\ importEsriJson (exportEsriJson d l t)
     = Returned (mkImported (map (fun g => fromJSON (toJSON g)) d)
                            (map (fun g => fromJSON (toJSON g)) l)
                            (map (fun g => fromJSON (toJSON g)) t))
  /\ ((forall g, fromJSON (toJSON g) = g) ->
      importEsriJson (exportEsriJson d l t) = Returned (mkImported d l t)).
Proof.
  assert (importEsriJson (exportEsriJson d l t)
          = Returned (mkImported (map (fun g => fromJSON (toJSON g)) d)
                                 (map (fun g => fromJSON (toJSON g)) l)
                                 (map (fun g => fromJSON (toJSON g)) t)))
    as Himport.
  { unfold importEsriJson, exportEsriJson. simpl.
    rewrite !map_map. reflexivity. }
  split; [reflexivity|]. split; [exact Himport|].
  intros Hid. rewrite Himport. f_equal.
  assert (forall xs : list G, map (fun g => fromJSON (toJSON g)) xs = xs)
    as Hmap.
  { intros xs. induction xs as [|g xs IH]; simpl; [reflexivity|].
    rewrite Hid, IH. reflexivity. }
  rewrite !Hmap. reflexivity.
Qed.

(** A payload that is no object ([undefined], [null], a boolean, a number
    or a string) is imported as three empty collections: no error is
    raised for it. *)
Theorem import_of_non_object (payload : value) :
  typeof_object payload = false \/ payload = VNull ->
  importEsriJson payload = Returned (mkImported [] [] []).
Proof.
  intros [Hty| ->]; [|reflexivity].
  unfold importEsriJson. rewrite Hty. simpl.
  rewrite orb_true_r. reflexivity.
Qed.

(** A [version] that is no number: [null] is read as version 1, like a
    missing one; a string, a boolean, an array or an object is refused
    with the unsupported-version error, the string "2" included. *)
Theorem import_version_not_a_number (payload w : value) :
  get payload "version" = w ->
  falsy payload || negb (typeof_object payload) = false ->
  (w = VNull ->
     importEsriJson payload
     = Returned (mkImported (graphicsOf (get payload "draw"))
                            (graphicsOf (get payload "labels")) []))
  /\ (match w with
      | VStr _ | VBool _ | VArr _ | VObj _ => True
      | _ => False
      end ->
      importEsriJson payload = UnsupportedExportVersion w).
Proof.
  intros Hw Hobj. unfold importEsriJson. rewrite Hobj, Hw. split.
  - intros ->. reflexivity.
  - destruct w; simpl; intros []; reflexivity.
Qed.

End ExportProperties.

Lemma import_of_export_witness :
  let ExportGraphics := Samples.plainJson in
  ExportService.importEsriJson
    (ExportService.exportEsriJson [Js.VStr "d"] [] [Js.VStr "t"; Js.VNull])
  = ExportService.Returned
      (ExportService.mkImported [Js.VStr "d"] [] [Js.VStr "t"; Js.VNull]).
Proof.
  intros ExportGraphics.
  apply (import_of_export (H := ExportGraphics)). intros g. reflexivity.
Defined.

Lemma import_of_non_object_witness :
  let ExportGraphics := Samples.plainJson in
  ExportService.importEsriJson (Js.VStr "version 2")
  = ExportService.Returned (ExportService.mkImported [] [] []).
Proof.
  intros ExportGraphics.
  apply (import_of_non_object (H := ExportGraphics)). left. reflexivity.
Defined.

Lemma import_version_not_a_number_witness :
  let ExportGraphics := Samples.plainJson in
  ExportService.importEsriJson
    (Js.VObj [("version", Js.VStr "2"); ("draw", Js.VArr [])])
  = ExportService.UnsupportedExportVersion (Js.VStr "2").
Proof.
  intros ExportGraphics.
  apply (import_version_not_a_number (H := ExportGraphics)
           (Js.VObj [("version", Js.VStr "2"); ("draw", Js.VArr [])])
           (Js.VStr "2") eq_refl eq_refl).
  exact I.
Defined.

(** ** The segments of a geometry *)

Section SegmentProperties.
Import Js Geometry MeasurementService Midpoints.
Context `{GeometryEngine} `{Accessors} `{JsMath}.
Variable u : Units.

Lemma concat_map_map {A B C : Type} (f : B -> C) (g : A -> list B)
    (l : list A) :
  concat (map (fun a => map f (g a)) l) = map f (concat (map g l)).
Proof.
  induction l as [|a l IH]; simpl; [reflexivity|].
  rewrite IH, map_app. reflexivity.
Qed.

Lemma edges_lookup (path : list Vertex) (i : nat) (a b : Vertex) :
  edges path !! i = Some (a, b)
  <-> path !! i = Some a /\ path !! S i = Some b.
Proof.
  revert i. induction path as [|v path IH]; intros i.
  - simpl. split; [discriminate|intros [? _]; discriminate].
  - destruct path as [|w path].
    + simpl. split; [discriminate|].
      intros [_ Hb]. destruct i; discriminate.
    + change (edges (v :: w :: path)) with ((v, w) :: edges (w :: path)).
      destruct i as [|i].
      * simpl. split.
        -- intros [= -> ->]. split; reflexivity.
        -- intros [[= ->] [= ->]]. reflexivity.
      * change (((v, w) :: edges (w :: path)) !! S i)
          with (edges (w :: path) !! i).
        rewrite IH. reflexivity.
Qed.

Lemma edges_length (path : list Vertex) :
  length (edges path) = length path - 1.
Proof.
  induction path as [|v path IH]; [reflexivity|].
  destruct path as [|w path]; [reflexivity|].
  change (edges (v :: w :: path)) with ((v, w) :: edges (w :: path)).
  cbn [length] in *. rewrite IH. lia.
Qed.

(** The segments of a one-path polyline are its pairs of neighbouring
    vertices, in order: segment [i] runs from vertex [i] to vertex
    [i + 1]. A path of [n] vertices has [n - 1] segments, an empty path or
    a single vertex none, and each segment starts where the one before it
    ends. *)
Theorem segments_of_a_path (path : list Vertex) (sr : SpatialReference) :
  let segments := getSegments (GPolyline (mkPolyline [path] sr)) in
  (forall i a b,
      segments !! i = Some (a, b)
      <-> path !! i = Some a /\ path !! S i = Some b)
  /\ length segments = length path - 1
  /\ (forall i a b c d,
        segments !! i = Some (a, b) -> segments !! S i = Some (c, d) ->
        b = c).
Proof.
  intros segments.
  assert (segments = edges path) as ->.
  { unfold segments, getSegments. simpl. apply app_nil_r. }
  split; [|split].
  - intros i a b. apply edges_lookup.
  - apply edges_length.
  - intros i a b c d Hab Hcd.
    apply edges_lookup in Hab as [_ Hb]. apply edges_lookup in Hcd as [Hc _].
    congruence.
Qed.

(** The three walks over the segments agree. For any polyline or polygon
    (several paths or rings included), [segmentLengths] holds the measured
    length of each segment of [getSegments] and [segmentMidpoints] the
    midpoint that [getSegmentMidpoint] gives for it, in the same order;
    so the three arrays have one length. *)
Theorem segment_walks_agree (geom : Geom) :
  segmentLengths u geom
  = map (fun '(a, b) => geodesicLength u (mkPolyline [[a; b]] (sr_of geom)))
        (getSegments geom)
  /\ segmentMidpoints geom
     = map (fun segment => getSegmentMidpoint segment (sr_of geom))
           (getSegments geom)
  /\ length (segmentLengths u geom) = length (getSegments geom)
  /\ length (segmentMidpoints geom) = length (getSegments geom).
Proof.
  assert (segmentLengths u geom
          = map (fun '(a, b) =>
                   geodesicLength u (mkPolyline [[a; b]] (sr_of geom)))
                (getSegments geom)) as Hlen.
  { unfold segmentLengths, getSegments. apply concat_map_map. }
  assert (segmentMidpoints geom
          = map (fun segment => getSegmentMidpoint segment (sr_of geom))
                (getSegments geom)) as Hmid.
  { unfold segmentMidpoints, getSegments.
    rewrite <- concat_map_map. reflexivity. }
  split; [exact Hlen|]. split; [exact Hmid|].
  rewrite Hlen, Hmid, !length_map. split; reflexivity.
Qed.

Lemma or_zero_nonfinite (r : engineResult) :
  isFinite (or_zero r) = false
  <-> exists w, r = Num w /\ isFinite w = false.
Proof.
  destruct r as [w| |]; simpl.
  - split; [eauto|]. intros (w' & [= <-] & Hw). exact Hw.
  - split; [discriminate|]. intros (w' & [=] & _).
  - split; [discriminate|]. intros (w' & [=] & _).
Qed.

(** Exactly when a non-finite area escapes [geodesicArea]. A geodesic
    answer that is a finite number other than zero is the area; [null]
    gives 0; a zero, a non-finite or an [undefined] geodesic answer hands
    over to the planar area, [null] and [undefined] there giving 0. So the
    area is non-finite only if the planar engine is asked and answers with
    a non-finite number. *)
Theorem geodesicArea_fallback (geom : Polygon) :
  (forall q, engine_geodesicArea geom (areaUnit u) = Num (Fin q) ->
             ~ (q == 0)%Q -> geodesicArea u geom = Fin q)
  /\ (engine_geodesicArea geom (areaUnit u) = Null ->
        geodesicArea u geom = Fin 0)
  /\ (negb (result_isFinite (engine_geodesicArea geom (areaUnit u)))
      || result_is_zero (engine_geodesicArea geom (areaUnit u)) = true ->
      geodesicArea u geom = or_zero (engine_planarArea geom (areaUnit u)))
  /\ (isFinite (geodesicArea u geom) = false <->
        (negb (result_isFinite (engine_geodesicArea geom (areaUnit u)))
         || result_is_zero (engine_geodesicArea geom (areaUnit u)) = true)
        /\ exists w, engine_planarArea geom (areaUnit u) = Num w
                     /\ isFinite w = false).
Proof.
  unfold geodesicArea.
  set (v := engine_geodesicArea geom (areaUnit u)).
  set (planar := engine_planarArea geom (areaUnit u)).
  destruct (negb (result_isFinite v) || result_is_zero v) eqn:Hcond.
  - split; [|split; [|split]].
    + intros q Hv Hq. rewrite Hv in Hcond. simpl in Hcond.
      apply Qeq_bool_iff in Hcond. contradiction.
    + intros Hv. rewrite Hv in Hcond. discriminate.
    + reflexivity.
    + rewrite or_zero_nonfinite. tauto.
  - split; [|split; [|split]].
    + intros q -> _. reflexivity.
    + intros ->. reflexivity.
    + discriminate.
    + split; [|intros [[=] _]].
      intros Hnf. exfalso.
      destruct v as [[q| | |]| |]; simpl in *; discriminate.
Qed.

End SegmentProperties.

(** ** The labels of a geometry *)

Section PlacementProperties.
Import Js Geometry MeasurementService SketchService.
Context `{GeometryEngine} `{Accessors} `{JsMath} `{ViewProjector}.
Variable measure : Units.

Lemma stackLines_length (settings : DrawSettings) (center : Point)
    (lines : list string) :
  length (stackLines settings center lines) = length lines.
Proof. unfold stackLines. apply length_imap. Qed.

Lemma segmentLabels_length (settings : DrawSettings) (geom : Geom) :
  length (segmentLabels measure settings geom)
  = if showSegmentLengths (labels settings)
    then length (getSegments geom) else 0.
Proof.
  unfold segmentLabels. destruct (showSegmentLengths (labels settings));
    [|reflexivity].
  rewrite length_zip_with, segmentLengths_length. lia.
Qed.

(** How many labels a geometry gets. A point gets none. A polyline gets
    one per segment when segment lengths are shown, plus, at its anchor,
    the title line and the length line as far as they are switched on. A
    polygon gets one per segment likewise, plus the title line, the two
    lines for area and perimeter, and the radius line, each as far as it
    is switched on. A geometry without an anchor gets segment labels
    only. *)
Theorem label_count (geom : Geom) (settings : DrawSettings) :
  let shown := labels settings in
  let per_segment :=
    if showSegmentLengths shown then length (getSegments geom) else 0 in
  let count (b : bool) (n : nat) := if b then n else 0 in
  length (makeLabelsForGeometry measure geom settings)
  = match geom with
    | GPoint _ => 0
    | GPolyline _ =>
        per_segment
        + match labelAnchor geom with
          | Some _ => count (showTitle shown) 1 + count (showTotals shown) 1
          | None => 0
          end
    | GPolygon _ =>
        per_segment
        + match labelAnchor geom with
          | Some _ =>
              count (showTitle shown) 1 + count (showTotals shown) 2
              + count (showCircleRadius shown) 1
          | None => 0
          end
    end.
Proof.
  intros shown per_segment count. subst shown per_segment count.
  destruct geom as [p|pl|pg]; [reflexivity| |].
  - cbn [makeLabelsForGeometry]. rewrite length_app, segmentLabels_length.
    f_equal.
    destruct (labelAnchor (GPolyline pl)) as [center|].
    + destruct (showTitle (labels settings)) eqn:Ht,
        (showTotals (labels settings)) eqn:Hs; cbn [orb];
        rewrite ?stackLines_length; unfold polylineCenterLines;
        rewrite ?Ht, ?Hs; reflexivity.
    + destruct (showTitle (labels settings) || showTotals (labels settings));
        reflexivity.
  - cbn [makeLabelsForGeometry]. rewrite length_app, segmentLabels_length.
    f_equal.
    destruct (labelAnchor (GPolygon pg)) as [center|]; [|reflexivity].
    rewrite stackLines_length. unfold polygonCenterLines.
    destruct (showTitle (labels settings)), (showTotals (labels settings)),
      (showCircleRadius (labels settings)); reflexivity.
Qed.

(** When the view cannot project (no screen point, or no map point back),
    [offsetPoint] hands back the point it was given, and so every label is
    placed on its unshifted anchor: a segment label on the midpoint of its
    segment, a line of the center block on the anchor of the geometry. *)
Theorem labels_without_projection (geom : Geom) (settings : DrawSettings) :
  (forall p, toScreen p = None \/
             exists scr, toScreen p = Some scr
                         /\ forall dx dy, toMap ((scr.1 + dx)%Q, (scr.2 + dy)%Q)
                                          = None) ->
  (forall p dx dy, offsetPoint p dx dy = p)
  /\ forall lbl,
       lbl ∈ makeLabelsForGeometry measure geom settings ->
       (exists segment,
           segment ∈ getSegments geom
           /\ geometry lbl
              = Some (GPoint (getSegmentMidpoint segment (sr_of geom))))
       \/ (exists center,
              labelAnchor geom = Some center
              /\ geometry lbl = Some (GPoint center)).
Proof.
  intros Hview.
  assert (forall p dx dy, offsetPoint p dx dy = p) as Hoffset.
  { intros p dx dy. unfold offsetPoint.
    destruct (Hview p) as [->|([sx sy] & -> & Hmap)]; [reflexivity|].
    simpl in Hmap. rewrite Hmap. reflexivity. }
  split; [exact Hoffset|].
  assert (forall lbl, lbl ∈ segmentLabels measure settings geom ->
            exists segment,
              segment ∈ getSegments geom
              /\ geometry lbl
                 = Some (GPoint (getSegmentMidpoint segment (sr_of geom))))
    as Hsegments.
  { intros lbl Hin. unfold segmentLabels in Hin.
    destruct (showSegmentLengths (labels settings)); [|inversion Hin].
    apply list_elem_of_lookup in Hin as [i Hi].
    apply lookup_zip_with_Some in Hi as (segment & len & -> & Hs & _).
    exists segment. split; [eapply list_elem_of_lookup_2; exact Hs|].
    unfold segmentLabel, addText. simpl. rewrite Hoffset. reflexivity. }
  assert (forall center lines lbl,
            lbl ∈ stackLines settings center lines ->
            geometry lbl = Some (GPoint center)) as Hstack.
  { intros center lines lbl Hin. unfold stackLines in Hin.
    apply list_elem_of_lookup in Hin as [i Hi].
    rewrite list_lookup_imap in Hi.
    destruct (lines !! i) as [line|]; [|discriminate].
    simpl in Hi. injection Hi as <-. unfold addText. simpl.
    rewrite Hoffset. reflexivity. }
  intros lbl Hin. destruct geom as [p|pl|pg]; cbn [makeLabelsForGeometry] in Hin.
  - inversion Hin.
  - apply elem_of_app in Hin as [Hin|Hin]; [left; auto|].
    right.
    destruct (showTitle (labels settings) || showTotals (labels settings));
      [|inversion Hin].
    destruct (labelAnchor (GPolyline pl)) as [center|]; [|inversion Hin].
    exists center. split; [reflexivity|]. eapply Hstack. exact Hin.
  - apply elem_of_app in Hin as [Hin|Hin]; [left; auto|].
    right.
    destruct (labelAnchor (GPolygon pg)) as [center|]; [|inversion Hin].
    exists center. split; [reflexivity|]. eapply Hstack. exact Hin.
Qed.

End PlacementProperties.

(** ** Persisted labels *)

Section PersistProperties.
Import Js Geometry MeasurementService SketchService SketchOperations.
Context `{GeometryEngine} `{Accessors} `{JsMath} `{ViewProjector} `{Runtime}.
Variable measure : Units.

Lemma alter_as_insert (f : Graphic -> Graphic) (h : list Graphic) (r : ref)
    (g : Graphic) :
  h !! r = Some g -> alter f r h = <[r := f g]> h.
Proof.
  intros Hg. apply list_eq. intros i.
  destruct (decide (r = i)) as [<-|Hne].
  - rewrite list_lookup_alter_eq, Hg, list_lookup_insert_eq;
      [reflexivity|apply lookup_lt_is_Some; eauto].
  - rewrite list_lookup_alter_ne, list_lookup_insert_ne by exact Hne.
    reflexivity.
Qed.

(** What asking an object for its identifier does to the service: the
    object is replaced by one of the same shape that has the identifier,
    and the count of generated identifiers may go up. *)
Lemma getGraphicId_shape (g : ref) (gobj : Graphic) (st : State) :
  heap st !! g = Some gobj ->
  exists id gobj' m,
    getGraphicId g st
    = (id, set_minted m (set_heap (<[g := gobj']> (heap st)) st))
    /\ same_shape gobj gobj'
    /\ attached_id gobj' = Some id.
Proof.
  intros Hg. pose proof (deref_lookup _ _ _ Hg) as Hderef.
  destruct (attached_id gobj) as [id|] eqn:Hid.
  - exists id, gobj, (minted st). split; [|split].
    + rewrite (getGraphicId_attached st g id) by (rewrite Hderef; exact Hid).
      rewrite list_insert_id by exact Hg. destruct st. reflexivity.
    + apply same_shape_refl.
    + exact Hid.
  - exists (fresh_id (minted st)), (with_sid (fresh_id (minted st)) gobj),
      (S (minted st)).
    split; [|split].
    + rewrite (getGraphicId_fresh st g) by (rewrite Hderef; exact Hid).
      rewrite (alter_as_insert _ _ _ _ Hg). reflexivity.
    + apply with_sid_same_shape. exact Hid.
    + apply fresh_id_attached.
Qed.

Lemma seq_snoc (n k : nat) : seq n k ++ [n + k] = seq n (S k).
Proof. rewrite seq_S. reflexivity. Qed.

(** [persistLabels] in closed form. *)
Lemma persistLabels_shape (g : ref) (gobj : Graphic) (geom : Geom)
    (settings : DrawSettings) (st : State) :
  heap st !! g = Some gobj ->
  exists id gobj',
    same_shape gobj gobj'
    /\ attached_id gobj' = Some id
    /\ heap (persistLabels measure g geom settings st)
       = <[g := gobj']> (heap st) ++ completedLabels measure geom settings
    /\ labelIndex (persistLabels measure g geom settings st)
       = <[id := seq (length (heap st))
                     (length (completedLabels measure geom settings))]>
           (labelIndex st)
    /\ labelLayer (persistLabels measure g geom settings st)
       = layer_remove_each (default [] (labelIndex st !! id)) (labelLayer st)
         ++ seq (length (heap st)) (length (completedLabels measure geom settings))
    /\ drawLayer (persistLabels measure g geom settings st) = drawLayer st
    /\ textLayer (persistLabels measure g geom settings st) = textLayer st
    /\ tempLabels (persistLabels measure g geom settings st) = tempLabels st
    /\ isEditing (persistLabels measure g geom settings st) = isEditing st
    /\ selectionMap (persistLabels measure g geom settings st)
       = selectionMap st.
Proof.
  intros Hg.
  destruct (getGraphicId_shape g gobj st Hg)
    as (id & gobj' & m & Hcall & Hsame & Hid).
  exists id, gobj'. split; [exact Hsame|]. split; [exact Hid|].
  assert (g < length (heap st)) as Hlt by (apply lookup_lt_is_Some; eauto).
  unfold persistLabels. rewrite Hcall.
  set (st1 := set_minted m (set_heap (<[g:=gobj']> (heap st)) st)).
  assert (attached_id (deref st1 g) = Some id) as Hid1.
  { unfold deref, st1. simpl. rewrite list_lookup_insert_eq by exact Hlt.
    exact Hid. }
  unfold removePersistedLabelsFor. rewrite Hid1.
  unfold addLabels, alloc, completedLabels.
  set (made := makeLabelsForGeometry measure geom settings).
  assert (length (<[g:=gobj']> (heap st)) = length (heap st)) as Hlen
    by apply length_insert.
  destruct (showTitle (labels settings)).
  - unfold placeTitleLabel, alloc.
    destruct (titleGraphic geom settings) as [t|]; simpl;
      rewrite ?app_nil_r, ?length_app, ?Hlen, ?insert_delete_eq;
      simpl; rewrite ?seq_snoc, ?Nat.add_1_r, <- ?app_assoc;
      repeat split; try reflexivity.
    rewrite <- seq_snoc, app_assoc. reflexivity.
  - simpl. rewrite ?app_nil_r, ?Hlen, ?insert_delete_eq.
    repeat split; reflexivity.
Qed.

(** When a creation completes (outside the selection mode), the shape
    is tagged with the tool of the settings and has an identifier; the
    label index holds for that identifier exactly the labels made for the
    geometry (segment labels, center block, then the standalone title),
    all of them new objects on the label layer; no temporary label is
    left, and the draw collection is as it was. For a polyline or polygon
    with titles shown the title is thus recorded twice: as the first line
    of the center block and as the standalone title. *)
Theorem creation_complete_persists (st : State) (settings : DrawSettings)
    (g : ref) (gobj : Graphic) (geom : Geom) :
  currentSettings st = Some settings ->
  selectionMode st = false ->
  heap st !! g = Some gobj ->
  geometry gobj = Some geom ->
  let st' := on_create measure Complete (Some g) st in
  let made := completedLabels measure geom settings in
  let refs := seq (length (heap st)) (length made) in
  exists id,
    attached_id (deref st' g) = Some id
    /\ labelIndex st' !! id = Some refs
    /\ drop (length (heap st)) (heap st') = made
    /\ (forall r, r ∈ refs -> r ∈ labelLayer st')
    /\ (attributes (deref st' g) ≫= attr_tool) = Some (tool settings)
    /\ geometry (deref st' g) = Some geom
    /\ tempLabels st' = []
    /\ isEditing st' = false
    /\ drawLayer st' = drawLayer st.
Proof.
  intros Hsettings Hmode Hg Hgeom st' made refs.
  assert (g < length (heap st)) as Hlt by (apply lookup_lt_is_Some; eauto).
  set (st1 := clearTempLabels (set_isEditing false st)).
  assert (heap st1 = heap st) as Hheap1
    by exact (clearTempLabels_heap (set_isEditing false st)).
  assert (tempLabels st1 = [] /\ isEditing st1 = false
          /\ drawLayer st1 = drawLayer st) as (Htemp1 & Hedit1 & Hdraw1).
  { unfold st1, clearTempLabels.
    destruct (tempLabels (set_isEditing false st)) eqn:E; simpl; auto. }
  set (tagged :=
         with_attributes
           (Some (mkAttributes (Some (tool settings))
                    (attributes (deref st1 g) ≫= attr_title))) gobj).
  set (st2 := set_heap (<[g := tagged]> (heap st1)) st1).
  assert (st' = persistLabels measure g geom settings st2) as Hst'.
  { unfold st', on_create. rewrite Hsettings, Hmode. simpl.
    rewrite (deref_lookup st g gobj Hg), Hgeom.
    fold st1. rewrite (alter_as_insert _ (heap st1) g gobj)
      by (rewrite Hheap1; exact Hg).
    reflexivity. }
  assert (heap st2 !! g = Some tagged) as Hg2.
  { unfold st2. simpl. apply list_lookup_insert_eq. rewrite Hheap1.
    exact Hlt. }
  assert (length (heap st2) = length (heap st)) as Hlen2.
  { unfold st2. simpl. rewrite length_insert, Hheap1. reflexivity. }
  destruct (persistLabels_shape g tagged geom settings st2 Hg2)
    as (id & gobj' & (Sgeom & _ & Sattr & _) & Hid & Hheap & Hindex & Hlayer
        & Hdraw & _ & Htemp & Hedit & _).
  rewrite <- Hst' in *. rewrite Hlen2 in *. fold made in Hheap, Hindex, Hlayer.
  fold refs in Hindex, Hlayer.
  assert (length (<[g:=gobj']> (heap st2)) = length (heap st)) as Hlen'
    by (rewrite length_insert; exact Hlen2).
  assert (deref st' g = gobj') as Hderef.
  { unfold deref. rewrite Hheap, lookup_app_l by (rewrite Hlen'; exact Hlt).
    rewrite list_lookup_insert_eq by (rewrite Hlen2; exact Hlt).
    reflexivity. }
  exists id. rewrite Hderef.
  split; [exact Hid|].
  split; [rewrite Hindex; apply lookup_insert_eq|].
  split; [rewrite Hheap, <- Hlen', drop_app_length; reflexivity|].
  split; [intros r Hr; rewrite Hlayer; apply elem_of_app; right; exact Hr|].
  split; [rewrite Sattr; reflexivity|].
  split; [rewrite Sgeom; exact Hgeom|].
  split; [rewrite Htemp; exact Htemp1|].
  split; [rewrite Hedit; exact Hedit1|].
  rewrite Hdraw. exact Hdraw1.
Qed.

(** *** Reflow *)

(** [reflowShape] in closed form, for a shape that has a geometry. *)
Lemma reflowShape_shape (g : ref) (gobj : Graphic) (geom : Geom)
    (settings : DrawSettings) (st : State) :
  heap st !! g = Some gobj ->
  geometry gobj = Some geom ->
  exists id gobj',
    same_shape gobj gobj'
    /\ attached_id gobj' = Some id
    /\ heap (reflowShape measure settings st g)
       = <[g := gobj']> (heap st) ++ reflowedLabels measure geom settings
    /\ labelIndex (reflowShape measure settings st g)
       = <[id := seq (length (heap st))
                     (length (reflowedLabels measure geom settings))]>
           (labelIndex st)
    /\ labelLayer (reflowShape measure settings st g)
       = labelLayer st
         ++ seq (length (heap st))
                (length (reflowedLabels measure geom settings))
    /\ drawLayer (reflowShape measure settings st g) = drawLayer st
    /\ textLayer (reflowShape measure settings st g) = textLayer st.
Proof.
  intros Hg Hgeom.
  destruct (getGraphicId_shape g gobj st Hg)
    as (id & gobj' & m & Hcall & Hsame & Hid).
  exists id, gobj'. split; [exact Hsame|]. split; [exact Hid|].
  unfold reflowShape. rewrite (deref_lookup st g gobj Hg), Hgeom, Hcall.
  unfold addLabels, alloc, reflowedLabels.
  set (made := makeLabelsForGeometry measure geom settings).
  assert (length (<[g:=gobj']> (heap st)) = length (heap st)) as Hlen
    by apply length_insert.
  destruct geom as [p|pl|pg].
  - destruct (showTitle (labels settings)).
    + unfold placeTitleLabel, alloc.
      destruct (titleGraphic (GPoint p) settings) as [t|]; simpl;
        rewrite ?app_nil_r, ?length_app, ?Hlen;
        simpl; rewrite ?seq_snoc, ?Nat.add_1_r, <- ?app_assoc;
        repeat split; try reflexivity.
    + simpl. rewrite ?app_nil_r, ?Hlen. repeat split; reflexivity.
  - simpl. rewrite ?app_nil_r, ?Hlen. repeat split; reflexivity.
  - simpl. rewrite ?app_nil_r, ?Hlen. repeat split; reflexivity.
Qed.

Lemma same_shape_attached (x y : Graphic) (id : string) :
  same_shape x y -> attached_id x = Some id -> attached_id y = Some id.
Proof.
  intros (_ & _ & _ & Hsid) Hid. unfold attached_id in *.
  rewrite Hsid; [exact Hid|]. unfold attached_id. rewrite Hid. discriminate.
Qed.

Lemma grown_heap_lookup (h new : list Graphic) (g r : ref) (x : Graphic) :
  g < length h -> r < length h ->
  (<[g := x]> h ++ new) !! r = if decide (g = r) then Some x else h !! r.
Proof.
  intros Hg Hr. rewrite lookup_app_l by (rewrite length_insert; exact Hr).
  rewrite list_lookup_insert.
  destruct (decide (g = r)) as [->|Hne].
  - rewrite decide_True by auto. reflexivity.
  - rewrite decide_False by tauto. reflexivity.
Qed.

(** One more shape of the draw layer has its labels rebuilt. *)
Lemma reflow_step (settings : DrawSettings) (st0 st : State)
    (done : list ref) (g : ref) :
  g < length (heap st0) ->
  reflowed_upto measure settings st0 st done ->
  reflowed_upto measure settings st0 (reflowShape measure settings st g)
    (done ++ [g]).
Proof.
  intros Hvalid (Hdraw & Htext & Hlen & Hkeep & Hdone & Hentries).
  destruct (lookup_lt_is_Some_2 _ _ Hvalid) as [gobj0 Hg0].
  destruct (Hkeep g gobj0 Hg0) as (gk & Hgk & Sk).
  pose proof Sk as (Sgeom & _).
  destruct (geometry gobj0) as [geom|] eqn:Hgeom0.
  - destruct (reflowShape_shape g gk geom settings st Hgk Sgeom)
      as (id & gk' & Sk' & Hid & Hheap & Hindex & Hlayer & Hdraw' & Htext').
    set (st' := reflowShape measure settings st g) in *.
    set (made := reflowedLabels measure geom settings) in *.
    assert (g < length (heap st)) as Hg_lt by lia.
    assert (forall r x, heap st !! r = Some x ->
              exists x', heap st' !! r = Some x' /\ same_shape x x')
      as Hgrow.
    { intros r x Hr.
      assert (r < length (heap st)) as Hr_lt
        by (apply lookup_lt_is_Some; eauto).
      rewrite Hheap, grown_heap_lookup by assumption.
      destruct (decide (g = r)) as [<-|_].
      - exists gk'. split; [reflexivity|].
        replace x with gk by congruence. exact Sk'.
      - exists x. split; [exact Hr|apply same_shape_refl]. }
    assert (forall r id', r < length (heap st) ->
              attached_id (deref st r) = Some id' ->
              attached_id (deref st' r) = Some id') as Hids.
    { intros r id' Hr Ha.
      destruct (lookup_lt_is_Some_2 _ _ Hr) as [x Hx].
      destruct (Hgrow r x Hx) as (x' & Hx' & Sx).
      rewrite (deref_lookup st r x Hx) in Ha.
      rewrite (deref_lookup st' r x' Hx').
      eapply same_shape_attached; eauto. }
    assert (deref st' g = gk') as Hderef.
    { unfold deref. rewrite Hheap, grown_heap_lookup by assumption.
      rewrite decide_True by reflexivity. reflexivity. }
    unfold reflowed_upto.
    split; [congruence|]. split; [congruence|].
    split; [rewrite Hheap, length_app, length_insert; lia|].
    split; [|split].
    + intros r x Hr. destruct (Hkeep r x Hr) as (x1 & Hx1 & S1).
      destruct (Hgrow r x1 Hx1) as (x2 & Hx2 & S2).
      exists x2. split; [exact Hx2|]. eapply same_shape_trans; eauto.
    + intros g2 gobj2 geom2 Hin Hg2 Hgeom2.
      apply elem_of_app in Hin as [Hin|Hin].
      * destruct (Hdone g2 gobj2 geom2 Hin Hg2 Hgeom2) as (id2 & Ha & Hsome).
        exists id2. split.
        -- apply Hids; [|exact Ha].
           apply Nat.lt_le_trans with (length (heap st0)); [|exact Hlen].
           apply lookup_lt_is_Some. eauto.
        -- rewrite Hindex. apply lookup_insert_is_Some'. right. exact Hsome.
      * apply list_elem_of_singleton in Hin as ->.
        exists id. split; [rewrite Hderef; exact Hid|].
        rewrite Hindex, lookup_insert_eq. eauto.
    + intros id2 refs2 Hentry. rewrite Hindex in Hentry.
      apply lookup_insert_Some in Hentry as [[<- <-]|[Hne Hentry]].
      * exists g, gobj0, geom.
        split; [apply elem_of_app; right; apply list_elem_of_singleton;
                reflexivity|].
        split; [exact Hg0|]. split; [exact Hgeom0|].
        split; [rewrite Hderef; exact Hid|].
        exists (length (heap st)). fold made.
        split; [reflexivity|]. split; [exact Hlen|]. split.
        -- intros i lbl Hi. rewrite Hheap.
           rewrite lookup_app_r by (rewrite length_insert; lia).
           rewrite length_insert.
           replace (length (heap st) + i - length (heap st)) with i by lia.
           exact Hi.
        -- intros r Hr. rewrite Hlayer. apply elem_of_app. right. exact Hr.
      * destruct (Hentries id2 refs2 Hentry)
          as (g2 & gobj2 & geom2 & Hin & Hg2 & Hgeom2 & Ha
              & (a & Hrefs & Ha_ge & Hcontent & Hon)).
        exists g2, gobj2, geom2.
        split; [apply elem_of_app; left; exact Hin|].
        split; [exact Hg2|]. split; [exact Hgeom2|].
        split.
        { apply Hids; [|exact Ha].
          apply Nat.lt_le_trans with (length (heap st0)); [|exact Hlen].
          apply lookup_lt_is_Some. eauto. }
        exists a. split; [exact Hrefs|]. split; [exact Ha_ge|]. split.
        -- intros i lbl Hi. pose proof (Hcontent i lbl Hi) as Hold.
           assert (a + i < length (heap st)) as Hlt
             by (apply lookup_lt_is_Some; eauto).
           rewrite Hheap, grown_heap_lookup by assumption.
           rewrite decide_False by lia. exact Hold.
        -- intros r Hr. rewrite Hlayer. apply elem_of_app. left. auto.
  - assert (reflowShape measure settings st g = st) as ->.
    { unfold reflowShape. rewrite (deref_lookup st g gk Hgk), Sgeom.
      reflexivity. }
    unfold reflowed_upto.
    split; [exact Hdraw|]. split; [exact Htext|]. split; [exact Hlen|].
    split; [exact Hkeep|]. split.
    + intros g2 gobj2 geom2 Hin Hg2 Hgeom2.
      apply elem_of_app in Hin as [Hin|Hin]; [eauto|].
      apply list_elem_of_singleton in Hin as ->. congruence.
    + intros id2 refs2 Hentry.
      destruct (Hentries id2 refs2 Hentry)
        as (g2 & gobj2 & geom2 & Hin & Hrest).
      exists g2, gobj2, geom2. split; [|exact Hrest].
      apply elem_of_app. left. exact Hin.
Qed.

Lemma reflow_loop (settings : DrawSettings) (st0 : State)
    (todo done : list ref) (st : State) :
  Forall (fun g => g < length (heap st0)) todo ->
  reflowed_upto measure settings st0 st done ->
  reflowed_upto measure settings st0
    (foldl (reflowShape measure settings) st todo) (done ++ todo).
Proof.
  intros Hvalid. revert done st.
  induction Hvalid as [|g todo Hg _ IH]; intros done st Hinv.
  - rewrite app_nil_r. exact Hinv.
  - cbn [foldl]. replace (done ++ g :: todo) with ((done ++ [g]) ++ todo)
      by (rewrite <- app_assoc; reflexivity).
    apply IH. apply reflow_step; assumption.
Qed.

(** A reflow rebuilds the label index from the draw layer alone: the
    layers of shapes and texts are as before; every object that existed
    is still there with the geometry, symbol and attributes it had; every
    shape of the draw layer that has a geometry has an identifier and an
    entry; and every entry belongs to such a shape and holds exactly the
    labels made for its geometry under the current settings, all of them
    new objects on the label layer. Entries of shapes that have left the
    draw layer are gone. *)
Theorem reflow_rebuilds_index (st : State) (settings : DrawSettings) :
  currentSettings st = Some settings ->
  Forall (fun g => g < length (heap st)) (drawLayer st) ->
  let st' := reflowAllLabels measure st in
  drawLayer st' = drawLayer st
  /\ textLayer st' = textLayer st
  /\ (forall r gobj,
         heap st !! r = Some gobj ->
         exists gobj', heap st' !! r = Some gobj' /\ same_shape gobj gobj')
  /\ (forall g gobj geom,
         g ∈ drawLayer st -> heap st !! g = Some gobj ->
         geometry gobj = Some geom ->
         exists id refs,
           attached_id (deref st' g) = Some id
           /\ labelIndex st' !! id = Some refs)
  /\ (forall id refs,
         labelIndex st' !! id = Some refs ->
         exists g gobj geom,
           g ∈ drawLayer st /\ heap st !! g = Some gobj
           /\ geometry gobj = Some geom
           /\ attached_id (deref st' g) = Some id
           /\ map (deref st') refs = reflowedLabels measure geom settings
           /\ (forall r, r ∈ refs ->
                 length (heap st) <= r /\ r ∈ labelLayer st')).
Proof.
  intros Hsettings Hvalid st'.
  assert (reflowed_upto measure settings st st' (drawLayer st)) as Hinv.
  { subst st'. unfold reflowAllLabels. rewrite Hsettings.
    set (layer := if _ : bool then _ else _).
    set (st1 := set_labelIndex ∅ (set_labelLayer layer st)).
    change (drawLayer st1) with (drawLayer st).
    apply (reflow_loop settings st (drawLayer st) [] st1 Hvalid).
    unfold reflowed_upto.
    split; [reflexivity|]. split; [reflexivity|]. split; [reflexivity|].
    split; [|split].
    - intros r gobj Hr. exists gobj. split; [exact Hr|apply same_shape_refl].
    - intros g gobj geom Hin. apply elem_of_nil in Hin. contradiction.
    - intros id refs Hentry. change (labelIndex st1) with (∅ : gmap string (list nat)) in Hentry.
      rewrite lookup_empty in Hentry. discriminate. }
  clearbody st'.
  destruct Hinv as (Hdraw & Htext & Hlen & Hkeep & Hdone & Hentries).
  split; [exact Hdraw|]. split; [exact Htext|]. split; [exact Hkeep|].
  split.
  - intros g gobj geom Hin Hg Hgeom.
    destruct (Hdone g gobj geom Hin Hg Hgeom) as (id & Ha & [refs Hrefs]).
    exists id, refs. split; assumption.
  - intros id refs Hentry.
    destruct (Hentries id refs Hentry)
      as (g & gobj & geom & Hin & Hg & Hgeom & Ha
          & (a & Hrefs & Ha_ge & Hcontent & Hon)).
    exists g, gobj, geom.
    split; [exact Hin|]. split; [exact Hg|]. split; [exact Hgeom|].
    split; [exact Ha|]. split.
    + apply list_eq. intros i. rewrite list_lookup_fmap, Hrefs.
      destruct (reflowedLabels measure geom settings !! i) as [lbl|] eqn:Hi.
      * assert (i < length (reflowedLabels measure geom settings)) as Hlt
          by (apply lookup_lt_is_Some; eauto).
        rewrite lookup_seq_lt by exact Hlt. cbn.
        unfold deref. rewrite (Hcontent i lbl Hi). reflexivity.
      * apply lookup_ge_None in Hi.
        rewrite (proj2 (lookup_ge_None _ _))
          by (rewrite length_seq; exact Hi).
        reflexivity.
    + intros r Hr. split; [|apply Hon; exact Hr].
      rewrite Hrefs in Hr. apply elem_of_seq in Hr. lia.
Qed.

End PersistProperties.

(** ** Sessions, tools and selection *)

Section SessionProperties.
Import Js Geometry MeasurementService SketchService SketchOperations.
Context `{GeometryEngine} `{Accessors} `{JsMath} `{ViewProjector} `{Runtime}.
Variable measure : Units.

Lemma layer_remove_each_nil (gs : list nat) : layer_remove_each gs [] = [].
Proof. induction gs as [|g gs IH]; [reflexivity|exact IH]. Qed.

(** [clearAll] empties the three layers and leaves the label index as it
    was, with the entries of the shapes it has removed; the next reflow
    empties the index, and makes no label. *)
Theorem clearAll_then_reflow (st : State) (settings : DrawSettings) :
  currentSettings st = Some settings ->
  let cleared := (clearAll st).1 in
  let st' := reflowAllLabels measure cleared in
  labelIndex cleared = labelIndex st
  /\ (clearAll st).2 = []
  /\ labelIndex st' = ∅
  /\ labelLayer st' = []
  /\ drawLayer st' = []
  /\ heap st' = heap st.
Proof.
  intros Hsettings cleared st'.
  split; [reflexivity|]. split; [reflexivity|].
  subst st'. unfold reflowAllLabels.
  change (currentSettings cleared) with (currentSettings st).
  rewrite Hsettings.
  change (labelLayer cleared) with (@nil nat).
  rewrite layer_remove_each_nil.
  change (drawLayer (set_labelIndex ∅ (set_labelLayer _ cleared)))
    with (@nil nat).
  destruct (bool_decide _ && bool_decide _); repeat split; reflexivity.
Qed.


(** *** Objects that are only ever given an identifier *)

Lemma objects_of_kept (st st' : State) :
  kept st st' ->
  forall r g, heap st !! r = Some g ->
    exists g', heap st' !! r = Some g' /\ same_shape g g'.
Proof. intros K. apply K. Qed.

Lemma objects_same_heap (st st' : State) :
  heap st' = heap st ->
  forall r g, heap st !! r = Some g ->
    exists g', heap st' !! r = Some g' /\ same_shape g g'.
Proof.
  intros Hheap r g Hg. exists g. rewrite Hheap.
  split; [exact Hg|apply same_shape_refl].
Qed.

Lemma objects_trans (st1 st2 st3 : State) :
  (forall r g, heap st1 !! r = Some g ->
     exists g', heap st2 !! r = Some g' /\ same_shape g g') ->
  (forall r g, heap st2 !! r = Some g ->
     exists g', heap st3 !! r = Some g' /\ same_shape g g') ->
  forall r g, heap st1 !! r = Some g ->
    exists g', heap st3 !! r = Some g' /\ same_shape g g'.
Proof.
  intros A B r g Hg. destruct (A r g Hg) as (g2 & Hg2 & S2).
  destruct (B r g2 Hg2) as (g3 & Hg3 & S3).
  exists g3. split; [exact Hg3|]. eapply same_shape_trans; eauto.
Qed.

Lemma placeTitleLabel_objects (geom : Geom) (settings : DrawSettings)
    (st : State) :
  forall r g, heap st !! r = Some g ->
    exists g', heap (placeTitleLabel geom settings st).2 !! r = Some g'
               /\ same_shape g g'.
Proof.
  intros r g Hg. exists g. split; [|apply same_shape_refl].
  unfold placeTitleLabel. destruct (titleGraphic geom settings); simpl.
  - apply lookup_app_l_Some. exact Hg.
  - exact Hg.
Qed.

(** Persisting the labels of a shape writes no geometry, symbol or
    attribute of any object. *)
Lemma persistLabels_objects (g : ref) (geom : Geom) (settings : DrawSettings)
    (st : State) :
  forall r x, heap st !! r = Some x ->
    exists x', heap (persistLabels measure g geom settings st) !! r = Some x'
               /\ same_shape x x'.
Proof.
  unfold persistLabels.
  pose proof (getGraphicId_kept g st) as K1.
  destruct (getGraphicId g st) as [gid st1]. cbn [snd] in K1.
  set (st2 := removePersistedLabelsFor g st1).
  assert (heap st2 = heap st1) as Hrm.
  { unfold st2, removePersistedLabelsFor.
    destruct (attached_id (deref st1 g)); reflexivity. }
  pose proof (addLabels_kept (makeLabelsForGeometry measure geom settings) st2)
    as K3.
  destruct (addLabels (makeLabelsForGeometry measure geom settings) st2)
    as [persisted st3]. cbn [snd] in K3.
  assert (forall r x, heap st3 !! r = Some x ->
            exists x',
              heap (if showTitle (labels settings)
                    then placeTitleLabel geom settings st3
                    else (None, st3)).2 !! r = Some x'
              /\ same_shape x x') as K4.
  { destruct (showTitle (labels settings)).
    - apply placeTitleLabel_objects.
    - apply objects_same_heap. reflexivity. }
  destruct (if showTitle (labels settings)
            then placeTitleLabel geom settings st3 else (None, st3))
    as [title st4]. cbn [snd] in K4.
  apply (objects_trans st st1); [apply objects_of_kept; exact K1|].
  apply (objects_trans st1 st2); [apply objects_same_heap; exact Hrm|].
  apply (objects_trans st2 st3); [apply objects_of_kept; exact K3|].
  apply (objects_trans st3 st4); [exact K4|].
  apply objects_same_heap. reflexivity.
Qed.

Lemma persist_loop_objects (settings : DrawSettings) (gs : list ref)
    (st : State) :
  forall r x, heap st !! r = Some x ->
    exists x',
      heap (foldl (fun s g =>
                     match geometry (deref s g) with
                     | None => s
                     | Some geom => persistLabels measure g geom settings s
                     end) st gs) !! r = Some x'
      /\ same_shape x x'.
Proof.
  revert st. induction gs as [|g gs IH]; intros st; cbn [foldl].
  - apply objects_same_heap. reflexivity.
  - eapply objects_trans; [|apply IH].
    destruct (geometry (deref st g)) as [geom|].
    + apply persistLabels_objects.
    + apply objects_same_heap. reflexivity.
Qed.

(** [startDraw] forgets the clones of an open session, and leaves them on
    the working layer; whatever update the view model reports as complete
    afterwards, no object gets another geometry, symbol or attributes:
    the edits made to the clones are never copied to their sources. *)
Theorem startDraw_abandons_edits (settings : DrawSettings) (st : State)
    (gs : list ref) :
  let st1 := (startDraw settings st).1 in
  let st2 := on_update measure Complete gs st1 in
  selectionMap st1 = ∅
  /\ selectionLayer st1 = selectionLayer st
  /\ heap st1 = heap st
  /\ (startDraw settings st).2 = allGraphics st
  /\ forall r g, heap st !! r = Some g ->
       exists g', heap st2 !! r = Some g' /\ same_shape g g'.
Proof.
  intros st1 st2.
  assert (selectionMap st1 = ∅ /\ selectionLayer st1 = selectionLayer st
          /\ heap st1 = heap st /\ (startDraw settings st).2 = allGraphics st
          /\ svmLayer st1 = DrawLayer
          /\ currentSettings st1 = Some settings)
    as (Hmap & Hlayer & Hheap & Hemit & Hsvm & Hsettings).
  { unfold st1, startDraw, endSelectionEdit, allGraphics.
    destruct st as [? ? ? ? [working|] ? ? ? ? ? ? ? ? ? ? ?];
      destruct (tool settings); cbn; repeat split; reflexivity. }
  split; [exact Hmap|]. split; [exact Hlayer|]. split; [exact Hheap|].
  split; [exact Hemit|].
  assert (editingSelection (set_isEditing false st1) = false) as Hedit.
  { unfold editingSelection. cbn. rewrite Hsvm.
    destruct (selectionLayer st1); reflexivity. }
  unfold st2, on_update. rewrite Hsettings, Hedit.
  apply (objects_trans st (clearTempLabels (set_isEditing false st1))).
  { apply objects_same_heap. rewrite clearTempLabels_heap. exact Hheap. }
  eapply objects_trans; [apply persist_loop_objects|].
  apply objects_same_heap. reflexivity.
Qed.


(** *** The text tool *)

(** With the text tool, [startDraw] installs the click handler; while it
    waits, a click selects nothing; the click that places the text adds
    one text graphic at the clicked point, titled with the text, to the
    text layer and to the published graphics, removes the handler, and
    makes no label. *)
Theorem text_tool_places_once (settings : DrawSettings) (st : State)
    (sr : SpatialReference) (mapPoint : Q * Q) (hit : option ref) :
  tool settings = ToolText ->
  let waiting := (startDraw settings st).1 in
  let placed := placeText settings sr mapPoint waiting in
  let g := length (heap st) in
  textClickHandler waiting = true
  /\ on_click measure hit waiting = waiting
  /\ textClickHandler placed.1 = false
  /\ textLayer placed.1 = textLayer st ++ [g]
  /\ placed.2 = allGraphics st ++ [g]
  /\ length (heap placed.1) = S (length (heap st))
  /\ geometry (deref placed.1 g)
     = Some (GPoint (mkPoint mapPoint.1 mapPoint.2 sr))
  /\ (attributes (deref placed.1 g) ≫= attr_title)
     = Some (content (text settings))
  /\ (attributes (deref placed.1 g) ≫= attr_tool) = Some ToolText
  /\ attached_id (deref placed.1 g) = None
  /\ labelLayer placed.1 = labelLayer st
  /\ labelIndex placed.1 = labelIndex st.
Proof.
  intros Htool waiting placed g.
  assert (waiting
          = set_textClickHandler true
              (set_svmLayer DrawLayer
                 (set_textClickHandler false
                    (endSelectionEdit false
                       (set_currentSettings (Some settings) st)))))
    as Hwaiting.
  { unfold waiting, startDraw. rewrite Htool. reflexivity. }
  assert (heap waiting = heap st /\ textLayer waiting = textLayer st
          /\ drawLayer waiting = drawLayer st
          /\ labelLayer waiting = labelLayer st
          /\ labelIndex waiting = labelIndex st
          /\ textClickHandler waiting = true)
    as (Hheap & Htext & Hdraw & Hlayer & Hindex & Hhandler).
  { rewrite Hwaiting. unfold endSelectionEdit.
    destruct st as [? ? ? ? [working|] ? ? ? ? ? ? ? ? ? ? ?];
      cbn; repeat split; reflexivity. }
  clearbody waiting.
  split; [exact Hhandler|].
  split; [unfold on_click; rewrite Hhandler; reflexivity|].
  subst placed g. unfold placeText, alloc, allGraphics. cbn.
  rewrite Hheap, Htext, Hdraw, Hlayer, Hindex.
  split; [reflexivity|]. split; [reflexivity|].
  split; [rewrite app_assoc; reflexivity|].
  split; [rewrite length_app; cbn; lia|].
  unfold deref. cbn.
  rewrite lookup_app_r by lia. rewrite Nat.sub_diag. cbn.
  repeat split; reflexivity.
Qed.


(** *** Selection from the table *)

Lemma getGraphicId_log (r : ref) (st : State) :
  selectedIds_log (getGraphicId r st).2 = selectedIds_log st.
Proof. unfold getGraphicId. destruct (attached_id (deref st r)); reflexivity. Qed.

Lemma getGraphicId_attaches (r : ref) (st : State) :
  r < length (heap st) ->
  attached_id (deref (getGraphicId r st).2 r) = Some (getGraphicId r st).1.
Proof.
  intros Hr. destruct (lookup_lt_is_Some_2 _ _ Hr) as [gobj Hg].
  destruct (getGraphicId_shape r gobj st Hg)
    as (id & gobj' & m & -> & _ & Hid).
  unfold deref. cbn. rewrite list_lookup_insert_eq by exact Hr. exact Hid.
Qed.

Lemma kept_attached (st st' : State) (r : ref) (id : string) :
  kept st st' ->
  attached_id (deref st r) = Some id -> attached_id (deref st' r) = Some id.
Proof.
  intros K Hid. unfold deref in Hid.
  destruct (heap st !! r) as [g|] eqn:Hg; [|discriminate].
  destruct (objects_of_kept st st' K r g Hg) as (g' & Hg' & Hsame).
  rewrite (deref_lookup st' r g' Hg').
  exact (same_shape_attached g g' id Hsame Hid).
Qed.

Lemma kept_length (st st' : State) :
  kept st st' -> length (heap st) <= length (heap st').
Proof.
  intros K. destruct (heap st) as [|g0 h] eqn:Hh; [cbn; lia|].
  rewrite <- Hh. pose proof (kept_geometry st st' (length h) K) as Hlast.
  rewrite Hh in Hlast |- *. cbn in Hlast |- *.
  destruct Hlast as [_ Hlt]; lia.
Qed.

(** What [find] does: only identifiers are attached, and the graphic
    found carries the identifier asked for. *)
Lemma findById_found (graphicId : string) (gs : list ref) (st : State) :
  kept st (findById graphicId gs st).2
  /\ selectedIds_log (findById graphicId gs st).2 = selectedIds_log st
  /\ forall g, (findById graphicId gs st).1 = Some g ->
       g ∈ gs
       /\ (g < length (heap st) ->
           attached_id (deref (findById graphicId gs st).2 g)
           = Some graphicId).
Proof.
  revert st. induction gs as [|g0 gs IH]; intros st; cbn [findById].
  - split; [apply kept_refl|]. split; [reflexivity|]. discriminate.
  - pose proof (getGraphicId_kept g0 st) as K1.
    pose proof (getGraphicId_log g0 st) as L1.
    pose proof (getGraphicId_attaches g0 st) as A1.
    destruct (getGraphicId g0 st) as [gid st1]. cbn [fst snd] in K1, L1, A1.
    destruct (decide (gid = graphicId)) as [->|Hne]; cbn [fst snd].
    + split; [exact K1|]. split; [exact L1|].
      intros g [= <-]. split; [left|exact A1].
    + destruct (IH st1) as (K2 & L2 & F2).
      split; [eapply kept_trans; eauto|]. split; [congruence|].
      intros g Hg. destruct (F2 g Hg) as [Hin Hid].
      split; [right; exact Hin|].
      intros Hlt. apply Hid. pose proof (kept_length st st1 K1). lia.
Qed.

Lemma resolveIds_found (graphicIds : list string) (st : State) :
  Forall (fun r => r < length (heap st)) (allGraphics st) ->
  kept st (resolveIds graphicIds st).2
  /\ selectedIds_log (resolveIds graphicIds st).2 = selectedIds_log st
  /\ forall g, g ∈ (resolveIds graphicIds st).1 ->
       g ∈ allGraphics st
       /\ exists id, id ∈ graphicIds
            /\ attached_id (deref (resolveIds graphicIds st).2 g) = Some id.
Proof.
  revert st. induction graphicIds as [|gid ids IH]; intros st Hvalid;
    cbn [resolveIds].
  - split; [apply kept_refl|]. split; [reflexivity|].
    intros g Hg. apply elem_of_nil in Hg. contradiction.
  - destruct (findById_found gid (allGraphics st) st) as (K1 & L1 & F1).
    destruct (findById gid (allGraphics st) st) as [found st1].
    cbn [fst snd] in K1, L1, F1.
    assert (allGraphics st1 = allGraphics st) as Hall.
    { unfold allGraphics. destruct K1 as (-> & -> & _). reflexivity. }
    assert (Forall (fun r => r < length (heap st1)) (allGraphics st1))
      as Hvalid1.
    { rewrite Hall. eapply Forall_impl; [exact Hvalid|].
      intros r Hr. cbn in Hr. pose proof (kept_length st st1 K1). lia. }
    destruct (IH st1 Hvalid1) as (K2 & L2 & F2).
    destruct (resolveIds ids st1) as [others st2].
    cbn [fst snd] in K2, L2, F2 |- *.
    split; [eapply kept_trans; eauto|]. split; [congruence|].
    assert (forall g, g ∈ others ->
              g ∈ allGraphics st
              /\ exists id, id ∈ gid :: ids
                   /\ attached_id (deref st2 g) = Some id) as Hothers.
    { intros g Hg. destruct (F2 g Hg) as (Hin & id & Hid & Ha).
      rewrite Hall in Hin. split; [exact Hin|].
      exists id. split; [right; exact Hid|exact Ha]. }
    destruct found as [g0|]; [|exact Hothers].
    intros g Hg. apply elem_of_cons in Hg as [->|Hg]; [|auto].
    destruct (F1 g0 eq_refl) as [Hin Hid].
    split; [exact Hin|]. exists gid. split; [left|].
    apply (kept_attached st1 st2 g0 gid K2). apply Hid.
    rewrite Forall_forall in Hvalid. apply Hvalid. exact Hin.
Qed.


(** The clones made for [srcs] from a state with an empty clone map: the
    objects there were are untouched, and the map relates each new clone,
    a copy of its source, to a member of [srcs]. *)
Lemma clone_loop (srcs : list ref) (st : State) :
  selectionMap st = ∅ ->
  Forall (fun s => s < length (heap st)) srcs ->
  let st' := foldl (fun s src => (addClone src s).2) st srcs in
  (forall r x, heap st !! r = Some x -> heap st' !! r = Some x)
  /\ length (heap st) <= length (heap st')
  /\ (forall c s, selectionMap st' !! c = Some s ->
        s ∈ srcs /\ length (heap st) <= c
        /\ heap st' !! c = Some (cloneGraphic (deref st s)))
  /\ (forall s, s ∈ srcs -> exists c, selectionMap st' !! c = Some s)
  /\ (srcs ≠ [] -> selectionMap st' ≠ ∅)
  /\ drawLayer st' = drawLayer st /\ textLayer st' = textLayer st
  /\ labelIndex st' = labelIndex st
  /\ selectedIds_log st' = selectedIds_log st.
Proof.
  intros Hempty.
  induction srcs as [|src srcs IH] using rev_ind; intros Hvalid st'.
  - subst st'. cbn. rewrite Hempty.
    split; [auto|]. split; [lia|]. split; [|split].
    + intros c s Hcs. rewrite lookup_empty in Hcs. discriminate.
    + intros s Hs. apply elem_of_nil in Hs. contradiction.
    + repeat split; try reflexivity. intros Hne. contradiction.
  - subst st'. rewrite foldl_app. cbn [foldl].
    apply Forall_app in Hvalid as [Hvalid Hsrc].
    apply Forall_inv in Hsrc.
    set (stL := foldl (fun s src0 => (addClone src0 s).2) st srcs) in *.
    destruct (IH Hvalid)
      as (Hpre & Hlen & Hmap & Hsur & _ & Hd & Ht & Hi & Hl).
    assert (heap (addClone src stL).2
            = heap stL ++ [cloneGraphic (deref stL src)]) as Hheap
      by reflexivity.
    assert (selectionMap (addClone src stL).2
            = <[length (heap stL) := src]> (selectionMap stL)) as Hins
      by reflexivity.
    assert (deref stL src = deref st src) as Hderef.
    { destruct (lookup_lt_is_Some_2 _ _ Hsrc) as [x Hx].
      unfold deref. rewrite Hx, (Hpre src x Hx). reflexivity. }
    split; [|split; [|split; [|split; [|split]]]].
    + intros r x Hr. rewrite Hheap. apply lookup_app_l_Some. auto.
    + rewrite Hheap, length_app. cbn. lia.
    + intros c s Hcs. rewrite Hins in Hcs.
      apply lookup_insert_Some in Hcs as [[<- <-]|[Hne Hcs]].
      * split; [apply elem_of_app; right; left|]. split; [exact Hlen|].
        rewrite Hheap, lookup_app_r by lia. rewrite Nat.sub_diag. cbn.
        rewrite Hderef. reflexivity.
      * destruct (Hmap c s Hcs) as (Hin & Hc & Hobj).
        split; [apply elem_of_app; left; exact Hin|]. split; [exact Hc|].
        rewrite Hheap. apply lookup_app_l_Some. exact Hobj.
    + intros s Hs. rewrite Hins.
      apply elem_of_app in Hs as [Hs|Hs].
      * destruct (Hsur s Hs) as [c Hc]. exists c.
        rewrite lookup_insert_ne; [exact Hc|].
        destruct (Hmap c s Hc) as (_ & _ & Hobj).
        assert (c < length (heap stL)) by (apply lookup_lt_is_Some; eauto).
        lia.
      * apply list_elem_of_singleton in Hs as ->.
        exists (length (heap stL)). apply lookup_insert_eq.
    + intros _ Hnone. rewrite Hins in Hnone.
      apply (insert_non_empty _ _ _ Hnone).
    + cbn. repeat split; assumption.
Qed.

(** [selectGraphics] opens a session in order over graphics of the draw
    and text layers that carry a requested identifier. [base] is the state
    once the events that the view model reports from within [cancel] have
    been handled. The layers of shapes and texts and the label index are
    those of [base], and every object keeps its geometry, symbol and
    attributes; each clone is a new object with the geometry of its
    source. When no graphic is found the selection is published as
    empty and the draw layer stays under edit; otherwise the working
    layer is put under edit and the requested identifiers are published
    as they were given, those that matched nothing included. *)
Theorem selectGraphics_opens_session (graphicIds : list string)
    (fired : list Event) (st : State) :
  Forall (fun r => r < length (heap (run measure fired st)))
         (allGraphics (run measure fired st)) ->
  let base := run measure fired st in
  let st' := selectGraphics measure graphicIds fired st in
  session_ok st'
  /\ drawLayer st' = drawLayer base
  /\ textLayer st' = textLayer base
  /\ labelIndex st' = labelIndex base
  /\ (forall r g, heap base !! r = Some g ->
        exists g', heap st' !! r = Some g' /\ same_shape g g')
  /\ (forall c src, selectionMap st' !! c = Some src ->
        src ∈ allGraphics base
        /\ length (heap base) <= c
        /\ geometry (deref st' c) = geometry (deref base src)
        /\ exists id, id ∈ graphicIds
             /\ attached_id (deref st' src) = Some id)
  /\ ((selectionMap st' = ∅ /\ svmLayer st' = DrawLayer
       /\ head (selectedIds_log st') = Some [])
      \/ (selectionMap st' ≠ ∅ /\ svmLayer st' = SelectionLayer
          /\ head (selectedIds_log st') = Some graphicIds)).
Proof.
  intros Hvalid base st'.
  set (st0 := clearSelection measure fired st).
  assert (heap st0 = heap base /\ drawLayer st0 = drawLayer base
          /\ textLayer st0 = textLayer base
          /\ labelIndex st0 = labelIndex base
          /\ selectionMap st0 = ∅ /\ svmLayer st0 = DrawLayer
          /\ head (selectedIds_log st0) = Some [])
    as (Hheap0 & Hdraw0 & Htext0 & Hindex0 & Hmap0 & Hsvm0 & Hlog0).
  { unfold st0, clearSelection, endSelectionEdit. fold base.
    destruct (selectionLayer base); repeat split; reflexivity. }
  assert (allGraphics st0 = allGraphics base) as Hall0
    by (unfold allGraphics; rewrite Hdraw0, Htext0; reflexivity).
  assert (Forall (fun r => r < length (heap st0)) (allGraphics st0))
    as Hvalid0 by (rewrite Hall0, Hheap0; exact Hvalid).
  destruct (resolveIds_found graphicIds st0 Hvalid0) as (KB & LB & FB).
  assert (st' = let '(graphicsToSelect, st1) := resolveIds graphicIds st0 in
                match graphicsToSelect with
                | [] => st1
                | _ =>
                    let st2 := prepareSelectionLayer true st1 in
                    let st3 :=
                      foldl (fun s src => (addClone src s).2) st2
                        graphicsToSelect in
                    setSelectedGraphicIds graphicIds
                      (publishMeasurementsFromGraphics measure
                         (default [] (selectionLayer st3))
                         (set_svmLayer SelectionLayer st3))
                end) as Hst' by reflexivity.
  clearbody st'.
  destruct (resolveIds graphicIds st0) as [sel stB].
  cbn [fst snd] in KB, LB, FB.
  pose proof KB as (KBd & KBt & KBi & KBm & _ & KBs & _ & KBo).
  pose proof (kept_length st0 stB KB) as HlenB.
  destruct sel as [|s0 sel'] eqn:Hsel.
  - subst st'.
    split; [unfold session_ok; rewrite KBm, Hmap0; apply map_Forall_empty|].
    split; [congruence|]. split; [congruence|]. split; [congruence|].
    split; [rewrite <- Hheap0; exact KBo|].
    split.
    + intros c src Hc. rewrite KBm, Hmap0, lookup_empty in Hc. discriminate.
    + left. rewrite KBm, KBs, LB. auto.
  - rewrite <- Hsel in *. assert (sel ≠ []) as Hne by (rewrite Hsel; discriminate).
    clear Hsel s0 sel'.
    assert (st' = setSelectedGraphicIds graphicIds
                    (publishMeasurementsFromGraphics measure
                       (default [] (selectionLayer
                          (foldl (fun s src => (addClone src s).2)
                             (prepareSelectionLayer true stB) sel)))
                       (set_svmLayer SelectionLayer
                          (foldl (fun s src => (addClone src s).2)
                             (prepareSelectionLayer true stB) sel))))
      as Hst'' by (destruct sel; [contradiction|exact Hst']).
    clear Hst'.
    set (st2 := prepareSelectionLayer true stB) in *.
    assert (heap st2 = heap stB /\ selectionMap st2 = ∅
            /\ drawLayer st2 = drawLayer stB /\ textLayer st2 = textLayer stB
            /\ labelIndex st2 = labelIndex stB)
      as (Hheap2 & Hmap2 & Hdraw2 & Htext2 & Hindex2).
    { unfold st2, prepareSelectionLayer.
      destruct (selectionLayer stB); repeat split; reflexivity. }
    assert (Forall (fun s => s < length (heap st2)) sel) as Hsel_valid.
    { apply Forall_forall. intros s Hs. destruct (FB s Hs) as [Hin _].
      rewrite Forall_forall in Hvalid0. specialize (Hvalid0 s Hin).
      rewrite Hheap2. lia. }
    destruct (clone_loop sel st2 Hmap2 Hsel_valid)
      as (Hpre & Hlen3 & Hclones & _ & Hnonempty & Hdraw3 & Htext3 & Hindex3
          & _).
    set (st3 := foldl (fun s src => (addClone src s).2) st2 sel) in *.
    set (st4 := set_svmLayer SelectionLayer st3) in *.
    set (st5 := publishMeasurementsFromGraphics measure
                  (default [] (selectionLayer st3)) st4) in *.
    pose proof (publishMeasurementsFromGraphics_kept measure
                  (default [] (selectionLayer st3)) st4) as K5.
    fold st5 in K5.
    pose proof K5 as (K5d & K5t & K5i & K5m & _ & K5s & _ & K5o).
    change (drawLayer st4) with (drawLayer st3) in K5d.
    change (textLayer st4) with (textLayer st3) in K5t.
    change (labelIndex st4) with (labelIndex st3) in K5i.
    change (selectionMap st4) with (selectionMap st3) in K5m.
    change (svmLayer st4) with SelectionLayer in K5s.
    assert (heap st' = heap st5 /\ selectionMap st' = selectionMap st3
            /\ drawLayer st' = drawLayer st5 /\ textLayer st' = textLayer st5
            /\ labelIndex st' = labelIndex st5 /\ svmLayer st' = SelectionLayer
            /\ head (selectedIds_log st') = Some graphicIds)
      as (Hheap' & Hmap' & Hdraw' & Htext' & Hindex' & Hsvm' & Hlog').
    { rewrite Hst''. cbn. rewrite K5m, K5s. repeat split; reflexivity. }
    clear Hst''.
    assert (forall r g, heap stB !! r = Some g ->
              exists g', heap st' !! r = Some g' /\ same_shape g g') as HobjB.
    { intros r g Hg. rewrite Hheap'. apply K5o.
      change (heap st4) with (heap st3). apply Hpre. rewrite Hheap2.
      exact Hg. }
    split.
    { apply (session_ok_of_clones (length (heap st2))).
      - rewrite Hheap'. pose proof (kept_length st4 st5 K5) as Hle.
        change (heap st4) with (heap st3) in Hle. lia.
      - rewrite Hmap'. intros c s Hcs.
        destruct (Hclones c s Hcs) as (Hin & Hc & Hobj).
        split; [split; [exact Hc|]|].
        + rewrite Hheap'. pose proof (kept_length st4 st5 K5) as Hle.
          change (heap st4) with (heap st3) in Hle.
          assert (c < length (heap st3))
            by (apply lookup_lt_is_Some; eauto). lia.
        + rewrite Forall_forall in Hsel_valid. auto. }
    split; [congruence|]. split; [congruence|]. split; [congruence|].
    split.
    { intros r g Hg. rewrite <- Hheap0 in Hg.
      destruct (KBo r g Hg) as (g1 & Hg1 & S1).
      destruct (HobjB r g1 Hg1) as (g2 & Hg2 & S2).
      exists g2. split; [exact Hg2|]. eapply same_shape_trans; eauto. }
    split.
    { intros c src Hc. rewrite Hmap' in Hc.
      destruct (Hclones c src Hc) as (Hin & Hge & Hobj).
      destruct (FB src Hin) as (Hall & id & Hid & Hattached).
      split; [rewrite <- Hall0; exact Hall|].
      split; [rewrite <- Hheap0; rewrite Hheap2 in Hge; lia|].
      split.
      - destruct (K5o c _ Hobj) as (c' & Hc' & (Sgeom & _)).
        rewrite (deref_lookup st' c c') by (rewrite Hheap'; exact Hc').
        rewrite Sgeom.
        change (geometry (cloneGraphic (deref st2 src)))
          with (geometry (deref st2 src)).
        assert (deref st2 src = deref stB src) as ->
          by (unfold deref; rewrite Hheap2; reflexivity).
        rewrite Forall_forall in Hvalid0. specialize (Hvalid0 src Hall).
        destruct (kept_geometry st0 stB src KB Hvalid0) as [-> _].
        unfold deref. rewrite Hheap0. reflexivity.
      - exists id. split; [exact Hid|].
        unfold deref in Hattached.
        destruct (heap stB !! src) as [x|] eqn:Hx; [|discriminate].
        destruct (HobjB src x Hx) as (x' & Hx' & Sx).
        rewrite (deref_lookup st' src x' Hx').
        exact (same_shape_attached x x' id Sx Hattached). }
    right. split; [rewrite Hmap'; apply Hnonempty; exact Hne|].
    split; [exact Hsvm'|exact Hlog'].
Qed.


(** *** Selection by a rectangle *)

(** When a selection rectangle is completed, the rectangle leaves the
    draw layer and the selection mode ends. If the rectangle hits a
    graphic of the draw layer (itself apart) or of the text layer, the
    sources of the clone map are exactly the graphics hit; if it hits
    none, the clone map is the one there was. *)
Theorem window_selects_what_it_hits (st : State) (settings : DrawSettings)
    (w : ref) (wobj : Graphic) (window : Geom) :
  currentSettings st = Some settings ->
  selectionMode st = true ->
  heap st !! w = Some wobj ->
  geometry wobj = Some window ->
  Forall (fun r => r < length (heap st)) (allGraphics st) ->
  let st' := on_create measure Complete (Some w) st in
  let hit src :=
    (src ∈ drawLayer st /\ src ≠ w \/ src ∈ textLayer st)
    /\ exists gg, geometry (deref st src) = Some gg
                  /\ engine_intersects gg window = true in
  selectionMode st' = false
  /\ drawLayer st' = layer_remove w (drawLayer st)
  /\ textLayer st' = textLayer st
  /\ ((exists src, hit src) ->
      forall src, (exists c, selectionMap st' !! c = Some src) <-> hit src)
  /\ ((forall src, ~ hit src) -> selectionMap st' = selectionMap st).
Proof.
  intros Hsettings Hmode Hw Hgeom Hvalid st' hit.
  set (st1 := set_drawLayer (layer_remove w (drawLayer st)) st).
  set (selected := intersecting st1 window (drawLayer st1)
                   ++ intersecting st1 window (textLayer st1)).
  assert (forall src, src ∈ selected <-> hit src) as Hhit.
  { intros src. unfold selected, intersecting, hit.
    rewrite elem_of_app, !list_elem_of_filter.
    change (drawLayer st1) with (layer_remove w (drawLayer st)).
    change (textLayer st1) with (textLayer st).
    unfold layer_remove. rewrite list_elem_of_filter.
    unfold hitsWindow. change (deref st1 src) with (deref st src).
    destruct (geometry (deref st src)) as [gg|].
    - split.
      + intros [[Hi [Hne Hin]]|[Hi Hin]]; (split; [tauto|eauto]).
      + intros [Hwhere (gg' & [= <-] & Hi)]. tauto.
    - split.
      + intros [[Hi _]|[Hi _]]; discriminate.
      + intros [_ (gg' & Hgg & _)]. discriminate. }
  assert (st' = clearTempLabels
                  (set_selectionMode false
                     (selectByWindow measure (Some w) window st))) as Hst'.
  { unfold st', on_create. rewrite Hsettings, Hmode. cbn.
    rewrite (deref_lookup st w wobj Hw), Hgeom. reflexivity. }
  assert (selectByWindow measure (Some w) window st
          = match selected with
            | [] => st1
            | _ =>
                let st3 :=
                  foldl (fun s src => (addClone src s).2)
                    (prepareSelectionLayer true st1) selected in
                let st4 := set_svmLayer SelectionLayer st3 in
                let toEdit := default [] (selectionLayer st4) in
                let st5 :=
                  publishMeasurementsFromGraphics measure toEdit st4 in
                let sources :=
                  omap (fun clone => selectionMap st5 !! clone) toEdit in
                setSelectedGraphicIds (getGraphicIds sources st5).1
                  (getGraphicIds sources st5).2
            end) as Hsel.
  { unfold selectByWindow. fold st1. fold selected.
    destruct selected; [reflexivity|]. cbv zeta.
    destruct (getGraphicIds _ _). reflexivity. }
  assert (forall s, selectionMode (clearTempLabels (set_selectionMode false s))
                    = false
                    /\ drawLayer (clearTempLabels (set_selectionMode false s))
                       = drawLayer s
                    /\ textLayer (clearTempLabels (set_selectionMode false s))
                       = textLayer s
                    /\ selectionMap
                         (clearTempLabels (set_selectionMode false s))
                       = selectionMap s) as Hclear.
  { intros s. unfold clearTempLabels.
    destruct (tempLabels (set_selectionMode false s)); repeat split. }
  rewrite Hst', Hsel. clear Hst' Hsel. clearbody selected.
  destruct selected as [|s0 rest] eqn:Hselected.
  - destruct (Hclear st1) as (-> & -> & -> & ->).
    split; [reflexivity|]. split; [reflexivity|]. split; [reflexivity|].
    split.
    + intros [src Hsrc]. apply Hhit in Hsrc. apply elem_of_nil in Hsrc.
      contradiction.
    + reflexivity.
  - assert (s0 ∈ s0 :: rest) as Hs0 by left.
    rewrite <- Hselected in *. clear Hselected rest. cbv zeta.
    set (st2 := prepareSelectionLayer true st1).
    assert (heap st2 = heap st /\ selectionMap st2 = ∅
            /\ drawLayer st2 = drawLayer st1 /\ textLayer st2 = textLayer st)
      as (Hheap2 & Hmap2 & Hdraw2 & Htext2).
    { unfold st2, prepareSelectionLayer.
      destruct (selectionLayer st1); repeat split; reflexivity. }
    assert (Forall (fun s => s < length (heap st2)) selected) as Hsel_valid.
    { rewrite Hheap2. apply Forall_forall. intros s Hs.
      apply Hhit in Hs as [Hwhere _].
      rewrite Forall_forall in Hvalid. apply Hvalid. unfold allGraphics.
      apply elem_of_app. tauto. }
    destruct (clone_loop selected st2 Hmap2 Hsel_valid)
      as (_ & _ & Hclones & Hsur & _ & Hdraw3 & Htext3 & _).
    set (st3 := foldl (fun s src => (addClone src s).2) st2 selected) in *.
    set (st4 := set_svmLayer SelectionLayer st3).
    set (st5 := publishMeasurementsFromGraphics measure
                  (default [] (selectionLayer st4)) st4).
    set (sources := omap (fun clone => selectionMap st5 !! clone)
                      (default [] (selectionLayer st4))).
    assert (kept st4 (getGraphicIds sources st5).2) as K.
    { apply (kept_trans _ st5);
        [apply publishMeasurementsFromGraphics_kept|].
      apply getGraphicIds_kept. }
    destruct K as (Kd & Kt & _ & Km & _).
    change (drawLayer st4) with (drawLayer st3) in Kd.
    change (textLayer st4) with (textLayer st3) in Kt.
    change (selectionMap st4) with (selectionMap st3) in Km.
    destruct (Hclear (setSelectedGraphicIds (getGraphicIds sources st5).1
                        (getGraphicIds sources st5).2))
      as (-> & -> & -> & ->).
    unfold setSelectedGraphicIds.
    cbn [drawLayer textLayer selectionMap set_selectedIds_log].
    rewrite Kd, Kt, Km, Hdraw3, Htext3, Hdraw2, Htext2.
    split; [reflexivity|]. split; [reflexivity|]. split; [reflexivity|].
    split.
    + intros _ src. rewrite <- Hhit. split.
      * intros [c Hc]. apply (Hclones c src Hc).
      * apply Hsur.
    + intros Hnone. destruct (Hnone s0). apply Hhit. exact Hs0.
Qed.

End SessionProperties.

(** ** The table of graphics *)

Section TableProperties.
Import SketchTable.

(** A click with the control or meta key flips whether the clicked
    identifier is selected and leaves every other identifier as it was,
    so that a second such click restores the selection. *)
Theorem onRowClick_toggles (selectedGraphicIds : list string)
    (graphicId id : string) :
  (id ∈ onRowClick true selectedGraphicIds graphicId
   <-> (id ≠ graphicId /\ id ∈ selectedGraphicIds)
       \/ (id = graphicId /\ graphicId ∉ selectedGraphicIds))
  /\ (id ∈ onRowClick true (onRowClick true selectedGraphicIds graphicId)
             graphicId
      <-> id ∈ selectedGraphicIds).
Proof.
  assert (forall sel gid x,
            x ∈ onRowClick true sel gid
            <-> (x ≠ gid /\ x ∈ sel) \/ (x = gid /\ gid ∉ sel)) as Hflip.
  { intros sel gid x. unfold onRowClick.
    destruct (bool_decide (gid ∈ sel)) eqn:Hin.
    - apply bool_decide_eq_true in Hin. rewrite list_elem_of_filter. tauto.
    - apply bool_decide_eq_false in Hin.
      rewrite elem_of_app, list_elem_of_singleton.
      destruct (decide (x = gid)) as [->|Hne]; tauto. }
  split; [apply Hflip|].
  rewrite Hflip, !Hflip.
  destruct (decide (id = graphicId)) as [->|Hne];
    destruct (decide (graphicId ∈ selectedGraphicIds)); tauto.
Qed.

End TableProperties.

(** ** The storage service *)

Section StorageProperties.
Import Js ExportService StorageService.
Context {G : Type} `{GraphicJson G} `{Json} `{Quota}.

(** What the storage loader accepts, the importer accepts with the same
    result: a parsed value that [loadGraphics] turns into graphics is
    turned into the same graphics by [importEsriJson]. The loader is the
    stricter of the two: it gives [null] where the importer defaults. *)
Theorem loader_agrees_with_importer (parsed : value) (r : Imported G) :
  graphicsOfParsed parsed = Some r ->
  importEsriJson parsed = Returned r.
Proof.
  unfold graphicsOfParsed, importEsriJson.
  destruct (falsy parsed) eqn:Hfalsy; [discriminate|].
  destruct parsed as [| |b|n|s|items|fields]; cbn [get typeof_number negb orb];
    try discriminate.
  cbn [typeof_object negb orb get].
  destruct (default VUndefined (assoc "version" fields)) as [| |b|v|s|i|f]
    eqn:Hversion; cbn [typeof_number negb]; try discriminate.
  cbn [nullish_or].
  assert (forall x l, mappedOf x = Some l -> graphicsOf x = l) as Hmapped.
  { intros x l. destruct x; cbn; congruence. }
  destruct (strict_eq_num (VNum v) 1).
  - destruct (mappedOf (default VUndefined (assoc "draw" fields)))
      as [d|] eqn:Hd; [|discriminate].
    destruct (mappedOf (default VUndefined (assoc "labels" fields)))
      as [l|] eqn:Hl; [|discriminate].
    cbn. intros [= <-]. rewrite (Hmapped _ _ Hd), (Hmapped _ _ Hl).
    reflexivity.
  - destruct (strict_eq_num (VNum v) 2); [|discriminate]. cbn [negb].
    destruct (mappedOf (default VUndefined (assoc "draw" fields)))
      as [d|] eqn:Hd; [|discriminate].
    destruct (mappedOf (default VUndefined (assoc "labels" fields)))
      as [l|] eqn:Hl; [|discriminate].
    destruct (mappedOf (default VUndefined (assoc "text" fields)))
      as [t|] eqn:Ht; [|discriminate].
    cbn. intros [= <-].
    rewrite (Hmapped _ _ Hd), (Hmapped _ _ Hl), (Hmapped _ _ Ht).
    reflexivity.
Qed.

Lemma getItem_insert_eq (k raw : string) (s : gmap string string) :
  raw ≠ "" -> getItem k (<[k := raw]> s) = Some raw.
Proof.
  intros Hraw. unfold getItem. rewrite lookup_insert_eq.
  destruct (decide (raw = "")); [contradiction|reflexivity].
Qed.

(** Graphics that have been saved are loaded back: when the payload has
    a text that parses back to it, the store takes that text, and
    [fromJSON] undoes [toJSON], [loadGraphics] after [saveGraphics]
    returns the three collections that were saved, whatever else the
    store holds. *)
Theorem load_after_save (d l t : list G) (s : gmap string string)
    (raw : string) :
  (forall g : G, fromJSON (toJSON g) = g) ->
  stringify (exportEsriJson d l t) = Str raw ->
  raw ≠ "" ->
  parse raw = Some (exportEsriJson d l t) ->
  accepts GRAPHICS_KEY_V2 raw s = true ->
  loadGraphics (saveGraphics d l t s) = Some (mkImported d l t).
Proof.
  intros Hround Hstringify Hraw Hparse Haccepts.
  assert (saveGraphics d l t s = <[GRAPHICS_KEY_V2 := raw]> s) as ->.
  { unfold saveGraphics.
    change (VObj _) with (exportEsriJson d l t). rewrite Hstringify.
    unfold setItem. rewrite Haccepts. reflexivity. }
  unfold loadGraphics. rewrite (getItem_insert_eq _ _ _ Hraw), Hparse.
  assert (forall xs : list G, map fromJSON (map toJSON xs) = xs) as Hmap.
  { intros xs. induction xs as [|g xs IH]; simpl; [reflexivity|].
    rewrite Hround, IH. reflexivity. }
  unfold graphicsOfParsed, exportEsriJson. simpl.
  rewrite !Hmap. reflexivity.
Qed.

(** The item under the current key decides alone what is loaded: with a
    non-empty text there, the item under the old key is never read, also
    when that text does not parse or is of no supported version. *)
Theorem current_key_shadows_old_key (s s' : gmap string string)
    (raw : string) :
  s !! GRAPHICS_KEY_V2 = Some raw ->
  s' !! GRAPHICS_KEY_V2 = Some raw ->
  raw ≠ "" ->
  loadGraphics s = loadGraphics s'
  /\ (parse raw = None -> loadGraphics s = None).
Proof.
  intros Hs Hs' Hraw.
  assert (forall m : gmap string string,
            m !! GRAPHICS_KEY_V2 = Some raw ->
            loadGraphics m
            = match parse raw with
              | Some parsed => graphicsOfParsed parsed
              | None => None
              end) as Hload.
  { intros m Hm. unfold loadGraphics, getItem. rewrite Hm.
    destruct (decide (raw = "")); [contradiction|reflexivity]. }
  rewrite (Hload s Hs), (Hload s' Hs').
  split; [reflexivity|]. intros ->. reflexivity.
Qed.

(** After [clearAll] nothing is loaded: neither settings nor graphics,
    under the current key or under the old one. *)
Theorem cleared_store_loads_nothing (s : gmap string string) :
  loadGraphics (clearAll s) = None /\ loadSettings (clearAll s) = VNull.
Proof.
  unfold loadGraphics, loadSettings, getItem, clearAll.
  rewrite lookup_delete_eq.
  rewrite (lookup_delete_ne _ GRAPHICS_KEY_V2 GRAPHICS_KEY_V1)
    by discriminate.
  rewrite lookup_delete_eq.
  rewrite (lookup_delete_ne _ GRAPHICS_KEY_V2 SETTINGS_KEY) by discriminate.
  rewrite (lookup_delete_ne _ GRAPHICS_KEY_V1 SETTINGS_KEY) by discriminate.
  rewrite lookup_delete_eq. split; reflexivity.
Qed.

(** Settings that have been saved are loaded back, under the same
    conditions on the text and on the store. *)
Theorem settings_load_after_save (settings : value)
    (s : gmap string string) (raw : string) :
  stringify settings = Str raw ->
  raw ≠ "" ->
  parse raw = Some settings ->
  accepts SETTINGS_KEY raw s = true ->
  loadSettings (saveSettings settings s) = settings
  /\ loadGraphics (saveSettings settings s) = loadGraphics s.
Proof.
  intros Hstringify Hraw Hparse Haccepts.
  assert (saveSettings settings s = <[SETTINGS_KEY := raw]> s) as ->.
  { unfold saveSettings. rewrite Hstringify. unfold setItem.
    rewrite Haccepts. reflexivity. }
  split.
  - unfold loadSettings. rewrite (getItem_insert_eq _ _ _ Hraw), Hparse.
    reflexivity.
  - unfold loadGraphics, getItem.
    rewrite !lookup_insert_ne by discriminate. reflexivity.
Qed.

End StorageProperties.

(** ** Colours *)

Section ColorProperties.
Import Js Colors.
Local Open Scope Z_scope.

Lemma low_byte_range (x : Z) : 0 <= Z.land x 255 <= 255.
Proof.
  assert (Z.land x 255 = x mod 2 ^ 8) as ->
    by (apply (Z.land_ones x 8); lia).
  pose proof (Z.mod_pos_bound x (2 ^ 8)). lia.
Qed.

(** Whatever the text, [hexToRgbArray] returns three channels between 0
    and 255 and the opacity as it was given: a text that is no colour is
    not refused. *)
Theorem channels_in_range (hex : string) (alpha : Q) :
  let '(r, g, b, a) := hexToRgbArray hex alpha in
  0 <= r <= 255 /\ 0 <= g <= 255 /\ 0 <= b <= 255 /\ a = alpha.
Proof.
  unfold hexToRgbArray. cbv zeta.
  repeat split; apply low_byte_range.
Qed.

Lemma digit16_facts (c : ascii) (d : Z) :
  digit16 c = Some d ->
  0 <= d < 16
  /\ isWhiteSpace c = false
  /\ (code c =? 35) = false /\ (code c =? 45) = false
  /\ (code c =? 43) = false
  /\ (code c =? 120) = false /\ (code c =? 88) = false.
Proof.
  unfold digit16, isWhiteSpace.
  assert (0 <= code c < 256) as Hc.
  { unfold code. pose proof (N_ascii_bounded c). lia. }
  destruct ((48 <=? code c) && (code c <=? 57)) eqn:E1.
  - intros [= <-]. lia.
  - destruct ((97 <=? code c) && (code c <=? 102)) eqn:E2.
    + intros [= <-]. lia.
    + destruct ((65 <=? code c) && (code c <=? 70)) eqn:E3.
      * intros [= <-]. lia.
      * discriminate.
Qed.


Lemma nearestNumber_exact (n : Z) :
  0 <= n < 2 ^ 53 -> nearestNumber n = Some n.
Proof.
  intros Hn. unfold nearestNumber. cbv zeta.
  assert (Z.log2 n + 1 <= 53) as Hbits.
  { destruct (decide (n = 0)) as [->|Hne]; [cbn; lia|].
    assert (Z.log2 n < 53) by (apply Z.log2_lt_pow2; lia). lia. }
  apply Z.leb_le in Hbits. rewrite Hbits. reflexivity.
Qed.

Lemma toInt32_small (n : Z) :
  0 <= n < 2 ^ 31 -> toInt32 (Fin (inject_Z n)) = n.
Proof.
  intros Hn. unfold toInt32, inject_Z. cbn [Qnum Qden].
  rewrite Z.quot_1_r, Z.mod_small by lia.
  destruct (2 ^ 31 <=? n) eqn:E; [apply Z.leb_le in E; lia|reflexivity].
Qed.

(** [parseInt] on six digits. *)
Lemma parseInt16_six (c1 c2 c3 c4 c5 c6 : ascii) (d1 d2 d3 d4 d5 d6 : Z) :
  digit16 c1 = Some d1 -> digit16 c2 = Some d2 -> digit16 c3 = Some d3 ->
  digit16 c4 = Some d4 -> digit16 c5 = Some d5 -> digit16 c6 = Some d6 ->
  toInt32
    (parseInt16
       (String c1 (String c2 (String c3 (String c4 (String c5
          (String c6 EmptyString)))))))
  = 1048576 * d1 + 65536 * d2 + 4096 * d3 + 256 * d4 + 16 * d5 + d6.
Proof.
  intros H1 H2 H3 H4 H5 H6.
  destruct (digit16_facts c1 d1 H1) as (B1 & W1 & _ & M1 & P1 & _).
  destruct (digit16_facts c2 d2 H2) as (B2 & _ & _ & _ & _ & X2 & X2').
  destruct (digit16_facts c3 d3 H3) as (B3 & _).
  destruct (digit16_facts c4 d4 H4) as (B4 & _).
  destruct (digit16_facts c5 d5 H5) as (B5 & _).
  destruct (digit16_facts c6 d6 H6) as (B6 & _).
  unfold parseInt16. cbn [trimStart]. rewrite W1, M1, P1, X2, X2'.
  rewrite andb_false_r. cbn [digits]. rewrite H1, H2, H3, H4, H5, H6.
  cbn [digits].
  rewrite nearestNumber_exact by lia.
  rewrite toInt32_small by lia. lia.
Qed.

Lemma channels_of_six (d1 d2 d3 d4 d5 d6 : Z) :
  0 <= d1 < 16 -> 0 <= d2 < 16 -> 0 <= d3 < 16 ->
  0 <= d4 < 16 -> 0 <= d5 < 16 -> 0 <= d6 < 16 ->
  let n := 1048576 * d1 + 65536 * d2 + 4096 * d3 + 256 * d4 + 16 * d5 + d6 in
  Z.land (Z.shiftr n 16) 255 = 16 * d1 + d2
  /\ Z.land (Z.shiftr n 8) 255 = 16 * d3 + d4
  /\ Z.land n 255 = 16 * d5 + d6.
Proof.
  intros B1 B2 B3 B4 B5 B6 n.
  assert (forall x, Z.land x 255 = x mod 256) as Hland
    by (intros x; apply (Z.land_ones x 8); lia).
  rewrite !Hland, !Z.shiftr_div_pow2 by lia.
  change (2 ^ 16) with 65536. change (2 ^ 8) with 256.
  subst n. repeat split; Z.div_mod_to_equations; lia.
Qed.

(** A colour written with six digits, with or without the leading [#],
    gives the value of each pair of digits as its channel. *)
Theorem six_digit_colour (hash : bool) (c1 c2 c3 c4 c5 c6 : ascii)
    (d1 d2 d3 d4 d5 d6 : Z) (alpha : Q) :
  digit16 c1 = Some d1 -> digit16 c2 = Some d2 -> digit16 c3 = Some d3 ->
  digit16 c4 = Some d4 -> digit16 c5 = Some d5 -> digit16 c6 = Some d6 ->
  let digits6 :=
    String c1 (String c2 (String c3 (String c4 (String c5
      (String c6 EmptyString))))) in
  hexToRgbArray (if hash then String "#" digits6 else digits6) alpha
  = (16 * d1 + d2, 16 * d3 + d4, 16 * d5 + d6, alpha).
Proof.
  intros H1 H2 H3 H4 H5 H6 digits6.
  destruct (digit16_facts c1 d1 H1) as (B1 & _ & N1 & _).
  destruct (digit16_facts c2 d2 H2) as (B2 & _ & N2 & _).
  destruct (digit16_facts c3 d3 H3) as (B3 & _ & N3 & _).
  destruct (digit16_facts c4 d4 H4) as (B4 & _ & N4 & _).
  destruct (digit16_facts c5 d5 H5) as (B5 & _ & N5 & _).
  destruct (digit16_facts c6 d6 H6) as (B6 & _ & N6 & _).
  assert (removeFirstHash (if hash then String "#" digits6 else digits6)
          = digits6) as Hh.
  { destruct hash; [reflexivity|]. unfold digits6. cbn [removeFirstHash].
    rewrite N1, N2, N3, N4, N5, N6. reflexivity. }
  unfold hexToRgbArray. rewrite Hh. cbv zeta.
  change (String.length digits6) with 6%nat.
  destruct (decide (6%nat = 3%nat)) as [E|_]; [discriminate|].
  unfold digits6. rewrite (parseInt16_six _ _ _ _ _ _ _ _ _ _ _ _
                             H1 H2 H3 H4 H5 H6).
  destruct (channels_of_six d1 d2 d3 d4 d5 d6 B1 B2 B3 B4 B5 B6)
    as (-> & -> & ->).
  reflexivity.
Qed.

(** The short form with three digits stands for the colour in which
    every digit is written twice: each channel is 17 times its digit. *)
Theorem three_digit_colour (hash : bool) (c1 c2 c3 : ascii) (d1 d2 d3 : Z)
    (alpha : Q) :
  digit16 c1 = Some d1 -> digit16 c2 = Some d2 -> digit16 c3 = Some d3 ->
  let digits3 := String c1 (String c2 (String c3 EmptyString)) in
  hexToRgbArray (if hash then String "#" digits3 else digits3) alpha
  = (17 * d1, 17 * d2, 17 * d3, alpha).
Proof.
  intros H1 H2 H3 digits3.
  destruct (digit16_facts c1 d1 H1) as (B1 & _ & N1 & _).
  destruct (digit16_facts c2 d2 H2) as (B2 & _ & N2 & _).
  destruct (digit16_facts c3 d3 H3) as (B3 & _ & N3 & _).
  assert (removeFirstHash (if hash then String "#" digits3 else digits3)
          = digits3) as Hh.
  { destruct hash; [reflexivity|]. unfold digits3. cbn [removeFirstHash].
    rewrite N1, N2, N3. reflexivity. }
  unfold hexToRgbArray. rewrite Hh. cbv zeta.
  change (String.length digits3) with 3%nat.
  destruct (decide (3%nat = 3%nat)) as [_|E]; [|contradiction].
  unfold digits3. cbn [doubled].
  rewrite (parseInt16_six _ _ _ _ _ _ _ _ _ _ _ _ H1 H1 H2 H2 H3 H3).
  destruct (channels_of_six d1 d1 d2 d2 d3 d3 B1 B1 B2 B2 B3 B3)
    as (-> & -> & ->).
  replace (16 * d1 + d1) with (17 * d1) by lia.
  replace (16 * d2 + d2) with (17 * d2) by lia.
  replace (16 * d3 + d3) with (17 * d3) by lia.
  reflexivity.
Qed.

(** A text that, its leading [#] apart, does not begin with a digit, a
    sign or white space (a colour name, say) is no number for [parseInt],
    and comes out as black. *)
Theorem no_colour_is_black (hash : bool) (c : ascii) (rest : string)
    (alpha : Q) :
  digit16 c = None ->
  isWhiteSpace c = false ->
  (code c =? 35) = false -> (code c =? 45) = false ->
  (code c =? 43) = false ->
  hexToRgbArray (if hash then String "#" (String c rest) else String c rest)
    alpha
  = (0, 0, 0, alpha).
Proof.
  intros Hd Hw Hhash Hminus Hplus.
  assert (forall tail, parseInt16 (String c tail) = NaN) as Hnan.
  { intros tail. unfold parseInt16. cbn [trimStart].
    rewrite Hw, Hminus, Hplus.
    assert ((code c =? 48) = false) as Hzero.
    { unfold digit16 in Hd.
      destruct ((48 <=? code c) && (code c <=? 57)) eqn:E; [discriminate|].
      destruct (code c =? 48) eqn:E0; [|reflexivity].
      apply Z.eqb_eq in E0. rewrite E0 in E. discriminate. }
    destruct tail as [|x tail']; [|rewrite Hzero; cbn [andb]];
      cbn [digits]; rewrite Hd; reflexivity. }
  assert (exists tail,
            removeFirstHash
              (if hash then String "#" (String c rest) else String c rest)
            = String c tail) as [tail Htail].
  { destruct hash.
    - exists rest. reflexivity.
    - exists (removeFirstHash rest). cbn [removeFirstHash].
      rewrite Hhash. reflexivity. }
  unfold hexToRgbArray. rewrite Htail. cbv zeta.
  destruct (decide (String.length (String c tail) = 3%nat));
    cbn [doubled]; rewrite Hnan; reflexivity.
Qed.

End ColorProperties.

(** ** Labels replaced, rows measured *)

Section RelabelProperties.
Import Js Geometry MeasurementService SketchService SketchOperations.
Context `{GeometryEngine} `{Accessors} `{JsMath} `{ViewProjector} `{Runtime}.
Variable measure : Units.

Lemma elem_of_layer_remove_each (r : nat) (gs layer : list nat) :
  r ∈ layer_remove_each gs layer <-> r ∈ layer /\ r ∉ gs.
Proof.
  revert layer. induction gs as [|g gs IH]; intros layer.
  - cbn. split; [intros Hr; split; [exact Hr|apply not_elem_of_nil]|tauto].
  - change (layer_remove_each (g :: gs) layer)
      with (layer_remove_each gs (layer_remove g layer)).
    rewrite IH. unfold layer_remove. rewrite list_elem_of_filter.
    rewrite not_elem_of_cons. tauto.
Qed.

(** When the update of a shape edited in place completes, the labels
    that the index held for it leave the label layer and the index holds
    the labels made anew for its geometry, all of them new objects on the
    layer; the labels of other shapes stay (temporary labels apart). The
    labels of a shape do not pile up. *)
Theorem update_complete_replaces_labels (st : State)
    (settings : DrawSettings) (g : ref) (gobj : Graphic) (geom : Geom)
    (id : string) (old : list ref) :
  currentSettings st = Some settings ->
  editingSelection st = false ->
  heap st !! g = Some gobj ->
  geometry gobj = Some geom ->
  attached_id gobj = Some id ->
  labelIndex st !! id = Some old ->
  Forall (fun r => r < length (heap st)) old ->
  let st' := on_update measure Complete [g] st in
  let made := completedLabels measure geom settings in
  let refs := seq (length (heap st)) (length made) in
  labelIndex st' = <[id := refs]> (labelIndex st)
  /\ drop (length (heap st)) (heap st') = made
  /\ (forall r, r ∈ old -> r ∉ labelLayer st')
  /\ (forall r, r ∈ refs -> r ∈ labelLayer st')
  /\ (forall r, r ∈ labelLayer st -> r ∉ old -> r ∉ tempLabels st ->
        r ∈ labelLayer st')
  /\ geometry (deref st' g) = Some geom.
Proof.
  intros Hsettings Hedit Hg Hgeom Hid Hold Hvalid st' made refs.
  set (st2 := clearTempLabels (set_isEditing false st)).
  assert (heap st2 = heap st) as Hheap2
    by exact (clearTempLabels_heap (set_isEditing false st)).
  assert (labelIndex st2 = labelIndex st
          /\ forall r, r ∈ labelLayer st2
               <-> r ∈ labelLayer st /\ r ∉ tempLabels st)
    as (Hindex2 & Hlayer2).
  { unfold st2, clearTempLabels.
    change (tempLabels (set_isEditing false st)) with (tempLabels st).
    destruct (tempLabels st) as [|t ts] eqn:Htemps.
    - split; [reflexivity|]. intros r. cbn.
      split; [intros Hr; split; [exact Hr|apply not_elem_of_nil]|tauto].
    - split; [reflexivity|]. intros r. cbn [labelLayer set_tempLabels
        set_labelLayer set_isEditing].
      apply elem_of_layer_remove_each. }
  assert (st' = setSelectedGraphicIds []
                  (persistLabels measure g geom settings st2)) as Hst'.
  { unfold st', on_update. rewrite Hsettings.
    change (editingSelection (set_isEditing false st))
      with (editingSelection st).
    rewrite Hedit. fold st2. cbn [foldl].
    rewrite (deref_lookup st2 g gobj) by (rewrite Hheap2; exact Hg).
    rewrite Hgeom. reflexivity. }
  assert (heap st2 !! g = Some gobj) as Hg2 by (rewrite Hheap2; exact Hg).
  destruct (persistLabels_shape measure g gobj geom settings st2 Hg2)
    as (id' & gobj' & Hsame & Hid' & Hheap & Hindex & Hlayer & _).
  assert (id' = id) as ->.
  { pose proof (same_shape_attached gobj gobj' id Hsame Hid). congruence. }
  rewrite Hheap2, Hindex2 in *. rewrite Hold in Hlayer.
  change (default [] (Some old)) with old in Hlayer.
  fold made in Hheap, Hindex, Hlayer. fold refs in Hindex, Hlayer.
  assert (g < length (heap st)) as Hlt by (apply lookup_lt_is_Some; eauto).
  assert (heap st' = heap (persistLabels measure g geom settings st2)
          /\ labelIndex st'
             = labelIndex (persistLabels measure g geom settings st2)
          /\ labelLayer st'
             = labelLayer (persistLabels measure g geom settings st2))
    as (Hh' & Hi' & Hl') by (rewrite Hst'; repeat split).
  rewrite Hh', Hi', Hl'. unfold deref. rewrite Hh', Hheap, Hindex, Hlayer.
  split; [reflexivity|].
  split.
  { rewrite <- (length_insert (heap st) g gobj'), drop_app_length.
    reflexivity. }
  split.
  { intros r Hr Hin. apply elem_of_app in Hin as [Hin|Hin].
    - apply elem_of_layer_remove_each in Hin as [_ Hnot]. contradiction.
    - rewrite Forall_forall in Hvalid. specialize (Hvalid r Hr).
      unfold refs in Hin. apply elem_of_seq in Hin. lia. }
  split; [intros r Hr; apply elem_of_app; right; exact Hr|].
  split.
  { intros r Hr Hnot Htemp. apply elem_of_app. left.
    apply elem_of_layer_remove_each. split; [|exact Hnot].
    apply Hlayer2. split; assumption. }
  rewrite lookup_app_l by (rewrite length_insert; exact Hlt).
  rewrite list_lookup_insert_eq by exact Hlt. cbn.
  destruct Hsame as (-> & _). exact Hgeom.
Qed.

Lemma getGraphicId_geometry (x r : ref) (st : State) :
  geometry (deref (getGraphicId x st).2 r) = geometry (deref st r).
Proof.
  unfold getGraphicId. destruct (attached_id (deref st x)); [reflexivity|].
  unfold deref. cbn. destruct (decide (x = r)) as [->|Hne].
  - rewrite list_lookup_alter_eq. destruct (heap st !! r); reflexivity.
  - rewrite list_lookup_alter_ne by exact Hne. reflexivity.
Qed.

Lemma getGraphicId_selectionMap (x : ref) (st : State) :
  selectionMap (getGraphicId x st).2 = selectionMap st.
Proof.
  unfold getGraphicId. destruct (attached_id (deref st x)); reflexivity.
Qed.

Lemma getGraphicId_attributes (x r : ref) (st : State) :
  attributes (deref (getGraphicId x st).2 r) = attributes (deref st r).
Proof.
  unfold getGraphicId. destruct (attached_id (deref st x)); [reflexivity|].
  unfold deref. cbn. destruct (decide (x = r)) as [->|Hne].
  - rewrite list_lookup_alter_eq. destruct (heap st !! r); reflexivity.
  - rewrite list_lookup_alter_ne by exact Hne. reflexivity.
Qed.

(** One turn of the loop of [buildMeasurementsForGraphics]: the entry
    due to the graphic is appended, and the geometries, the attributes
    and the clone map are as before. *)
Lemma measureGraphic_entry (settings : DrawSettings) (g : ref)
    (out : list SelectionMeasurement) (st : State) :
  exists out1 st1,
    measureGraphic measure settings g (out, st) = (out1, st1)
    /\ (forall r, geometry (deref st1 r) = geometry (deref st r))
    /\ (forall r, attributes (deref st1 r) = attributes (deref st r))
    /\ selectionMap st1 = selectionMap st
    /\ map entryShape out1
       = map entryShape out ++ option_list (entryFor st g).
Proof.
  unfold measureGraphic, entryFor, measuredAs, toolOf, measuredSource.
  destruct (geometry (deref st g)) as [[p|pl|pg]|].
  - exists out, st. rewrite app_nil_r. auto.
  - pose proof (fun r => getGraphicId_geometry
                           (default g (selectionMap st !! g)) r st) as Hgeo.
    pose proof (fun r => getGraphicId_attributes
                           (default g (selectionMap st !! g)) r st) as Hattr.
    pose proof (getGraphicId_selectionMap
                  (default g (selectionMap st !! g)) st) as Hmap.
    destruct (getGraphicId (default g (selectionMap st !! g)) st)
      as [id st1]. cbn [snd] in Hgeo, Hattr, Hmap.
    eexists _, st1. split; [reflexivity|]. split; [exact Hgeo|].
    split; [exact Hattr|]. split; [exact Hmap|].
    rewrite map_app, Hattr. reflexivity.
  - pose proof (fun r => getGraphicId_geometry
                           (default g (selectionMap st !! g)) r st) as Hgeo.
    pose proof (fun r => getGraphicId_attributes
                           (default g (selectionMap st !! g)) r st) as Hattr.
    pose proof (getGraphicId_selectionMap
                  (default g (selectionMap st !! g)) st) as Hmap.
    destruct (getGraphicId (default g (selectionMap st !! g)) st)
      as [id st1]. cbn [snd] in Hgeo, Hattr, Hmap.
    eexists _, st1. split; [reflexivity|]. split; [exact Hgeo|].
    split; [exact Hattr|]. split; [exact Hmap|].
    rewrite map_app, Hattr. cbn [map option_list app].
    f_equal. f_equal. unfold entryShape. cbn [m_geometryType m_tool m_rows].
    destruct (attributes (deref st (default g (selectionMap st !! g)))
              ≫= attr_tool) as [[]|]; reflexivity.
  - exists out, st. rewrite app_nil_r. auto.
Qed.

Lemma measure_loop (settings : DrawSettings) (gs : list ref)
    (out : list SelectionMeasurement) (st : State) :
  map entryShape
    (foldl (fun acc g => measureGraphic measure settings g acc)
       (out, st) gs).1
  = map entryShape out ++ omap (entryFor st) gs.
Proof.
  revert out st. induction gs as [|g gs IH]; intros out st; cbn [foldl].
  - cbn. rewrite app_nil_r. reflexivity.
  - destruct (measureGraphic_entry settings g out st)
      as (out1 & st1 & -> & Hgeo & Hattr & Hmap & Hentry).
    rewrite IH, Hentry, <- app_assoc. f_equal.
    assert (forall x, entryFor st1 x = entryFor st x) as Hsame.
    { intros x. unfold entryFor, measuredAs, toolOf, measuredSource.
      rewrite Hgeo, Hmap, Hattr. reflexivity. }
    assert (omap (entryFor st1) gs = omap (entryFor st) gs) as ->.
    { clear -Hsame. induction gs as [|x xs IHx]; [reflexivity|].
      cbn. rewrite IHx, Hsame. reflexivity. }
    cbn. destruct (entryFor st g); reflexivity.
Qed.

(** The measurement table gets one entry for every polyline and polygon
    of the graphics it is built for, in their order, and none for a point
    or for a graphic without geometry. The entry has the kind of the
    graphic's own geometry and the tool of its source (of the graphic a
    clone stands for, of the graphic itself when it is no clone). A
    polyline has the rows Total length and Segments; a polygon has Area
    and Perimeter, and Radius as a third row exactly when its source
    carries the circle tool. *)
Theorem measurement_rows (gs : list ref) (settings : DrawSettings)
    (st : State) :
  map entryShape (buildMeasurementsForGraphics measure gs settings st).1
  = omap (entryFor st) gs.
Proof.
  unfold buildMeasurementsForGraphics.
  rewrite (measure_loop settings gs [] st). reflexivity.
Qed.

End RelabelProperties.

(** ** The properties at work on the stand-ins *)

Lemma labels_without_projection_witness :
  let Engine := Samples.constEngine (MeasurementService.Num (Js.Fin 5)) in
  let Shape := Samples.vertexAccessors in
  let Math := Samples.fixedBearing 0 in
  let View := Fixtures.blindView in
  SketchService.offsetPoint (Geometry.mkPoint 1 2 3857) 0 (-14)
  = Geometry.mkPoint 1 2 3857.
Proof.
  intros Engine Shape Math View.
  apply (labels_without_projection (H := Engine) (H0 := Shape)
           (H1 := Math) (H2 := View) MeasurementService.defaultUnits
           (Geometry.GPolyline Samples.twoEdges)
           (Samples.sampleSettings SketchService.ToolPolyline
              true true false true)).
  intros p. left. reflexivity.
Defined.

Lemma creation_complete_persists_witness :
  let Engine := Samples.constEngine (MeasurementService.Num (Js.Fin 5)) in
  let Shape := Samples.vertexAccessors in
  let Math := Samples.fixedBearing 0 in
  let View := Samples.flatView in
  let Clock := Samples.tickingRuntime in
  let st' :=
    SketchService.on_create MeasurementService.defaultUnits
      SketchService.Complete (Some 0) Samples.sketched in
  exists id,
    SketchService.attached_id (SketchService.deref st' 0) = Some id
    /\ SketchService.labelIndex st' !! id = Some [2; 3]
    /\ SketchService.tempLabels st' = [].
Proof.
  intros Engine Shape Math View Clock st'.
  assert (SketchService.currentSettings Samples.sketched
          = Some (Samples.sampleSettings SketchService.ToolPolygon
                    false true false false)) as Hsettings
    by (vm_compute; reflexivity).
  assert (SketchService.selectionMode Samples.sketched = false) as Hmode
    by (vm_compute; reflexivity).
  assert (SketchService.heap Samples.sketched !! 0
          = Some (SketchService.mkGraphic
                    (Some (Geometry.GPolygon Samples.triangle))
                    (Some SketchService.SShape) None None)) as Hg
    by (vm_compute; reflexivity).
  destruct (creation_complete_persists (H := Engine) (H0 := Shape)
              (H1 := Math) (H2 := View) (H3 := Clock)
              MeasurementService.defaultUnits Samples.sketched _ 0 _
              (Geometry.GPolygon Samples.triangle) Hsettings Hmode Hg
              eq_refl)
    as (id & Hid & Hindex & _ & _ & _ & _ & Htemp & _).
  exists id. split; [exact Hid|]. split; [|exact Htemp].
  unfold st'. rewrite Hindex. vm_compute. reflexivity.
Defined.

Lemma reflow_rebuilds_index_witness :
  let Engine := Samples.constEngine (MeasurementService.Num (Js.Fin 5)) in
  let Shape := Samples.vertexAccessors in
  let Math := Samples.fixedBearing 0 in
  let View := Samples.flatView in
  let Clock := Samples.tickingRuntime in
  let st' :=
    SketchOperations.reflowAllLabels MeasurementService.defaultUnits
      Fixtures.labelledTriangle in
  SketchService.drawLayer st' = [0; 1]
  /\ exists id refs,
       SketchService.attached_id (SketchService.deref st' 1) = Some id
       /\ SketchService.labelIndex st' !! id = Some refs.
Proof.
  intros Engine Shape Math View Clock st'.
  assert (SketchService.currentSettings Fixtures.labelledTriangle
          = Some (Samples.sampleSettings SketchService.ToolPolygon
                    false true false false)) as Hsettings
    by (vm_compute; reflexivity).
  assert (SketchService.drawLayer Fixtures.labelledTriangle = [0; 1])
    as Hdraw by (vm_compute; reflexivity).
  assert (length (SketchService.heap Fixtures.labelledTriangle) = 4)
    as Hlen by (vm_compute; reflexivity).
  assert (Forall (fun g => g < length (SketchService.heap
                                         Fixtures.labelledTriangle))
            (SketchService.drawLayer Fixtures.labelledTriangle)) as Hvalid.
  { rewrite Hdraw, Hlen. repeat constructor. }
  destruct (reflow_rebuilds_index (H := Engine) (H0 := Shape)
              (H1 := Math) (H2 := View) (H3 := Clock)
              MeasurementService.defaultUnits Fixtures.labelledTriangle _
              Hsettings Hvalid)
    as (Hd & _ & _ & Hshapes & _).
  split; [unfold st'; rewrite Hd; exact Hdraw|].
  apply (Hshapes 1
           (SketchService.mkGraphic
              (Some (Geometry.GPolygon Samples.windowRectangle))
              (Some SketchService.SShape) None None)
           (Geometry.GPolygon Samples.windowRectangle)).
  - rewrite Hdraw. right. left.
  - vm_compute. reflexivity.
  - reflexivity.
Defined.

Lemma clearAll_then_reflow_witness :
  let Engine := Samples.constEngine (MeasurementService.Num (Js.Fin 5)) in
  let Shape := Samples.vertexAccessors in
  let Math := Samples.fixedBearing 0 in
  let View := Samples.flatView in
  let Clock := Samples.tickingRuntime in
  SketchService.labelIndex
    (SketchOperations.clearAll Fixtures.labelledTriangle).1
  = SketchService.labelIndex Fixtures.labelledTriangle
  /\ SketchService.labelIndex
       (SketchOperations.reflowAllLabels MeasurementService.defaultUnits
          (SketchOperations.clearAll Fixtures.labelledTriangle).1)
     = ∅.
Proof.
  intros Engine Shape Math View Clock.
  assert (SketchService.currentSettings Fixtures.labelledTriangle
          = Some (Samples.sampleSettings SketchService.ToolPolygon
                    false true false false)) as Hsettings
    by (vm_compute; reflexivity).
  destruct (clearAll_then_reflow (H := Engine) (H0 := Shape)
              (H1 := Math) (H2 := View) (H3 := Clock)
              MeasurementService.defaultUnits Fixtures.labelledTriangle _
              Hsettings)
    as (Hkept & _ & Hempty & _).
  split; [exact Hkept|exact Hempty].
Defined.

Lemma text_tool_places_once_witness :
  let Engine := Samples.constEngine (MeasurementService.Num (Js.Fin 5)) in
  let Shape := Samples.vertexAccessors in
  let Math := Samples.fixedBearing 0 in
  let Clock := Samples.tickingRuntime in
  let waiting :=
    (SketchOperations.startDraw Fixtures.textSettings
       Fixtures.labelledTriangle).1 in
  let placed :=
    SketchOperations.placeText Fixtures.textSettings 3857 (7, 9)%Q waiting in
  SketchService.on_click MeasurementService.defaultUnits (Some 0) waiting
  = waiting
  /\ SketchService.textClickHandler placed.1 = false
  /\ placed.2
     = SketchOperations.allGraphics Fixtures.labelledTriangle
       ++ [length (SketchService.heap Fixtures.labelledTriangle)].
Proof.
  intros Engine Shape Math Clock waiting placed.
  destruct (text_tool_places_once (H := Engine) (H0 := Shape)
              (H1 := Math) (H3 := Clock)
              MeasurementService.defaultUnits Fixtures.textSettings
              Fixtures.labelledTriangle 3857 (7, 9)%Q (Some 0) eq_refl)
    as (_ & Hclick & Hhandler & _ & Hemitted & _).
  split; [exact Hclick|]. split; [exact Hhandler|exact Hemitted].
Defined.

Lemma selectGraphics_opens_session_witness :
  let Engine := Samples.constEngine (MeasurementService.Num (Js.Fin 5)) in
  let Shape := Samples.vertexAccessors in
  let Math := Samples.fixedBearing 0 in
  let View := Samples.flatView in
  let Clock := Samples.tickingRuntime in
  let st' :=
    SketchOperations.selectGraphics MeasurementService.defaultUnits
      ["g-1700000000000-k3x9qa"; "gone"] [] Fixtures.labelledTriangle in
  SketchService.session_ok st'
  /\ SketchService.drawLayer st' = [0; 1]
  /\ forall c src,
       SketchService.selectionMap st' !! c = Some src ->
       src ∈ [0; 1] /\ 4 <= c.
Proof.
  intros Engine Shape Math View Clock st'.
  assert (SketchOperations.allGraphics Fixtures.labelledTriangle = [0; 1])
    as Hall by (vm_compute; reflexivity).
  assert (SketchService.drawLayer Fixtures.labelledTriangle = [0; 1])
    as Hdraw by (vm_compute; reflexivity).
  assert (length (SketchService.heap Fixtures.labelledTriangle) = 4)
    as Hlen by (vm_compute; reflexivity).
  assert (Forall
            (fun r =>
               r < length (SketchService.heap
                             (SketchService.run
                                MeasurementService.defaultUnits []
                                Fixtures.labelledTriangle)))
            (SketchOperations.allGraphics
               (SketchService.run MeasurementService.defaultUnits []
                  Fixtures.labelledTriangle))) as Hvalid.
  { change (SketchService.run MeasurementService.defaultUnits []
              Fixtures.labelledTriangle) with Fixtures.labelledTriangle.
    rewrite Hall, Hlen. repeat constructor. }
  destruct (selectGraphics_opens_session (H := Engine) (H0 := Shape)
              (H1 := Math) (H2 := View) (H3 := Clock)
              MeasurementService.defaultUnits
              ["g-1700000000000-k3x9qa"; "gone"] []
              Fixtures.labelledTriangle Hvalid)
    as (Hok & Hd & _ & _ & _ & Hclones & _).
  change (SketchService.run MeasurementService.defaultUnits []
            Fixtures.labelledTriangle) with Fixtures.labelledTriangle
    in Hd, Hclones.
  split; [exact Hok|]. split; [unfold st'; rewrite Hd; exact Hdraw|].
  intros c src Hc. destruct (Hclones c src Hc) as (Hin & Hge & _).
  rewrite Hall in Hin. rewrite Hlen in Hge. split; assumption.
Defined.

Lemma window_selects_what_it_hits_witness :
  let Engine := Samples.constEngine (MeasurementService.Num (Js.Fin 5)) in
  let Shape := Samples.vertexAccessors in
  let Math := Samples.fixedBearing 0 in
  let View := Samples.flatView in
  let Clock := Samples.tickingRuntime in
  let st' :=
    SketchService.on_create MeasurementService.defaultUnits
      SketchService.Complete (Some 1) Fixtures.awaitingWindow in
  SketchService.selectionMode st' = false
  /\ SketchService.drawLayer st' = [0]
  /\ exists c, SketchService.selectionMap st' !! c = Some 0.
Proof.
  intros Engine Shape Math View Clock st'.
  assert (SketchService.currentSettings Fixtures.awaitingWindow
          = Some (Samples.sampleSettings SketchService.ToolPolygon
                    false true false false)) as Hsettings
    by (vm_compute; reflexivity).
  assert (SketchService.selectionMode Fixtures.awaitingWindow = true)
    as Hmode by (vm_compute; reflexivity).
  assert (SketchService.heap Fixtures.awaitingWindow !! 1
          = Some (SketchService.mkGraphic
                    (Some (Geometry.GPolygon Samples.windowRectangle))
                    (Some SketchService.SShape) None None)) as Hw
    by (vm_compute; reflexivity).
  assert (SketchOperations.allGraphics Fixtures.awaitingWindow = [0; 1])
    as Hall by (vm_compute; reflexivity).
  assert (SketchService.drawLayer Fixtures.awaitingWindow = [0; 1])
    as Hdraw by (vm_compute; reflexivity).
  assert (length (SketchService.heap Fixtures.awaitingWindow) = 4)
    as Hlen by (vm_compute; reflexivity).
  assert (Forall
            (fun r => r < length (SketchService.heap Fixtures.awaitingWindow))
            (SketchOperations.allGraphics Fixtures.awaitingWindow))
    as Hvalid by (rewrite Hall, Hlen; repeat constructor).
  destruct (window_selects_what_it_hits (H := Engine) (H0 := Shape)
              (H1 := Math) (H2 := View) (H3 := Clock)
              MeasurementService.defaultUnits Fixtures.awaitingWindow _ 1 _
              (Geometry.GPolygon Samples.windowRectangle)
              Hsettings Hmode Hw eq_refl Hvalid)
    as (Hoff & Hd & _ & Hsources & _).
  assert ((0 ∈ SketchService.drawLayer Fixtures.awaitingWindow /\ 0 ≠ 1
           \/ 0 ∈ SketchService.textLayer Fixtures.awaitingWindow)
          /\ exists gg,
               SketchService.geometry
                 (SketchService.deref Fixtures.awaitingWindow 0) = Some gg
               /\ MeasurementService.engine_intersects gg
                    (Geometry.GPolygon Samples.windowRectangle) = true)
    as Hhit.
  { split.
    - left. rewrite Hdraw. split; [left|discriminate].
    - exists (Geometry.GPolygon Samples.triangle).
      split; vm_compute; reflexivity. }
  split; [exact Hoff|]. split.
  - unfold st'. rewrite Hd, Hdraw. vm_compute. reflexivity.
  - apply (Hsources (ex_intro _ 0 Hhit) 0). exact Hhit.
Defined.

Lemma update_complete_replaces_labels_witness :
  let Engine := Samples.constEngine (MeasurementService.Num (Js.Fin 5)) in
  let Shape := Samples.vertexAccessors in
  let Math := Samples.fixedBearing 0 in
  let View := Samples.flatView in
  let Clock := Samples.tickingRuntime in
  let st' :=
    SketchService.on_update MeasurementService.defaultUnits
      SketchService.Complete [0] Fixtures.labelledTriangle in
  SketchService.labelIndex st' !! "g-1700000000000-k3x9qa" = Some [4; 5]
  /\ ~ (2 ∈ SketchService.labelLayer st')
  /\ ~ (3 ∈ SketchService.labelLayer st')
  /\ 4 ∈ SketchService.labelLayer st'.
Proof.
  intros Engine Shape Math View Clock st'.
  assert (SketchService.currentSettings Fixtures.labelledTriangle
          = Some (Samples.sampleSettings SketchService.ToolPolygon
                    false true false false)) as Hsettings
    by (vm_compute; reflexivity).
  assert (SketchService.editingSelection Fixtures.labelledTriangle = false)
    as Hedit by (vm_compute; reflexivity).
  assert (SketchService.heap Fixtures.labelledTriangle !! 0
          = Some (SketchService.mkGraphic
                    (Some (Geometry.GPolygon Samples.triangle))
                    (Some SketchService.SShape)
                    (Some (SketchService.mkAttributes
                             (Some SketchService.ToolPolygon) None))
                    (Some "g-1700000000000-k3x9qa"))) as Hg
    by (vm_compute; reflexivity).
  assert (SketchService.labelIndex Fixtures.labelledTriangle
          !! "g-1700000000000-k3x9qa" = Some [2; 3]) as Hold
    by (vm_compute; reflexivity).
  assert (length (SketchService.heap Fixtures.labelledTriangle) = 4)
    as Hlen by (vm_compute; reflexivity).
  assert (Forall
            (fun r =>
               r < length (SketchService.heap Fixtures.labelledTriangle))
            [2; 3]) as Hvalid by (rewrite Hlen; repeat constructor).
  destruct (update_complete_replaces_labels (H := Engine) (H0 := Shape)
              (H1 := Math) (H2 := View) (H3 := Clock)
              MeasurementService.defaultUnits Fixtures.labelledTriangle _ 0
              _ (Geometry.GPolygon Samples.triangle)
              "g-1700000000000-k3x9qa" [2; 3]
              Hsettings Hedit Hg eq_refl eq_refl Hold Hvalid)
    as (Hindex & _ & Hgone & Hnew & _).
  split; [|split; [|split]].
  - unfold st'. rewrite Hindex, lookup_insert_eq, Hlen. vm_compute.
    reflexivity.
  - apply Hgone. left.
  - apply Hgone. right. left.
  - apply Hnew. rewrite Hlen.
    assert (length (SketchOperations.completedLabels
                      MeasurementService.defaultUnits
                      (Geometry.GPolygon Samples.triangle)
                      (Samples.sampleSettings SketchService.ToolPolygon
                         false true false false)) = 2) as ->
      by (vm_compute; reflexivity).
    left.
Defined.

Lemma loader_agrees_with_importer_witness :
  let StoredGraphics := Samples.plainJson in
  ExportService.importEsriJson Samples.payloadV2
  = ExportService.Returned
      (ExportService.mkImported [Js.VStr "d"] [] [Js.VStr "t"]).
Proof.
  intros StoredGraphics.
  apply (loader_agrees_with_importer (H := StoredGraphics)). reflexivity.
Defined.

Lemma load_after_save_witness :
  let StoredGraphics := Samples.plainJson in
  let Codec :=
    Fixtures.oneTextJson
      (ExportService.exportEsriJson [Js.VStr "d"] [] [Js.VStr "t"])
      "payload" in
  let Room := Fixtures.roomyStore in
  StorageService.loadGraphics
    (StorageService.saveGraphics [Js.VStr "d"] [] [Js.VStr "t"]
       {[StorageService.GRAPHICS_KEY_V1 := "stale"]})
  = Some (ExportService.mkImported [Js.VStr "d"] [] [Js.VStr "t"]).
Proof.
  intros StoredGraphics Codec Room.
  apply (load_after_save (H := StoredGraphics) (H0 := Codec) (H1 := Room)
           [Js.VStr "d"] [] [Js.VStr "t"]
           {[StorageService.GRAPHICS_KEY_V1 := "stale"]} "payload").
  - intros g. reflexivity.
  - reflexivity.
  - discriminate.
  - reflexivity.
  - reflexivity.
Defined.

Lemma current_key_shadows_old_key_witness :
  let StoredGraphics := Samples.plainJson in
  let Codec := Fixtures.oneTextJson Samples.payloadV1 "old" in
  StorageService.loadGraphics
    ({[StorageService.GRAPHICS_KEY_V2 := "new";
       StorageService.GRAPHICS_KEY_V1 := "old"]} : gmap string string)
  = None.
Proof.
  intros StoredGraphics Codec.
  assert (({[StorageService.GRAPHICS_KEY_V2 := "new";
             StorageService.GRAPHICS_KEY_V1 := "old"]} : gmap string string)
          !! StorageService.GRAPHICS_KEY_V2 = Some "new") as Hnew
    by (vm_compute; reflexivity).
  assert ("new" ≠ "") as Hraw by discriminate.
  apply (current_key_shadows_old_key (H := StoredGraphics) (H0 := Codec)
           _ _ "new" Hnew Hnew Hraw).
  reflexivity.
Defined.

Lemma settings_load_after_save_witness :
  let StoredGraphics := Samples.plainJson in
  let Codec :=
    Fixtures.oneTextJson (Js.VObj [("tool", Js.VStr "polygon")]) "settings" in
  let Room := Fixtures.roomyStore in
  StorageService.loadSettings
    (StorageService.saveSettings (Js.VObj [("tool", Js.VStr "polygon")]) ∅)
  = Js.VObj [("tool", Js.VStr "polygon")].
Proof.
  intros StoredGraphics Codec Room.
  apply (settings_load_after_save (H := StoredGraphics) (H0 := Codec)
           (H1 := Room) (Js.VObj [("tool", Js.VStr "polygon")]) ∅
           "settings").
  - reflexivity.
  - discriminate.
  - reflexivity.
  - reflexivity.
Defined.

Lemma six_digit_colour_witness :
  Colors.hexToRgbArray "#0078ff" 1 = (0, 120, 255, 1%Q)%Z.
Proof.
  exact (six_digit_colour true "0" "0" "7" "8" "f" "f" 0 0 7 8 15 15 1
           eq_refl eq_refl eq_refl eq_refl eq_refl eq_refl).
Defined.

Lemma three_digit_colour_witness :
  Colors.hexToRgbArray "#abc" 1 = (170, 187, 204, 1%Q)%Z.
Proof.
  exact (three_digit_colour true "a" "b" "c" 10 11 12 1
           eq_refl eq_refl eq_refl).
Defined.

Lemma no_colour_is_black_witness :
  Colors.hexToRgbArray "red" 1 = (0, 0, 0, 1%Q)%Z.
Proof.
  exact (no_colour_is_black false "r" "ed" 1
           eq_refl eq_refl eq_refl eq_refl eq_refl).
Defined.
